(** * Tide prediction of the Dahab marine-conditions API

    A shallow embedding of the tide subsystem of the repository:
    - [app/config.py]                  (constants),
    - [app/tides.py]                   (dispatcher and GOT4.10 path),
    - [app/tides_fes2022.py]           (FES2022 path on cached constants),
    - [extract_fes2022_constants.py]   (the offline extraction job),
    - [app/cache.py]                   (the response cache's disk writer).

    Python values are modelled as the code has them: [int] is [Z], [float]
    is the kernel's binary64 ([PrimFloat.float]), exceptions are an explicit
    outcome, the module global [_cached_constants] is threaded as state, and
    the files the code touches live in a finite map from paths to contents.
    The pyTMD library is not part of the repository: its entry points are
    parameters of the sections below. *)

From Stdlib Require Import ZArith List Floats Lia Bool.
From stdpp Require Import gmap strings list.

Set Warnings "-register-all".

Open Scope Z_scope.

(** ** Python outcomes: a value, or a raised exception *)

Module Py.

(** The exception classes the modelled code can meet.  All of them derive
    from [Exception]; [JSONDecodeError] derives from [ValueError], and
    [FileNotFoundError] from [OSError]. *)
Inductive exn : Type :=
| OSError | FileNotFoundError
| ValueError | JSONDecodeError
| TypeError | KeyError | IndexError | AttributeError
| ImportError | OverflowError | ZeroDivisionError.

(** [isinstance(e, OSError)] *)
Definition is_OSError (e : exn) : bool :=
  match e with OSError | FileNotFoundError => true | _ => false end.

Inductive outcome (A : Type) : Type :=
| Returned (a : A)
| Raised (e : exn).
Arguments Returned {A} a.
Arguments Raised {A} e.

Definition bind {A B} (c : outcome A) (k : A -> outcome B) : outcome B :=
  match c with
  | Returned a => k a
  | Raised e => Raised e
  end.

(** [try: body  except Exception: handler] *)
Definition try_except {A} (body : outcome A) (handler : exn -> A) : A :=
  match body with
  | Returned a => a
  | Raised e => handler e
  end.

(** A list comprehension [[f(x) for x in xs]]: the first exception stops it. *)
Fixpoint comprehension {A B} (f : A -> outcome B) (xs : list A)
  : outcome (list B) :=
  match xs with
  | [] => Returned []
  | x :: xs' =>
      match f x with
      | Raised e => Raised e
      | Returned y =>
          match comprehension f xs' with
          | Raised e => Raised e
          | Returned ys => Returned (y :: ys)
          end
      end
  end.

(** [range(n)] as Python integers. *)
Definition range (n : nat) : list Z := map Z.of_nat (seq 0 n).

End Py.

Import Py.

(** [x ← c; k] sequences two steps and lets an exception of [c] through. *)
#[global] Instance outcome_ret : MRet outcome := @Returned.
#[global] Instance outcome_bind : MBind outcome :=
  fun A B k c => Py.bind c k.

(** ** Python's [float]: IEEE 754 binary64 *)

Module F64.

(** [float(z)] for a Python integer: the nearest binary64 value. *)
Definition of_int (z : Z) : float :=
  SF2Prim (binary_normalize prec emax z 0 false).

Definition int_as_spec (z : Z) : spec_float :=
  match z with
  | Z0 => S754_zero false
  | Zpos p => S754_finite false p 0
  | Zneg p => S754_finite true p 0
  end.

(** [float(z)], and a Python integer as an operand of float arithmetic:
    [OverflowError] when the nearest binary64 value is out of range. *)
Definition float_of_int (z : Z) : outcome float :=
  match Prim2SF (of_int z) with
  | S754_infinity _ => Raised OverflowError
  | _ => Returned (of_int z)
  end.

(** [a / b] on Python integers (true division): the exact quotient,
    rounded once. *)
Definition int_truediv (a b : Z) : outcome float :=
  if b =? 0 then Raised ZeroDivisionError
  else Returned (SF2Prim (SFdiv prec emax (int_as_spec a) (int_as_spec b))).

(** The integer nearest to [m * 2^e], ties going to the even one: what
    [round(x)] returns for a finite float [x] of that value
    ([float.__round__] without [ndigits]). *)
Definition round_half_even (m e : Z) : Z :=
  if 0 <=? e then m * 2 ^ e
  else
    let d := 2 ^ (- e) in
    let q := m / d in
    let r := m mod d in
    match 2 * r ?= d with
    | Lt => q
    | Gt => q + 1
    | Eq => if Z.even q then q else q + 1
    end.

(** The rounding the specification names: nearest integer, ties going
    away from zero.  Written from the specification's words, to be
    compared with [round_half_even]. *)
Definition round_half_away_from_zero (m e : Z) : Z :=
  if 0 <=? e then m * 2 ^ e
  else
    let d := 2 ^ (- e) in
    let q := Z.abs m / d in
    let r := Z.abs m mod d in
    Z.sgn m * (if d <=? 2 * r then q + 1 else q).

(** Signed mantissa and exponent of a finite float: its value is
    [m * 2^e]. *)
Definition dyadic (x : float) : option (Z * Z) :=
  match Prim2SF x with
  | S754_zero _ => Some (0, 0)
  | S754_finite s m e => Some (cond_Zopp s (Zpos m), e)
  | S754_infinity _ | S754_nan => None
  end.

(** [round(x)]: [ValueError] on NaN, [OverflowError] on an infinity. *)
Definition py_round (x : float) : outcome Z :=
  match Prim2SF x with
  | S754_nan => Raised ValueError
  | S754_infinity _ => Raised OverflowError
  | S754_zero _ => Returned 0
  | S754_finite s m e => Returned (round_half_even (cond_Zopp s (Zpos m)) e)
  end.

(** The specification's rounding on a float, for comparison. *)
Definition spec_round (x : float) : outcome Z :=
  match Prim2SF x with
  | S754_nan => Raised ValueError
  | S754_infinity _ => Raised OverflowError
  | S754_zero _ => Returned 0
  | S754_finite s m e =>
      Returned (round_half_away_from_zero (cond_Zopp s (Zpos m)) e)
  end.

(** C's [floor] on a double. *)
Definition floor (x : float) : float :=
  match Prim2SF x with
  | S754_finite s m e =>
      if 0 <=? e then x else of_int (cond_Zopp s (Zpos m) / 2 ^ (- e))
  | _ => x
  end.

(** C's [fmod]: the exact remainder of [x / y], with the sign of [x]. *)
Definition fmod (x y : float) : float :=
  match Prim2SF x, Prim2SF y with
  | S754_finite sx mx ex, S754_finite _ my ey =>
      let e := Z.min ex ey in
      let r := Z.rem (Zpos mx * 2 ^ (ex - e)) (Zpos my * 2 ^ (ey - e)) in
      SF2Prim (binary_normalize prec emax (cond_Zopp sx r) e sx)
  | S754_zero _, S754_finite _ _ _ => x
  | S754_zero _, S754_infinity _ => x
  | S754_finite _ _ _, S754_infinity _ => x
  | _, _ => nan
  end.

(** [vx // wx] on floats, following CPython's [float_floor_div]
    ([_float_div_mod] in [Objects/floatobject.c]). *)
Definition floordiv (vx wx : float) : outcome float :=
  if (wx =? 0)%float then Raised ZeroDivisionError
  else
    let m := fmod vx wx in
    let d := ((vx - m) / wx)%float in
    let d :=
      if (m =? 0)%float then d
      else if xorb (wx <? 0)%float (m <? 0)%float then (d - 1)%float
           else d in
    if (d =? 0)%float
    then Returned (if (vx / wx <? 0)%float then (-0)%float else 0%float)
    else
      let fl := floor d in
      Returned (if (0.5 <? d - fl)%float then (fl + 1)%float else fl).

End F64.

(** ** [datetime]: naive UTC instants with microsecond resolution *)

Module Datetime.

Record datetime : Type := mk_datetime {
  year : Z; month : Z; day : Z;
  hour : Z; minute : Z; second : Z; microsecond : Z
}.

Definition is_leap (y : Z) : bool :=
  (y mod 4 =? 0) && (negb (y mod 100 =? 0) || (y mod 400 =? 0)).

(** [_days_before_year] *)
Definition days_before_year (y : Z) : Z :=
  let y1 := y - 1 in y1 * 365 + y1 / 4 - y1 / 100 + y1 / 400.

Definition days_in_month (y m : Z) : Z :=
  match m with
  | 2 => if is_leap y then 29 else 28
  | 4 | 6 | 9 | 11 => 30
  | _ => 31
  end.

(** [_days_before_month] *)
Definition days_before_month (y m : Z) : Z :=
  fold_right Z.add 0
    (map (fun k => days_in_month y (Z.of_nat k)) (seq 1 (Z.to_nat (m - 1)))).

(** [date.toordinal]: day 1 is 0001-01-01. *)
Definition toordinal (d : datetime) : Z :=
  days_before_year (year d) + days_before_month (year d) (month d) + day d.

(** The fields [datetime(...)] accepts. *)
Definition valid (d : datetime) : bool :=
  (1 <=? year d) && (year d <=? 9999) &&
  (1 <=? month d) && (month d <=? 12) &&
  (1 <=? day d) && (day d <=? days_in_month (year d) (month d)) &&
  (0 <=? hour d) && (hour d <? 24) &&
  (0 <=? minute d) && (minute d <? 60) &&
  (0 <=? second d) && (second d <? 60) &&
  (0 <=? microsecond d) && (microsecond d <? 1000000).

Definition microseconds_of_day (d : datetime) : Z :=
  ((hour d * 60 + minute d) * 60 + second d) * 1000000 + microsecond d.

(** [a - b] as a [timedelta], kept as its total number of microseconds. *)
Definition sub (a b : datetime) : Z :=
  (toordinal a - toordinal b) * 86400000000
  + (microseconds_of_day a - microseconds_of_day b).

(** [timedelta.total_seconds()]: the microseconds over [10**6], as a
    float. *)
Definition total_seconds (td : Z) : float :=
  match F64.int_truediv td 1000000 with
  | Returned x => x
  | Raised _ => nan
  end.

End Datetime.

Import Datetime.

(** ** [app/config.py] *)

Module Config.

(** The constants the tide code imports.  The functions below take them
    as a record, so that two runs under different settings can be
    compared; [configured] holds the values of [config.py]. *)
Record settings : Type := mk_settings {
  LATITUDE : float;
  LONGITUDE : float;
  FORECAST_HOURS : nat;
  TIDE_MODEL_NAME : string;
  TIDE_DATUM_OFFSET_CM : Z
}.

(** [os.environ.get("TIDE_MODEL", "GOT4.10")] *)
Definition environ_get (var : option string) (dflt : string) : string :=
  match var with
  | Some v => v
  | None => dflt
  end.

(** [env_TIDE_MODEL] is the value of the environment variable, if set. *)
Definition configured (env_TIDE_MODEL : option string) : settings :=
  {| LATITUDE := 0x1.c7e631f8a0903p+4;      (* 28.4937 *)
     LONGITUDE := 0x1.141ad42c3c9efp+5;     (* 34.5131 *)
     FORECAST_HOURS := 168;
     TIDE_MODEL_NAME := environ_get env_TIDE_MODEL "GOT4.10";
     TIDE_DATUM_OFFSET_CM := 45 |}.

Definition with_offset (cfg : settings) (x : Z) : settings :=
  {| LATITUDE := LATITUDE cfg;
     LONGITUDE := LONGITUDE cfg;
     FORECAST_HOURS := FORECAST_HOURS cfg;
     TIDE_MODEL_NAME := TIDE_MODEL_NAME cfg;
     TIDE_DATUM_OFFSET_CM := x |}.

End Config.

Import Config.

(** ** Values read back by [json.load] *)

Module Json.

(** [JDict] lists the items of the loaded [dict], each key once.  A
    number written without fraction and exponent is loaded as an [int]
    ([JInt]), any other as a [float] ([JNum]).  A [JStr] holds the
    characters of the [str], one [ascii] each. *)
Inductive json : Type :=
| JNull                                   (* None *)
| JBool (b : bool)
| JInt (n : Z)
| JNum (x : float)
| JStr (s : string)
| JList (l : list json)
| JDict (kv : list (string * json)).

Fixpoint assoc (k : string) (kv : list (string * json)) : option json :=
  match kv with
  | [] => None
  | (k', v) :: kv' => if String.eqb k k' then Some v else assoc k kv'
  end.

(** [obj[key]] for a string key. *)
Definition getitem (obj : json) (key : string) : outcome json :=
  match obj with
  | JDict kv =>
      match assoc key kv with
      | Some v => Returned v
      | None => Raised KeyError
      end
  | _ => Raised TypeError
  end.

(** [len(obj)] *)
Definition len (obj : json) : outcome Z :=
  match obj with
  | JList l => Returned (Z.of_nat (length l))
  | JDict kv => Returned (Z.of_nat (length kv))
  | JStr s => Returned (Z.of_nat (String.length s))
  | _ => Raised TypeError
  end.

Definition is_None (obj : json) : bool :=
  match obj with JNull => true | _ => false end.

End Json.

Import Json.

(** ** The part of numpy the FES2022 path uses *)

Module Np.

(** [np.array(payload)] for the payloads the record format holds: a
    number gives a 0-d array, a flat list of numbers a 1-d array.  What
    numpy builds from any other payload is left to a parameter of the
    FES2022 section. *)
Inductive ndarray : Type :=
| Arr0 (x : float)
| Arr1 (xs : list float)
| ArrOther (payload : json).

Definition as_number (j : json) : option float :=
  match j with JNum x => Some x | _ => None end.

Fixpoint numbers (l : list json) : option (list float) :=
  match l with
  | [] => Some []
  | j :: l' =>
      match as_number j, numbers l' with
      | Some x, Some xs => Some (x :: xs)
      | _, _ => None
      end
  end.

Definition array (payload : json) : ndarray :=
  match payload with
  | JNum x => Arr0 x
  | JList l =>
      match numbers l with
      | Some xs => Arr1 xs
      | None => ArrOther payload
      end
  | _ => ArrOther payload
  end.

(** The complex number [modulus * exp(1j * deg2rad(phase_deg))], kept in
    the polar form the code builds it from. *)
Record harmonic : Type := mk_harmonic {
  modulus : float;
  phase_deg : float
}.

(** [amp * np.exp(1j * np.deg2rad(ph))] with numpy's broadcasting: two
    1-d operands must have equal lengths unless one of them has length 1,
    which is then stretched; a 0-d operand is stretched to anything. *)
Definition polar_product (amp ph : ndarray) : option (outcome (list harmonic + harmonic)) :=
  match amp, ph with
  | Arr0 a, Arr0 p => Some (Returned (inr (mk_harmonic a p)))
  | Arr0 a, Arr1 ps => Some (Returned (inl (map (mk_harmonic a) ps)))
  | Arr1 xs, Arr0 p =>
      Some (Returned (inl (map (fun a => mk_harmonic a p) xs)))
  | Arr1 xs, Arr1 ps =>
      Some
        (if Nat.eqb (length xs) (length ps)
         then Returned (inl (zip_with mk_harmonic xs ps))
         else
           match xs, ps with
           | [a], _ => Returned (inl (map (mk_harmonic a) ps))
           | _, [p] => Returned (inl (map (fun a => mk_harmonic a p) xs))
           | _, _ => Raised ValueError
           end)
  | _, _ => None
  end.

(** [np.tile(v, (n, 1))]: [n] rows; a 0-d [v] gives rows of one column. *)
Definition tile (v : list harmonic + harmonic) (n : nat) : list (list harmonic) :=
  match v with
  | inl row => replicate n row
  | inr h => replicate n [h]
  end.

End Np.

Import Np.

(** ** [app/tides.py] and [app/tides_fes2022.py] *)

Module Tides.

(** What [CACHE_FILE] holds when it exists: a text [json.load] decodes, a
    text it rejects, or a file [open] cannot read. *)
Inductive file_content : Type :=
| Document (j : json)
| Undecodable
| Unreadable.

(** The conversion both paths end with:
    [[int(round(float(t) * 100)) + TIDE_DATUM_OFFSET_CM for t in tide]]. *)
Definition height_cm (offset : Z) (t : float) : outcome Z :=
  r ← F64.py_round (t * 100)%float; mret (r + offset).

Definition to_cm (offset : Z) (tide : list float) : outcome (list Z) :=
  comprehension (height_cm offset) tide.

(** A series moved by a constant. *)
Definition moved_by (x : Z) (l : list Z) : list Z := map (fun v => v + x) l.

(** The log line evaluates [min(tide_cm)] and [max(tide_cm)], which raise
    [ValueError] on an empty list. *)
Definition log_range (tide_cm : list Z) : outcome unit :=
  match tide_cm with
  | [] => Raised ValueError
  | _ :: _ => Returned tt
  end.

Section WithPyTMD.

Variable cfg : settings.

(** [import pyTMD] (and its submodules): may raise [ImportError]. *)
Variable import_pyTMD : outcome unit.

(** [pyTMD.compute_tide_corrections(lons, lats, delta_times, ...)] with
    the keyword arguments of the call site (GOT4.10, drift, spline,
    extrapolation). *)
Variable compute_tide_corrections :
  list float -> list float -> list float -> outcome (list float).

(** [pyTMD.predict.drift(t, hc, constituents, deltat=0.0,
    corrections='FES')]. *)
Variable predict_drift :
  list float -> list (list harmonic) -> json -> outcome (list float).

(** numpy on payloads other than numbers and flat lists of numbers:
    the matrix [hc], or the exception, it ends with. *)
Variable numpy_other : ndarray -> ndarray -> nat -> outcome (list (list harmonic)).

(** *** GOT4.10 *)

Definition epoch : datetime := mk_datetime 2000 1 1 0 0 0 0.

(** Seconds since 2000-01-01 of the forecast hours. *)
Definition delta_times (n : nat) (now : datetime) : outcome (list float) :=
  let base_seconds := total_seconds (Datetime.sub now epoch) in
  q ← F64.floordiv base_seconds 3600;
  let base_seconds := (q * 3600)%float in
  mret (map (fun i => (base_seconds + F64.of_int (i * 3600))%float)
            (range n)).

Definition _compute_tides_got410 (now : datetime) : option (list Z) :=
  try_except
    (_ ← import_pyTMD;
     let n := FORECAST_HOURS cfg in
     dts ← delta_times n now;
     let lons := replicate n (LONGITUDE cfg) in
     let lats := replicate n (LATITUDE cfg) in
     tide ← compute_tide_corrections lons lats dts;
     tide_cm ← to_cm (TIDE_DATUM_OFFSET_CM cfg) tide;
     _ ← log_range tide_cm;
     mret (Some tide_cm))
    (fun _ => None).

(** *** FES2022 *)

(** [_load_constants()].  [cached] is the module global
    [_cached_constants] ([JNull] is Python's [None]); [disk] is what
    [CACHE_FILE] holds, if it exists.  The result pairs the outcome with
    the global's new value: the assignment survives an exception raised
    by the log line after it. *)
Definition _load_constants (cached : json) (disk : option file_content)
  : outcome json * json :=
  if negb (is_None cached) then (Returned cached, cached)
  else
    match disk with
    | None => (Returned JNull, cached)
    | Some Unreadable => (Raised OSError, cached)
    | Some Undecodable => (Raised JSONDecodeError, cached)
    | Some (Document j) =>
        (cs ← getitem j "constituents";
         _ ← Json.len cs;
         _ ← getitem j "latitude";
         _ ← getitem j "longitude";
         mret j,
         j)
    end.

Definition epoch_1992 : datetime := mk_datetime 1992 1 1 0 0 0 0.

(** Days since 1992-01-01 of the forecast hours. *)
Definition time_array (n : nat) (now : datetime) : outcome (list float) :=
  let base_days :=
    (total_seconds (Datetime.sub now epoch_1992) / 86400)%float in
  h ← F64.int_truediv 1 24;
  q ← F64.floordiv base_days h;
  let base_days := (q * h)%float in
  mret (map (fun i => (base_days + F64.of_int i / 24)%float) (range n)).

(** [np.ma.array(np.tile(amp * np.exp(1j * np.deg2rad(ph)), (n, 1)))] *)
Definition harmonic_matrix (amp ph : ndarray) (n : nat)
  : outcome (list (list harmonic)) :=
  match polar_product amp ph with
  | Some product => v ← product; mret (tile v n)
  | None => numpy_other amp ph n
  end.

Definition compute_tides_fes2022
    (cached : json) (disk : option file_content) (now : datetime)
  : option (list Z) * json :=
  match import_pyTMD with
  | Raised _ => (None, cached)
  | Returned _ =>
      let '(loaded, cached') := _load_constants cached disk in
      (try_except
         (constants ← loaded;
          if is_None constants then mret None
          else
            constituents ← getitem constants "constituents";
            amplitude ← getitem constants "amplitude";
            phase ← getitem constants "phase";
            let amp := Np.array amplitude in
            let ph := Np.array phase in
            let n := FORECAST_HOURS cfg in
            t ← time_array n now;
            hc ← harmonic_matrix amp ph n;
            tide ← predict_drift t hc constituents;
            tide_cm ← to_cm (TIDE_DATUM_OFFSET_CM cfg) tide;
            _ ← log_range tide_cm;
            mret (Some tide_cm))
         (fun _ => None),
       cached')
  end.

(** *** The dispatcher *)

Definition compute_tides
    (cached : json) (disk : option file_content) (now : datetime)
  : option (list Z) * json :=
  if String.eqb (TIDE_MODEL_NAME cfg) "FES2022"
  then compute_tides_fes2022 cached disk now
  else (_compute_tides_got410 now, cached).

End WithPyTMD.

End Tides.

(** ** The files the writers touch *)

Module Disk.

(** Files by path, each with its text.  A [world] keeps, besides the
    current files, every earlier state: what a reader of the disk could
    have observed while the writer ran. *)
Record world : Type := mk_world {
  files : gmap string string;
  history : list (gmap string string)
}.

Definition start (fs : gmap string string) : world :=
  {| files := fs; history := [] |}.

Definition commit (w : world) (fs' : gmap string string) : world :=
  {| files := fs'; history := files w :: history w |}.

(** Every state of the disk so far, the current one first. *)
Definition states (w : world) : list (gmap string string) :=
  files w :: history w.

(** [open(path, 'w')]: creates the file, or truncates it. *)
Definition open_w (path : string) (fails : bool) (w : world)
  : outcome unit * world :=
  if fails then (Raised OSError, w)
  else (Returned tt, commit w (<[path := ""]> (files w))).

(** One [f.write(piece)] reaching the file. *)
Definition write (path piece : string) (w : world) : world :=
  commit w (alter (fun text => text +:+ piece) path (files w)).

(** [json.dump] streams the document in pieces.  [budget] is the number of
    pieces the device takes before it fails with [OSError]; [None] is a
    device that takes them all. *)
Fixpoint write_all (path : string) (pieces : list string)
    (budget : option nat) (w : world) : outcome unit * world :=
  match pieces with
  | [] => (Returned tt, w)
  | piece :: rest =>
      match budget with
      | Some O => (Raised OSError, w)
      | Some (S k) => write_all path rest (Some k) (write path piece w)
      | None => write_all path rest None (write path piece w)
      end
  end.

(** How many of [n] pieces a device with that budget takes. *)
Definition accepted (budget : option nat) (n : nat) : nat :=
  match budget with
  | None => n
  | Some k => Nat.min k n
  end.

(** [os.replace(src, dst)]: one step, the rename. *)
Definition replace (src dst : string) (fails : bool) (w : world)
  : outcome unit * world :=
  if fails then (Raised OSError, w)
  else
    match files w !! src with
    | None => (Raised FileNotFoundError, w)
    | Some text =>
        (Returned tt, commit w (<[dst := text]> (delete src (files w))))
    end.

(** [os.unlink(path)] *)
Definition unlink (path : string) (fails : bool) (w : world)
  : outcome unit * world :=
  if fails then (Raised OSError, w)
  else
    match files w !! path with
    | None => (Raised FileNotFoundError, w)
    | Some _ => (Returned tt, commit w (delete path (files w)))
    end.

(** [tempfile.mkstemp(dir=dir, suffix=suffix)]: the first candidate name
    that does not exist yet is created, empty; [FileExistsError] (an
    [OSError]) when every candidate is taken. *)
Definition temp_path (dir suffix name : string) : string :=
  dir +:+ "/tmp" +:+ name +:+ suffix.

Definition mkstemp (dir suffix : string) (candidates : list string)
    (w : world) : outcome string * world :=
  match
    List.find
      (fun name =>
         bool_decide (files w !! temp_path dir suffix name = None))
      candidates
  with
  | Some name =>
      let path := temp_path dir suffix name in
      (Returned path, commit w (<[path := ""]> (files w)))
  | None => (Raised OSError, w)
  end.

(** What [json.dump] produces for a value: the pieces it writes and, for
    a value it cannot serialise, the exception it stops with. *)
Record encoding : Type := mk_encoding {
  pieces : list string;
  stops_with : option exn
}.

Definition document (pieces : list string) : string :=
  fold_right String.app "" pieces.

End Disk.

Import Disk.

(** ** [extract_fes2022_constants.py] *)

Module Extract.

Definition CONSTITUENTS : list string :=
  ["2n2"; "eps2"; "j1"; "k1"; "k2"; "l2"; "lambda2"; "m2"; "m3"; "m4";
   "m6"; "m8"; "mf"; "mks2"; "mm"; "mn4"; "ms4"; "msf"; "msqm"; "mtm";
   "mu2"; "n2"; "n4"; "nu2"; "o1"; "p1"; "q1"; "r2"; "s1"; "s2"; "s4";
   "sa"; "ssa"; "t2"].

(** The dictionary [results]. *)
Record results : Type := mk_results {
  latitude : float;
  longitude : float;
  constituents : list string;
  amplitude : list float;
  phase : list float
}.

(** [float(x) if not np.ma.is_masked(x) else 0.0]; [None] is a masked
    entry. *)
Definition unmasked (x : option float) : float :=
  match x with
  | Some v => v
  | None => 0%float
  end.

(** Environment faults of the final write. *)
Record faults : Type := mk_faults {
  mkdir_fails : bool;
  open_fails : bool;
  write_budget : option nat
}.

Section WithFES.

Variable cfg : settings.
Variable TIDE_MODEL_DIR : string.

(** [(MODEL_DIR / f'{c}_fes2022.nc').exists()] *)
Variable model_file_exists : string -> bool.

(** [pyTMD.io.FES.extract_constants(...)] on one model file, read at
    [[0, 0]]: the two entries, each possibly masked, or the exception
    of the call. *)
Variable extract_point :
  string -> outcome (option float * option float).

(** [json.dump(results, f, indent=2)] as the pieces it writes. *)
Variable dump : results -> list string.

Definition model_file (c : string) : string := c +:+ "_fes2022.nc".

Definition CACHE_FILE : string :=
  TIDE_MODEL_DIR +:+ "/FES2022/dahab_constants.json".

Definition empty_results : results :=
  {| latitude := LATITUDE cfg;
     longitude := LONGITUDE cfg;
     constituents := [];
     amplitude := [];
     phase := [] |}.

(** One turn of the loop over [CONSTITUENTS]. *)
Definition visit (r : results) (c : string) : results :=
  if negb (model_file_exists (model_file c)) then r
  else
    match extract_point (model_file c) with
    | Raised _ => r
    | Returned (amp00, ph00) =>
        let a := unmasked amp00 in
        let p := unmasked ph00 in
        {| latitude := latitude r;
           longitude := longitude r;
           constituents := constituents r ++ [c];
           amplitude := amplitude r ++ [a];
           phase := phase r ++ [p] |}
    end.

Definition collect : results := fold_left visit CONSTITUENTS empty_results.

(** What one turn of the loop appends for [c], if anything. *)
Definition extracted (c : string) : option (float * float) :=
  if model_file_exists (model_file c) then
    match extract_point (model_file c) with
    | Returned (amp00, ph00) => Some (unmasked amp00, unmasked ph00)
    | Raised _ => None
    end
  else None.

(** The constituents the loop keeps, in catalog order, each with its pair. *)
Definition entries (catalog : list string) : list (string * (float * float)) :=
  omap (fun c => pair c <$> extracted c) catalog.

(** The save at the end of [extract_constants] (lines 85 to 87). *)
Definition save (r : results) (flt : faults) (w : world)
  : outcome unit * world :=
  if mkdir_fails flt then (Raised OSError, w)
  else
    match open_w CACHE_FILE (open_fails flt) w with
    | (Raised e, w1) => (Raised e, w1)
    | (Returned _, w1) => write_all CACHE_FILE (dump r) (write_budget flt) w1
    end.

End WithFES.

End Extract.

(** ** [app/cache.py]: [CacheManager._save_to_disk] *)

Module Cache.

Record faults : Type := mk_faults {
  makedirs_fails : bool;
  temp_names : list string;       (* the names [mkstemp] draws *)
  write_budget : option nat;
  replace_fails : bool;
  unlink_fails : bool
}.

Section WithBaseDir.

Variable BASE_DIR : string.

Definition cache_dir : string := BASE_DIR +:+ "/data".

(** [os.path.join(BASE_DIR, "data", "cache.json")] *)
Definition CACHE_FILE : string := cache_dir +:+ "/cache.json".

(** The inner [try] block: write the temporary file, then rename it. *)
Definition write_then_replace (tmp_path : string) (stored : encoding)
    (flt : faults) (w : world) : outcome unit * world :=
  match write_all tmp_path (pieces stored) (write_budget flt) w with
  | (Raised e, w1) => (Raised e, w1)
  | (Returned _, w1) =>
      match stops_with stored with
      | Some e => (Raised e, w1)
      | None => replace tmp_path CACHE_FILE (replace_fails flt) w1
      end
  end.

(** The outer [try] block, before [except OSError]. *)
Definition save_attempt (stored : encoding) (flt : faults) (w : world)
  : outcome unit * world :=
  if makedirs_fails flt then (Raised OSError, w)
  else
    match mkstemp cache_dir ".tmp" (temp_names flt) w with
    | (Raised e, w1) => (Raised e, w1)
    | (Returned tmp_path, w1) =>
        match write_then_replace tmp_path stored flt w1 with
        | (Returned _, w2) => (Returned tt, w2)
        | (Raised e, w2) =>
            match unlink tmp_path (unlink_fails flt) w2 with
            | (Raised e', w3) => (Raised e', w3)
            | (Returned _, w3) => (Raised e, w3)
            end
        end
    end.

Definition _save_to_disk (stored : encoding) (flt : faults) (w : world)
  : outcome unit * world :=
  match save_attempt stored flt w with
  | (Returned _, w') => (Returned tt, w')
  | (Raised e, w') =>
      if is_OSError e then (Returned tt, w') else (Raised e, w')
  end.

(** A save that gets its temporary file: the directory can be made and
    one of the names [mkstemp] draws is free on [fs0]; and a save on which
    nothing fails before the document is in place: the device takes every
    piece as well, the value serialises and the rename succeeds. *)
Definition draws_name (flt : faults) (fs0 : gmap string string) : bool :=
  negb (makedirs_fails flt)
  && match
       List.find
         (fun name =>
            bool_decide (fs0 !! temp_path cache_dir ".tmp" name = None))
         (temp_names flt)
     with
     | Some _ => true
     | None => false
     end.

Definition goes_through (stored : encoding) (flt : faults)
    (fs0 : gmap string string) : bool :=
  draws_name flt fs0
  && bool_decide (accepted (write_budget flt) (length (pieces stored))
                  = length (pieces stored))
  && bool_decide (stops_with stored = None)
  && negb (replace_fails flt).

(** The states a save can leave behind or pass through, seen from the
    disk [fs0] it started on and the document [doc] it writes: [fs0]
    itself, [fs0] with a new temporary file in the cache directory, and
    [fs0] with the cache file replaced. *)
Inductive passing (fs0 : gmap string string) (doc : string)
  : gmap string string -> Prop :=
| passing_before : passing fs0 doc fs0
| passing_temp (name text : string) :
    fs0 !! temp_path cache_dir ".tmp" name = None ->
    passing fs0 doc (<[temp_path cache_dir ".tmp" name := text]> fs0)
| passing_after : passing fs0 doc (<[CACHE_FILE := doc]> fs0).

End WithBaseDir.

End Cache.


(** ** Concrete inputs used in the examples below *)

Module Scenario.

Import Tides.

(** Stand-in for [pyTMD.compute_tide_corrections]: the same height at every
    requested time. *)
Definition flat_sea (h : float)
  : list float -> list float -> list float -> outcome (list float) :=
  fun _ _ delta_times => Returned (map (fun _ => h) delta_times).

(** Stand-in for [pyTMD.predict.drift] with its shape discipline: one height
    per time, column [k] of [hc] read for the [k]-th constituent name
    ([IndexError] when the row is too short), nodal factor 1 and every
    constituent at its crest, so that a height is the sum of the moduli. *)
Fixpoint crest_sum (row : list harmonic) (k : nat) (names : list json)
  : outcome float :=
  match names with
  | [] => Returned 0%float
  | _ :: names' =>
      match row !! k with
      | None => Raised IndexError
      | Some h =>
          rest ← crest_sum row (S k) names';
          mret (modulus h + rest)%float
      end
  end.

Definition crest_drift
  : list float -> list (list harmonic) -> json -> outcome (list float) :=
  fun t hc constituents =>
    match constituents with
    | JList names =>
        if negb (Nat.eqb (length hc) (length t)) then Raised ValueError
        else comprehension (fun row => crest_sum row 0 names) hc
    | _ => Raised TypeError
    end.

Definition no_other_payload
  : ndarray -> ndarray -> nat -> outcome (list (list harmonic)) :=
  fun _ _ _ => Raised TypeError.

(** A record as the extraction job writes it. *)
Definition record (names : list string) (amp ph : list float) : json :=
  JDict [("latitude", JNum 0x1.c7e631f8a0903p+4);
         ("longitude", JNum 0x1.141ad42c3c9efp+5);
         ("constituents", JList (map JStr names));
         ("amplitude", JList (map JNum amp));
         ("phase", JList (map JNum ph))].

(** One constituent of amplitude 0.30 m and phase 0 degrees. *)
Definition single_m2 : json := record ["m2"] [0x1.3333333333333p-2%float] [0%float].

(** Amplitude and phase lists of different lengths. *)
Definition lopsided : json :=
  record ["m2"; "s2"] [0x1.3333333333333p-2%float] [0%float; 90%float].


Definition fes2022 : settings := configured (Some "FES2022").
Definition got410 : settings := configured None.

(** An extraction where every model file exists and the grid is masked at
    the point for [m2] only. *)
Definition masked_m2 : string -> outcome (option float * option float) :=
  fun file =>
    if String.eqb file "m2_fes2022.nc" then Returned (None, None)
    else Returned (Some 0.125%float, Some 90%float).

(** An extraction where the model file of [m2] is missing. *)
Definition all_but_m2 : string -> bool :=
  fun file => negb (String.eqb file "m2_fes2022.nc").

Definition everywhere_defined : string -> outcome (option float * option float) :=
  fun _ => Returned (Some 0.125%float, Some 90%float).

(** A disk holding an earlier record, and a serialiser writing three
    pieces. *)
Definition three_pieces : Extract.results -> list string :=
  fun _ => ["{"; "new record"; "}"].

Definition earlier_record (path : string) : gmap string string :=
  {[ path := "{old record}" ]}.

(** 3 November 2026, 13:46:12.345678 UTC. *)
Definition afternoon : datetime := mk_datetime 2026 11 3 13 46 12 345678.

(** 1 January 2037, 02:00:00.000000 UTC: exactly on the hour. *)
Definition on_the_hour : datetime := mk_datetime 2037 1 1 2 0 0 0.

End Scenario.
(** ** [tides_fes2022.py]: [verify_fes2022_installation], and
    [verify_fes2022.py] *)

Module Installation.

(** The dictionary [verify_fes2022_installation] returns; an absent key is
    [None]. *)
Record status : Type := mk_status {
  cache_exists : bool;
  constituents_count : Z;
  latitude : option json;
  longitude : option json;
  ready : bool;
  error : option exn
}.

(** [bool(obj)] *)
Definition truthy (obj : json) : bool :=
  match obj with
  | JNull => false
  | JBool b => b
  | JInt n => negb (n =? 0)
  | JNum x => negb (x =? 0)%float
  | JStr s => negb (String.eqb s "")
  | JList l => negb (Nat.eqb (length l) 0)
  | JDict kv => negb (Nat.eqb (length kv) 0)
  end.

Definition with_error (st : status) (e : exn) : status :=
  {| cache_exists := cache_exists st;
     constituents_count := constituents_count st;
     latitude := latitude st;
     longitude := longitude st;
     ready := ready st;
     error := Some e |}.

(** [cached] and [disk] are as for [_load_constants]; the result pairs the
    dictionary with the new value of [_cached_constants]. *)
Definition verify_fes2022_installation
    (cached : json) (disk : option Tides.file_content) : status * json :=
  let result :=
    {| cache_exists := match disk with Some _ => true | None => false end;
       constituents_count := 0;
       latitude := None;
       longitude := None;
       ready := false;
       error := None |} in
  match disk with
  | None => (result, cached)
  | Some _ =>
      let '(loaded, cached') := Tides._load_constants cached disk in
      (match loaded with
       | Raised e => with_error result e
       | Returned constants =>
           if truthy constants then
             match names ← getitem constants "constituents"; Json.len names with
             | Raised e => with_error result e
             | Returned count =>
                 let counted :=
                   {| cache_exists := true;
                      constituents_count := count;
                      latitude := None;
                      longitude := None;
                      ready := false;
                      error := None |} in
                 match getitem constants "latitude" with
                 | Raised e => with_error counted e
                 | Returned lat =>
                     match getitem constants "longitude" with
                     | Raised e =>
                         with_error
                           {| cache_exists := true;
                              constituents_count := count;
                              latitude := Some lat;
                              longitude := None;
                              ready := false;
                              error := None |} e
                     | Returned lon =>
                         {| cache_exists := true;
                            constituents_count := count;
                            latitude := Some lat;
                            longitude := Some lon;
                            ready := 8 <=? count;
                            error := None |}
                     end
                 end
             end
           else result
       end,
       cached')
  end.

(** [CACHE_FILE.exists()] answers, or lets through the [OSError] of its
    [stat] when that is not a "no such file" one ([PermissionError], say).
    Lines 120 and 125 call it outside the [try], so that the exception
    leaves [verify_fes2022_installation] before anything else happens;
    [exists_fault] is that exception, if there is one. *)
Definition checked (exists_fault : option exn) (cached : json)
    (disk : option Tides.file_content) : outcome (status * json) :=
  match exists_fault with
  | Some e => Raised e
  | None => Returned (verify_fes2022_installation cached disk)
  end.

Section WithPredictor.

Variable cfg : settings.
Variable import_pyTMD : outcome unit.
Variable predict_drift :
  list float -> list (list harmonic) -> json -> outcome (list float).
Variable numpy_other : ndarray -> ndarray -> nat -> outcome (list (list harmonic)).

(** The [print] call on a line of [verify_fes2022.py]: it returns, or
    raises what writing to the standard output raised
    ([UnicodeEncodeError] for the marks of lines 22, 30, 34 and 37 on an
    output that cannot encode them). *)
Variable print : Z -> outcome unit.
Variable exists_fault : option exn.

(** [main()] of [verify_fes2022.py], run as the script is: in a process of
    its own, where the global is still [None].  The result is the exit
    status.  Line 19 reads [status['longitude']] for its text when
    [status.get('latitude')] is true. *)
Definition main (disk : option Tides.file_content) (now : datetime)
  : outcome Z :=
  _ ← print 10;
  checked_status ← checked exists_fault JNull disk;
  let st := fst checked_status in
  let cached1 := snd checked_status in
  _ ← print 14;
  _ ← print 15;
  _ ← print 16;
  _ ← match latitude st with
      | Some lat =>
          if truthy lat then
            match longitude st with
            | Some _ => print 19
            | None => Raised KeyError
            end
          else Returned tt
      | None => Returned tt
      end;
  if ready st then
    _ ← print 22;
    _ ← print 23;
    match fst (Tides.compute_tides_fes2022 cfg import_pyTMD predict_drift
                 numpy_other cached1 disk now) with
    | Some (_ :: _) =>
        _ ← print 30;
        _ ← print 31;
        _ ← print 32;
        mret 0
    | _ =>
        _ ← print 34;
        mret 1
    end
  else
    _ ← print 37;
    _ ← print 38;
    _ ← print 39;
    _ ← print 40;
    mret 1.

End WithPredictor.

End Installation.

(** ** From the extraction job to the prediction *)

Module Persisted.

(** What [json.load] gives back for the document [json.dump(results, f,
    indent=2)] wrote: the dictionary [results], key by key. *)
Definition as_loaded (r : Extract.results) : json :=
  JDict [("latitude", JNum (Extract.latitude r));
         ("longitude", JNum (Extract.longitude r));
         ("constituents", JList (map JStr (Extract.constituents r)));
         ("amplitude", JList (map JNum (Extract.amplitude r)));
         ("phase", JList (map JNum (Extract.phase r)))].

End Persisted.
(** ** More concrete inputs *)

Module Examples.

(** A record without the ["latitude"] key. *)
Definition no_latitude : json :=
  JDict [("longitude", JNum 0x1.141ad42c3c9efp+5);
         ("constituents", JList [JStr "m2"]);
         ("amplitude", JList [JNum 0x1.3333333333333p-2]);
         ("phase", JList [JNum 0])].

(** A record of eight constituents. *)
Definition eight_names : list string :=
  ["m2"; "s2"; "n2"; "k1"; "o1"; "k2"; "p1"; "q1"].

Definition eight : json :=
  Scenario.record eight_names (replicate 8 0.125%float) (replicate 8 0%float).

End Examples.

(** ** [cache.py]: [CacheManager] *)

Module Manager.

(** The two attributes of a [CacheManager].  [_last_updated] is whatever
    the cache file gave for it, hence a value and not a float. *)
Record manager : Type := mk_manager {
  _data : json;
  _last_updated : json
}.

(** The attributes as [__init__] sets them before it loads. *)
Definition fresh : manager :=
  {| _data := JNull; _last_updated := JNum 0 |}.

(** [obj.get(key, default)]: only a [dict] has the method. *)
Definition dict_get (obj : json) (key : string) (default : json)
  : outcome json :=
  match obj with
  | JDict kv =>
      Returned (match assoc key kv with Some v => v | None => default end)
  | _ => Raised AttributeError
  end.

(** A value as an operand of float arithmetic and comparison: a [bool]
    and an [int] are numbers.  An [int] stands for the float nearest to
    it, an infinity when it is out of range. *)
Definition as_float (v : json) : option float :=
  match v with
  | JNum x => Some x
  | JInt n => Some (F64.of_int n)
  | JBool b => Some (if b then 1 else 0)%float
  | _ => None
  end.

(** [t - v] for a float [t]: an [int] is converted first, which raises
    [OverflowError] when it is too large for a float. *)
Definition float_sub (t : float) (v : json) : outcome float :=
  match v with
  | JInt n => x ← F64.float_of_int n; mret (t - x)%float
  | _ =>
      match as_float v with
      | Some x => Returned (t - x)%float
      | None => Raised TypeError
      end
  end.

(** [v == 0.0]: an [int] is compared by value, and the float nearest to
    an [int] is zero for 0 only. *)
Definition equals_zero (v : json) : bool :=
  match as_float v with
  | Some x => (x =? 0)%float
  | None => false
  end.

(** [int(x)] for a float: truncation towards zero. *)
Definition py_int (x : float) : outcome Z :=
  match Prim2SF x with
  | S754_nan => Raised ValueError
  | S754_infinity _ => Raised OverflowError
  | S754_zero _ => Returned 0
  | S754_finite s m e =>
      Returned
        (cond_Zopp s (if 0 <=? e then Zpos m * 2 ^ e else Zpos m / 2 ^ (- e)))
  end.

(** [config.py] *)
Definition POLL_INTERVAL_SECONDS : Z := 1800.

(** [except (json.JSONDecodeError, OSError)] *)
Definition caught_on_load (e : exn) : bool :=
  match e with
  | JSONDecodeError => true
  | _ => is_OSError e
  end.

(** [self._data is not None] *)
Definition has_data (self : manager) : bool := negb (is_None (_data self)).

(** [now] is what [time.time()] returns. *)
Definition get_age_seconds (now : float) (self : manager) : outcome float :=
  if equals_zero (_last_updated self) then Returned infinity
  else float_sub now (_last_updated self).

Definition needs_refresh (now : float) (self : manager) : outcome bool :=
  if negb (has_data self) then Returned true
  else
    age ← get_age_seconds now self;
    mret (F64.of_int POLL_INTERVAL_SECONDS <? age)%float.

(** A value of the response: one of the payload, or the integer age. *)
Inductive field : Type :=
| Payload (v : json)
| Age (n : Z).

(** [d[k] = v] on the items of a [dict]: an existing key keeps its place. *)
Fixpoint dict_set {A} (k : string) (v : A) (kv : list (string * A))
  : list (string * A) :=
  match kv with
  | [] => [(k, v)]
  | (k', v') :: rest =>
      if String.eqb k k' then (k, v) :: rest
      else (k', v') :: dict_set k v rest
  end.

(** [d.get(k)] on the items of a [dict] *)
Fixpoint dict_item {A} (k : string) (kv : list (string * A)) : option A :=
  match kv with
  | [] => None
  | (k', v) :: rest => if String.eqb k k' then Some v else dict_item k rest
  end.

(** [{**self._data, "age": int(self.get_age_seconds())}]: the mapping is
    unpacked before the age is computed. *)
Definition get_response (now : float) (self : manager)
  : outcome (option (list (string * field))) :=
  match _data self with
  | JNull => Returned None
  | JDict kv =>
      age ← get_age_seconds now self;
      n ← py_int age;
      mret (Some (dict_set "age" (Age n)
                    (map (fun item => (item.1, Payload item.2)) kv)))
  | _ => Raised TypeError
  end.

(** What [_save_to_disk] passes to [json.dump]. *)
Definition stored_of (self : manager) : json :=
  JDict [("data", _data self); ("last_updated", _last_updated self)].

Section WithFiles.

Variable BASE_DIR : string.
(** [json.load] on the text of a file, and [json.dump]. *)
Variable loads : string -> outcome json.
Variable dumps : json -> encoding.

(** The body of the [try] block of [_load_from_disk], with the attributes
    as it leaves them. *)
Definition load_attempt (open_fails : bool) (now : float) (text : string)
    (self : manager) : outcome unit * manager :=
  if open_fails then (Raised OSError, self)
  else
    match loads text with
    | Raised e => (Raised e, self)
    | Returned stored =>
        match dict_get stored "data" JNull with
        | Raised e => (Raised e, self)
        | Returned data =>
            let self1 :=
              {| _data := data; _last_updated := _last_updated self |} in
            match dict_get stored "last_updated" (JNum 0) with
            | Raised e => (Raised e, self1)
            | Returned last_updated =>
                let self2 :=
                  {| _data := data; _last_updated := last_updated |} in
                match float_sub now last_updated with
                | Raised e => (Raised e, self2)
                | Returned _ => (Returned tt, self2)
                end
            end
        end
    end.

Definition _load_from_disk (open_fails : bool) (now : float)
    (fs : gmap string string) (self : manager) : outcome unit * manager :=
  match fs !! Cache.CACHE_FILE BASE_DIR with
  | None => (Returned tt, self)
  | Some text =>
      match load_attempt open_fails now text self with
      | (Returned _, self') => (Returned tt, self')
      | (Raised e, self') =>
          if caught_on_load e then (Returned tt, self') else (Raised e, self')
      end
  end.

(** [CacheManager()]: the object, unless loading raised. *)
Definition __init__ (open_fails : bool) (now : float)
    (fs : gmap string string) : outcome manager :=
  match _load_from_disk open_fails now fs fresh with
  | (Returned _, self) => Returned self
  | (Raised e, _) => Raised e
  end.

(** [update(data)] at time [now]: the outcome, the object and the disk. *)
Definition update (data : json) (now : float) (flt : Cache.faults)
    (self : manager) (w : world) : outcome unit * manager * world :=
  let self' := {| _data := data; _last_updated := JNum now |} in
  let '(result, w') :=
    Cache._save_to_disk BASE_DIR (dumps (stored_of self')) flt w in
  (result, self', w').

End WithFiles.

End Manager.

(** ** [fetcher.py] *)

Module Fetcher.

(** A number as [max] and [round] meet it.  The code converts no
    reading, so an [int] stays an [int]. *)
Inductive num : Type :=
| NInt (n : Z)
| NFloat (x : float).

(** A value among numbers, as an operand of [>] and of [round]: a [bool]
    is an [int], anything that is no number ends in [TypeError]. *)
Definition number (v : json) : outcome num :=
  match v with
  | JInt n => Returned (NInt n)
  | JBool b => Returned (NInt (if b then 1 else 0))
  | JNum x => Returned (NFloat x)
  | _ => Raised TypeError
  end.

(** How a float compares with an [int]: by value, exactly, an infinity
    lying beyond every integer; [None] for a NaN. *)
Definition compare_float_int (x : float) (n : Z) : option comparison :=
  match Prim2SF x with
  | S754_nan => None
  | S754_infinity s => Some (if s then Lt else Gt)
  | S754_zero _ => Some (0 ?= n)
  | S754_finite s m e =>
      let v := cond_Zopp s (Zpos m) in
      Some (if 0 <=? e then v * 2 ^ e ?= n else v ?= n * 2 ^ (- e))
  end.

(** [a > b] *)
Definition gt (a b : num) : bool :=
  match a, b with
  | NInt n, NInt k => k <? n
  | NFloat x, NFloat y => (y <? x)%float
  | NFloat x, NInt n =>
      match compare_float_int x n with Some Gt => true | _ => false end
  | NInt n, NFloat x =>
      match compare_float_int x n with Some Lt => true | _ => false end
  end.

(** [max] on a list with a first item: a later item replaces the maximum
    so far when it is greater. *)
Definition py_max (first : num) (rest : list num) : num :=
  fold_left (fun m x => if gt x m then x else m) rest first.

(** [round(x)]: an [int] is its own rounding. *)
Definition rounded (x : num) : outcome Z :=
  match x with
  | NInt n => Returned n
  | NFloat y => F64.py_round y
  end.

(** [hourly_dust[start:end]] for [start = day * 24], [end = start + 24] *)
Definition day_chunk (hourly_dust : list json) (day : nat) : list json :=
  take 24 (drop (day * 24) hourly_dust).

(** One round of the loop: the chunk without its [None], and the integer
    appended for it, if any. *)
Definition day_max (hourly_dust : list json) (day : nat)
  : outcome (option Z) :=
  let chunk :=
    List.filter (fun v => negb (is_None v)) (day_chunk hourly_dust day) in
  readings ← comprehension number chunk;
  match readings with
  | [] => Returned None
  | first :: rest => n ← rounded (py_max first rest); mret (Some n)
  end.

(** [for day in ...] with [daily_max] as it grows. *)
Fixpoint days_loop (hourly_dust : list json) (days : list nat)
    (daily_max : list Z) : outcome (list Z) :=
  match days with
  | [] => Returned daily_max
  | day :: rest =>
      m ← day_max hourly_dust day;
      days_loop hourly_dust rest
        (match m with Some n => daily_max ++ [n] | None => daily_max end)
  end.

(** The body of [fetch_daily_dust] from the loop on.  A string can be
    sliced too: an empty one gives seven empty chunks, any other a chunk
    of characters, which [round] refuses.  The other values cannot be
    sliced. *)
Definition daily_maxima (hourly_dust : json) : outcome (option (list Z)) :=
  match hourly_dust with
  | JList l =>
      daily_max ← days_loop l (seq 0 7) [];
      mret (match daily_max with [] => None | _ => Some daily_max end)
  | JStr s => if String.eqb s "" then Returned None else Raised TypeError
  | _ => Raised TypeError
  end.

(** [response] is what [resp.json()] returned, or what the request
    raised. *)
Definition fetch_daily_dust (response : outcome json) : option (list Z) :=
  try_except
    (data ← response;
     hourly ← getitem data "hourly";
     hourly_dust ← getitem hourly "dust";
     daily_maxima hourly_dust)
    (fun _ => None).

Section WithFloatParser.

(** [float(s)] for a string *)
Variable float_of_str : string -> outcome float.

(** [float(v)] for a value that is not [None] *)
Definition to_float (v : json) : outcome float :=
  match v with
  | JNum x => Returned x
  | JInt n => F64.float_of_int n
  | JBool b => Returned (if b then 1 else 0)%float
  | JStr s => float_of_str s
  | _ => Raised TypeError
  end.

(** The items [for v in values] visits: those of a list, the characters
    of a string, the keys of a [dict]. *)
Definition iter (values : json) : outcome (list json) :=
  match values with
  | JList l => Returned l
  | JStr s =>
      Returned (map (fun c => JStr (String c "")) (String.list_ascii_of_string s))
  | JDict kv => Returned (map (fun item => JStr item.1) kv)
  | _ => Raised TypeError
  end.

Definition _to_int_list (values : json) : outcome (list Z) :=
  items ← iter values;
  comprehension
    (fun v =>
       if negb (is_None v) then x ← to_float v; F64.py_round x
       else Returned 0)
    items.

Definition fetch_sea_temperature (response : outcome json)
  : option (list Z) :=
  try_except
    (data ← response;
     hourly ← getitem data "hourly";
     values ← getitem hourly "sea_surface_temperature";
     out ← _to_int_list values;
     mret (Some out))
    (fun _ => None).

End WithFloatParser.

End Fetcher.

(** ** Values for the cache manager *)

Module Stock.

Definition base_dir : string := "/var/www/dahab-api".

(** A payload that has an ["age"] of its own. *)
Definition payload : json :=
  JDict [("ts", JNum 1769727600); ("age", JNum 7); ("tz_offset", JNum 120)].

Definition saved_at : float := 1769731200%float.

Definition kept : Manager.manager := Manager.mk_manager payload (JNum saved_at).

Definition text : string :=
  "{data: {ts: 1769727600, age: 7, tz_offset: 120}, last_updated: 1769731200.0}".

(** A codec that knows this one document: written in two pieces, and read
    back. *)
Definition dumps (j : json) : encoding :=
  mk_encoding
    ["{data: {ts: 1769727600, age: 7, tz_offset: 120}, ";
     "last_updated: 1769731200.0}"]
    None.

Definition loads (s : string) : outcome json :=
  if String.eqb s text then Returned (Manager.stored_of kept)
  else Raised JSONDecodeError.

(** [json.dump] on a payload it cannot serialise: [TypeError] after the
    first piece. *)
Definition dumps_stopping (j : json) : encoding :=
  mk_encoding ["{data: "] (Some TypeError).

Definition no_faults : Cache.faults :=
  Cache.mk_faults false ["k3x9q2ab"] None false false.

(** A device that takes one piece only, on a disk where the temporary
    file cannot be removed either. *)
Definition full_device : Cache.faults :=
  Cache.mk_faults false ["k3x9q2ab"] (Some 1%nat) false true.

(** Documents with a cache file that is foreign to the manager. *)
Definition loads_as (j : json) (s : string) : outcome json := Returned j.

Definition dated_in_words : json :=
  JDict [("data", payload); ("last_updated", JStr "yesterday")].

Definition undated : json := JDict [("data", payload)].

(** A cache file dated with an integer of 401 digits. *)
Definition dated_beyond_floats : json :=
  JDict [("data", payload); ("last_updated", JInt (10 ^ 400))].

Definition one_file (s : string) : gmap string string :=
  {[ Cache.CACHE_FILE base_dir := s ]}.

End Stock.

(** ** Values for the fetchers *)

Module Readings.

(** A day of 24 readings with its maximum at noon. *)
Definition calm_day : list json :=
  replicate 12 (JNum 3.25) ++ [JNum 12.5] ++ replicate 11 JNull.

Definition dusty_day : list json :=
  replicate 5 JNull ++ [JNum 86.5; JNum 86.75] ++ replicate 17 (JNum 40).

(** A payload of the air quality API: two readings on the first day, an
    integer the larger, none on the second, one on the third. *)
Definition dust_payload : json :=
  JDict [("hourly",
          JDict [("dust",
                  JList ([JNum 30.25; JNull; JInt 31]
                         ++ replicate 45 JNull ++ [JNum 17.5]))])].

(** The air quality payload with a word for a reading of the second
    day. *)
Definition dust_in_words : json :=
  JDict [("hourly", JDict [("dust", JList (calm_day ++ [JStr "n/a"]))])].

(** A parser that knows no number. *)
Definition no_float (s : string) : outcome float := Raised ValueError.

Definition sea_payload : json :=
  JDict [("hourly",
          JDict [("sea_surface_temperature",
                  JList [JNum 22.5; JNull; JNum 23.5; JNum 21.25])])].

End Readings.

(** * Properties *)

(** ** Rounding *)

Section Rounding.

Import F64.

Lemma round_half_even_integral (m e : Z) :
  0 <= e -> round_half_even m e = m * 2 ^ e.
Proof.
  intros He. unfold round_half_even.
  destruct (Z.leb_spec 0 e); [reflexivity | lia].
Qed.

(** Below the binary point: the result is within half a unit of
    [m * 2^e], and a result exactly half a unit away is even. *)
Lemma round_half_even_nearest (m e : Z) :
  e < 0 ->
  let d := 2 ^ (- e) in
  let r := round_half_even m e in
  Z.abs (2 * (r * d - m)) <= d /\
  (Z.abs (2 * (r * d - m)) = d -> Z.even r = true).
Proof.
  intros He d r. subst r. unfold round_half_even.
  destruct (Z.leb_spec 0 e) as [Hle | _]; [lia |].
  fold d.
  assert (Hd : 0 < d) by (apply Z.pow_pos_nonneg; lia).
  pose proof (Z.div_mod m d ltac:(lia)) as Hdm.
  pose proof (Z.mod_pos_bound m d Hd) as Hr.
  set (q := m / d) in *. set (r0 := m mod d) in *.
  destruct (Z.compare_spec (2 * r0) d) as [Heq | Hlt | Hgt].
  - destruct (Z.even q) eqn:Hev.
    + split; [nia | intros _; exact Hev].
    + split; [nia |].
      intros _. rewrite Z.even_add, Hev. reflexivity.
  - split; [nia | nia].
  - split; [nia | nia].
Qed.

End Rounding.

(** ** List comprehensions *)

Section Comprehension.

Context {A B : Type}.
Implicit Types (f : A -> outcome B) (xs : list A) (ys : list B).

Lemma comprehension_length f xs ys :
  comprehension f xs = Returned ys -> length ys = length xs.
Proof.
  revert ys. induction xs as [| x xs IH]; intros ys; simpl.
  - intros [= <-]. reflexivity.
  - destruct (f x); [| discriminate].
    destruct (comprehension f xs); [| discriminate].
    intros [= <-]. simpl. f_equal. apply IH. reflexivity.
Qed.

Lemma comprehension_lookup f xs ys i x :
  comprehension f xs = Returned ys ->
  xs !! i = Some x ->
  exists y, f x = Returned y /\ ys !! i = Some y.
Proof.
  revert ys i. induction xs as [| x0 xs IH]; intros ys i; simpl.
  - intros _ Hx. discriminate Hx.
  - destruct (f x0) as [y0 |] eqn:Hf; [| discriminate].
    destruct (comprehension f xs) as [ys' |]; [| discriminate].
    intros [= <-]. destruct i as [| i]; simpl.
    + intros [= ->]. exists y0. split; [exact Hf | reflexivity].
    + intros Hx. apply (IH ys' i); [reflexivity | exact Hx].
Qed.

(** An exception anywhere in the list is the comprehension's outcome. *)
Lemma comprehension_raises f xs i x e :
  xs !! i = Some x -> f x = Raised e ->
  exists e', comprehension f xs = Raised e'.
Proof.
  revert i. induction xs as [| x0 xs IH]; intros i; simpl.
  - intros Hx. discriminate Hx.
  - destruct i as [| i]; simpl.
    + intros [= ->] ->. exists e. reflexivity.
    + intros Hx Hf. destruct (f x0); [| eauto].
      destruct (IH i Hx Hf) as [e' ->]. eauto.
Qed.

End Comprehension.

(** ** Centimetres and the datum offset *)

Section Centimetres.

Import Tides.

Lemma height_cm_shift (x : Z) (t : float) :
  height_cm x t
  = match height_cm 0 t with
    | Returned v => Returned (v + x)
    | Raised e => Raised e
    end.
Proof.
  unfold height_cm. destruct (F64.py_round (t * 100)%float); simpl.
  - f_equal. lia.
  - reflexivity.
Qed.

Lemma to_cm_shift (x : Z) (tide : list float) :
  to_cm x tide
  = match to_cm 0 tide with
    | Returned l => Returned (moved_by x l)
    | Raised e => Raised e
    end.
Proof.
  unfold to_cm. induction tide as [| t tide IH]; simpl; [reflexivity |].
  rewrite (height_cm_shift x t).
  destruct (height_cm 0 t); [| reflexivity].
  rewrite IH. destruct (comprehension (height_cm 0) tide); reflexivity.
Qed.

Lemma log_range_shift (x : Z) (l : list Z) :
  log_range (moved_by x l) = log_range l.
Proof. destruct l; reflexivity. Qed.

End Centimetres.


(** One step of a Python body: sequencing reduces once the left outcome is
    known. *)
Ltac py_run :=
  cbn [mbind outcome_bind Py.bind mret outcome_ret try_except].

(** Case analysis on the next call of a body, its exception closing the
    goal. *)
Ltac py_case c :=
  destruct c; py_run; [| reflexivity].

(** A script whose run ended at a [print] that raised, equation [H]; and
    one that ran to its end with status 1. *)
Ltac script_stops H :=
  split_and!;
    [ intros ? [= <-]; right; eexists; exact H
    | intros _ Hall; rewrite Hall in H; discriminate H
    | intros ? Hcode; discriminate Hcode ].

Ltac script_fails :=
  split_and!;
    [ intros ? Hraised; discriminate Hraised
    | eauto
    | intros ? [= <-]; split;
        [right; reflexivity | intros Hzero; discriminate Hzero] ].

Section DatumShift.

Import Tides.

Variable cfg : settings.
Variable import_pyTMD : outcome unit.
Variable compute_tide_corrections :
  list float -> list float -> list float -> outcome (list float).
Variable predict_drift :
  list float -> list (list harmonic) -> json -> outcome (list float).
Variable numpy_other : ndarray -> ndarray -> nat -> outcome (list (list harmonic)).

Lemma tail_shift (x : Z) (tide : list float) :
  try_except
    (tide_cm ← to_cm x tide; _ ← log_range tide_cm; mret (Some tide_cm))
    (fun _ => None)
  = moved_by x <$>
    try_except
      (tide_cm ← to_cm 0 tide; _ ← log_range tide_cm; mret (Some tide_cm))
      (fun _ => None).
Proof.
  rewrite (to_cm_shift x tide).
  py_case (to_cm 0 tide).
  rewrite log_range_shift. py_case (log_range a). reflexivity.
Qed.

Lemma got410_shift (x : Z) (now : datetime) :
  _compute_tides_got410 (with_offset cfg x) import_pyTMD compute_tide_corrections now
  = moved_by x <$>
    _compute_tides_got410 (with_offset cfg 0) import_pyTMD compute_tide_corrections now.
Proof.
  unfold _compute_tides_got410.
  cbn [FORECAST_HOURS LONGITUDE LATITUDE TIDE_DATUM_OFFSET_CM with_offset].
  generalize (delta_times (FORECAST_HOURS cfg) now). intros grid.
  py_case import_pyTMD.
  py_case grid.
  py_case (compute_tide_corrections
             (replicate (FORECAST_HOURS cfg) (LONGITUDE cfg))
             (replicate (FORECAST_HOURS cfg) (LATITUDE cfg)) a0).
  apply tail_shift.
Qed.

Lemma fes2022_shift (x : Z) (cached : json) (disk : option file_content) (now : datetime) :
  compute_tides_fes2022 (with_offset cfg x) import_pyTMD predict_drift numpy_other cached disk now
  = let r := compute_tides_fes2022 (with_offset cfg 0) import_pyTMD predict_drift numpy_other cached disk now in
    (moved_by x <$> fst r, snd r).
Proof.
  unfold compute_tides_fes2022.
  cbn [FORECAST_HOURS LONGITUDE LATITUDE TIDE_DATUM_OFFSET_CM with_offset].
  generalize (time_array (FORECAST_HOURS cfg) now). intros grid.
  destruct import_pyTMD; [| reflexivity].
  destruct (_load_constants cached disk) as [loaded cached'].
  cbn [fst snd]. f_equal.
  py_case loaded.
  destruct (is_None a0); [reflexivity |].
  py_case (getitem a0 "constituents").
  py_case (getitem a0 "amplitude").
  py_case (getitem a0 "phase").
  py_case grid.
  match goal with |- context [harmonic_matrix ?u ?v ?w ?z] => py_case (harmonic_matrix u v w z) end.
  match goal with |- context [predict_drift ?u ?v ?w] => py_case (predict_drift u v w) end.
  apply tail_shift.
Qed.

Lemma compute_tides_shift (x : Z) (cached : json) (disk : option file_content) (now : datetime) :
  fst (compute_tides (with_offset cfg x) import_pyTMD compute_tide_corrections
         predict_drift numpy_other cached disk now)
  = moved_by x <$>
    fst (compute_tides (with_offset cfg 0) import_pyTMD compute_tide_corrections
           predict_drift numpy_other cached disk now).
Proof.
  unfold compute_tides. cbn [TIDE_MODEL_NAME with_offset].
  destruct (String.eqb (TIDE_MODEL_NAME cfg) "FES2022").
  - rewrite fes2022_shift. reflexivity.
  - cbn [fst]. apply got410_shift.
Qed.

End DatumShift.

(** C3 (datum linearity).  Two runs of the dispatcher that differ only in the
    datum offset, [X] against [0], and therefore see the same synthesized
    heights: wherever both return a series, entry [t] of the first minus
    entry [t] of the second is exactly [X]. *)
Theorem datum_offset_shifts_every_entry
    (cfg : settings) (import_pyTMD : outcome unit)
    (compute_tide_corrections :
       list float -> list float -> list float -> outcome (list float))
    (predict_drift :
       list float -> list (list harmonic) -> json -> outcome (list float))
    (numpy_other : ndarray -> ndarray -> nat -> outcome (list (list harmonic)))
    (cached : json) (disk : option Tides.file_content) (now : datetime)
    (X : Z) (series_X series_0 : list Z) (t : nat) (a b : Z) :
  fst (Tides.compute_tides (with_offset cfg X) import_pyTMD
         compute_tide_corrections predict_drift numpy_other cached disk now)
    = Some series_X ->
  fst (Tides.compute_tides (with_offset cfg 0) import_pyTMD
         compute_tide_corrections predict_drift numpy_other cached disk now)
    = Some series_0 ->
  series_X !! t = Some a ->
  series_0 !! t = Some b ->
  a - b = X.
Proof.
  intros HX H0 Ha Hb.
  rewrite compute_tides_shift, H0 in HX. cbn in HX.
  injection HX as <-. unfold Tides.moved_by in Ha.
  rewrite list_lookup_fmap, Hb in Ha. cbn in Ha.
  injection Ha as <-. lia.
Qed.

(** Both runs succeed or fail together, with series of the same length. *)
Lemma datum_offset_keeps_shape
    (cfg : settings) (import_pyTMD : outcome unit)
    (compute_tide_corrections :
       list float -> list float -> list float -> outcome (list float))
    (predict_drift :
       list float -> list (list harmonic) -> json -> outcome (list float))
    (numpy_other : ndarray -> ndarray -> nat -> outcome (list (list harmonic)))
    (cached : json) (disk : option Tides.file_content) (now : datetime) (X : Z) :
  (length <$> fst (Tides.compute_tides (with_offset cfg X) import_pyTMD
         compute_tide_corrections predict_drift numpy_other cached disk now))
  = (length <$> fst (Tides.compute_tides (with_offset cfg 0) import_pyTMD
         compute_tide_corrections predict_drift numpy_other cached disk now)).
Proof.
  rewrite compute_tides_shift.
  destruct (fst _) as [l |]; cbn; [| reflexivity].
  unfold Tides.moved_by. rewrite length_map. reflexivity.
Qed.

Lemma datum_offset_shifts_every_entry_witness :
  let run x :=
    fst (Tides.compute_tides (with_offset Scenario.got410 x) (Returned tt)
           (Scenario.flat_sea 0x1.3333333333333p-2) Scenario.crest_drift
           Scenario.no_other_payload JNull None Scenario.afternoon) in
  exists series_X series_0,
    run 45 = Some series_X /\ run 0 = Some series_0 /\
    series_X !! 7%nat = Some 75 /\ series_0 !! 7%nat = Some 30 /\
    75 - 30 = 45.
Proof.
  eexists _, _.
  split; [vm_compute; reflexivity |].
  split; [vm_compute; reflexivity |].
  split; [reflexivity |]. split; [reflexivity |].
  eapply (datum_offset_shifts_every_entry Scenario.got410 (Returned tt)
            (Scenario.flat_sea 0x1.3333333333333p-2) Scenario.crest_drift
            Scenario.no_other_payload JNull None Scenario.afternoon 45 _ _ 7).
  - vm_compute; reflexivity.
  - vm_compute; reflexivity.
  - reflexivity.
  - reflexivity.
Defined.

(** ** Unit conversion *)

Section UnitConversion.

Import Tides.

Lemma height_cm_value (offset : Z) (h : float) (v : Z) :
  height_cm offset h = Returned v ->
  exists m e,
    F64.dyadic (h * 100)%float = Some (m, e) /\
    v = F64.round_half_even m e + offset.
Proof.
  unfold height_cm, F64.py_round, F64.dyadic.
  destruct (Prim2SF (h * 100)%float) as [s | s | | s m e]; py_run;
    try discriminate.
  - intros [= <-]. exists 0, 0. split; reflexivity.
  - intros [= <-]. eauto.
Qed.

Lemma to_cm_entries (offset : Z) (tide : list float) (series : list Z) :
  to_cm offset tide = Returned series ->
  length series = length tide /\
  forall i h, tide !! i = Some h ->
    exists m e,
      F64.dyadic (h * 100)%float = Some (m, e) /\
      series !! i = Some (F64.round_half_even m e + offset).
Proof.
  intros Hcm. split; [exact (comprehension_length _ _ _ Hcm) |].
  intros i h Hh.
  destruct (comprehension_lookup _ _ _ _ _ Hcm Hh) as (v & Hv & Hi).
  destruct (height_cm_value _ _ _ Hv) as (m & e & Hd & ->).
  eauto.
Qed.

Variable cfg : settings.
Variable import_pyTMD : outcome unit.
Variable compute_tide_corrections :
  list float -> list float -> list float -> outcome (list float).
Variable predict_drift :
  list float -> list (list harmonic) -> json -> outcome (list float).
Variable numpy_other : ndarray -> ndarray -> nat -> outcome (list (list harmonic)).

(** A series the GOT4.10 path returns is [to_cm] of what the synthesizer
    answered on the path's time grid. *)
Lemma got410_series (now : datetime) (series : list Z) :
  _compute_tides_got410 cfg import_pyTMD compute_tide_corrections now
    = Some series ->
  exists dts tide,
    delta_times (FORECAST_HOURS cfg) now = Returned dts /\
    compute_tide_corrections
      (replicate (FORECAST_HOURS cfg) (LONGITUDE cfg))
      (replicate (FORECAST_HOURS cfg) (LATITUDE cfg)) dts = Returned tide /\
    to_cm (TIDE_DATUM_OFFSET_CM cfg) tide = Returned series /\
    series <> [].
Proof.
  unfold _compute_tides_got410.
  remember (delta_times (FORECAST_HOURS cfg) now) as grid eqn:Hgrid.
  destruct import_pyTMD; py_run; [| discriminate].
  destruct grid as [dts |]; py_run; [| discriminate].
  destruct (compute_tide_corrections _ _ dts) as [tide |] eqn:Hc; py_run;
    [| discriminate].
  destruct (to_cm _ tide) as [l |] eqn:Hcm; py_run; [| discriminate].
  destruct l as [| v l]; py_run; cbn; [discriminate |].
  intros [= <-]. exists dts, tide. split_and!; done.
Qed.

(** The same for the FES2022 path. *)
Lemma fes2022_series (cached : json) (disk : option file_content)
    (now : datetime) (series : list Z) :
  fst (compute_tides_fes2022 cfg import_pyTMD predict_drift numpy_other
         cached disk now) = Some series ->
  exists constants names amp ph t hc tide,
    fst (_load_constants cached disk) = Returned constants /\
    is_None constants = false /\
    getitem constants "constituents" = Returned names /\
    getitem constants "amplitude" = Returned amp /\
    getitem constants "phase" = Returned ph /\
    time_array (FORECAST_HOURS cfg) now = Returned t /\
    harmonic_matrix numpy_other (Np.array amp) (Np.array ph)
      (FORECAST_HOURS cfg) = Returned hc /\
    predict_drift t hc names = Returned tide /\
    to_cm (TIDE_DATUM_OFFSET_CM cfg) tide = Returned series /\
    series <> [].
Proof.
  unfold compute_tides_fes2022.
  remember (time_array (FORECAST_HOURS cfg) now) as grid eqn:Hgrid.
  destruct import_pyTMD; [| discriminate].
  destruct (_load_constants cached disk) as [loaded cached']. cbn [fst].
  destruct loaded as [constants |]; py_run; [| discriminate].
  destruct (is_None constants) eqn:Hnone; py_run; [discriminate |].
  destruct (getitem constants "constituents") as [names |] eqn:Hn; py_run;
    [| discriminate].
  destruct (getitem constants "amplitude") as [amp |] eqn:Ha; py_run;
    [| discriminate].
  destruct (getitem constants "phase") as [ph |] eqn:Hp; py_run;
    [| discriminate].
  destruct grid as [t |]; py_run; [| discriminate].
  destruct (harmonic_matrix _ _ _ _) as [hc |] eqn:Hhc; py_run;
    [| discriminate].
  destruct (predict_drift t hc names) as [tide |] eqn:Hd; py_run;
    [| discriminate].
  destruct (to_cm _ tide) as [l |] eqn:Hcm; py_run; [| discriminate].
  destruct l as [| v l]; py_run; cbn; [discriminate |].
  intros [= <-]. exists constants, names, amp, ph, t, hc, tide.
  split_and!; done.
Qed.

End UnitConversion.

(** C2 (unit conversion), as the code has it.  Every entry of a returned
    series is [round(h * 100) + TIDE_DATUM_OFFSET_CM] for the height [h] the
    synthesizer gave at that index, where [round] is Python's: the integer
    nearest to the float product [h * 100], a tie going to the even
    neighbour (not away from zero).  A height of 0.30 m gives 30 before the
    offset and 75 with the offset 45. *)
Theorem series_entry_is_rounded_half_to_even :
  (forall (cfg : settings) (import_pyTMD : outcome unit)
      (compute_tide_corrections :
         list float -> list float -> list float -> outcome (list float))
      (predict_drift :
         list float -> list (list harmonic) -> json -> outcome (list float))
      (numpy_other :
         ndarray -> ndarray -> nat -> outcome (list (list harmonic)))
      (cached : json) (disk : option Tides.file_content) (now : datetime)
      (series : list Z),
    fst (Tides.compute_tides cfg import_pyTMD compute_tide_corrections
           predict_drift numpy_other cached disk now) = Some series ->
    exists tide : list float,
      ((exists lons lats dts,
           compute_tide_corrections lons lats dts = Returned tide) \/
       (exists t hc names, predict_drift t hc names = Returned tide)) /\
      length series = length tide /\
      forall (i : nat) (h : float), tide !! i = Some h ->
        exists m e : Z,
          F64.dyadic (h * 100)%float = Some (m, e) /\
          series !! i
            = Some (F64.round_half_even m e + TIDE_DATUM_OFFSET_CM cfg) /\
          (0 <= e -> F64.round_half_even m e = m * 2 ^ e) /\
          (e < 0 ->
           Z.abs (2 * (F64.round_half_even m e * 2 ^ (- e) - m)) <= 2 ^ (- e) /\
           (Z.abs (2 * (F64.round_half_even m e * 2 ^ (- e) - m)) = 2 ^ (- e) ->
            Z.even (F64.round_half_even m e) = true))) /\
  Tides.height_cm 0 0x1.3333333333333p-2 = Returned 30 /\
  Tides.height_cm 45 0x1.3333333333333p-2 = Returned 75.
Proof.
  split; [| split; vm_compute; reflexivity].
  intros cfg imp ctc drift other cached disk now series.
  unfold Tides.compute_tides.
  assert (Hentries : forall tide,
    Tides.to_cm (TIDE_DATUM_OFFSET_CM cfg) tide = Returned series ->
    length series = length tide /\
    forall (i : nat) (h : float), tide !! i = Some h ->
      exists m e : Z,
        F64.dyadic (h * 100)%float = Some (m, e) /\
        series !! i
          = Some (F64.round_half_even m e + TIDE_DATUM_OFFSET_CM cfg) /\
        (0 <= e -> F64.round_half_even m e = m * 2 ^ e) /\
        (e < 0 ->
         Z.abs (2 * (F64.round_half_even m e * 2 ^ (- e) - m)) <= 2 ^ (- e) /\
         (Z.abs (2 * (F64.round_half_even m e * 2 ^ (- e) - m)) = 2 ^ (- e) ->
          Z.even (F64.round_half_even m e) = true))).
  { intros tide Hcm.
    destruct (to_cm_entries _ _ _ Hcm) as [Hlen Hall].
    split; [exact Hlen |]. intros i h Hh.
    destruct (Hall i h Hh) as (m & e & Hd & Hi).
    exists m, e. split; [exact Hd |]. split; [exact Hi |].
    split; [apply round_half_even_integral |].
    intros He. exact (round_half_even_nearest m e He). }
  destruct (String.eqb (TIDE_MODEL_NAME cfg) "FES2022").
  - intros Hrun.
    destruct (fes2022_series _ _ _ _ _ _ _ _ Hrun)
      as (constants & names & amp & ph & t & hc & tide
          & _ & _ & _ & _ & _ & _ & _ & Hd & Hcm & _).
    exists tide. split; [right; eauto |]. apply Hentries, Hcm.
  - cbn [fst]. intros Hrun.
    destruct (got410_series _ _ _ _ _ Hrun) as (dts & tide & _ & Hc & Hcm & _).
    exists tide. split; [left; eauto |]. apply Hentries, Hcm.
Qed.

(** The 0.30 m example, run through the FES2022 path: one constituent
    of amplitude 0.30 m and phase 0, taken at its crest. *)
Lemma series_entry_is_rounded_half_to_even_witness :
  let run :=
    fst (Tides.compute_tides Scenario.fes2022 (Returned tt)
           (Scenario.flat_sea 0) Scenario.crest_drift
           Scenario.no_other_payload Scenario.single_m2 None
           Scenario.afternoon) in
  run = Some (replicate 168 75) /\
  exists tide : list float,
    length (replicate 168 75 : list Z) = length tide /\
    forall (i : nat) (h : float), tide !! i = Some h ->
      exists m e : Z,
        F64.dyadic (h * 100)%float = Some (m, e) /\
        (replicate 168 75 : list Z) !! i = Some (F64.round_half_even m e + 45).
Proof.
  assert (Hrun :
    fst (Tides.compute_tides Scenario.fes2022 (Returned tt)
           (Scenario.flat_sea 0) Scenario.crest_drift
           Scenario.no_other_payload Scenario.single_m2 None
           Scenario.afternoon) = Some (replicate 168 75))
    by (vm_compute; reflexivity).
  split; [exact Hrun |].
  destruct (proj1 series_entry_is_rounded_half_to_even _ _ _ _ _ _ _ _ _ Hrun)
    as (tide & _ & Hlen & Hall).
  exists tide. split; [exact Hlen |].
  intros i h Hh. destruct (Hall i h Hh) as (m & e & Hd & Hi & _).
  exists m, e. split; [exact Hd | exact Hi].
Defined.

(** C2 as the specification words it fails at a height whose hundredfold is
    half-way between two integers: 0.125 m is 12.5 cm, which the code
    rounds to 12 (entry 57 with the offset 45) where rounding half away
    from zero gives 13 (entry 58). *)
Lemma half_centimetre_goes_to_even_not_away :
  Tides.height_cm 45 0.125 = Returned 57 /\
  (r ← F64.spec_round (0.125 * 100)%float; mret (r + 45)) = Returned 58 /\
  F64.dyadic (0.125 * 100)%float = Some (25 * 2 ^ 48, -49) /\
  fst (Tides.compute_tides Scenario.got410 (Returned tt)
         (Scenario.flat_sea 0.125) Scenario.crest_drift
         Scenario.no_other_payload JNull None Scenario.afternoon)
  = Some (replicate 168 57).
Proof.
  repeat split; vm_compute; reflexivity.
Qed.

(** ** The forecast hours *)

Section ForecastHours.

Import Tides.

Lemma range_length (n : nat) : length (range n) = n.
Proof. unfold range. rewrite length_map, length_seq. reflexivity. Qed.

Lemma range_lookup (n i : nat) :
  (i < n)%nat -> range n !! i = Some (Z.of_nat i).
Proof.
  intros Hi. unfold range. rewrite list_lookup_fmap, lookup_seq_lt by exact Hi.
  reflexivity.
Qed.

(** Both time grids have one entry per forecast hour, entry [i] being the
    floored base plus [i] hours, in the float arithmetic of each path. *)
Lemma delta_times_shape (n : nat) (now : datetime) (dts : list float) :
  delta_times n now = Returned dts ->
  length dts = n /\
  exists q,
    F64.floordiv (total_seconds (Datetime.sub now epoch)) 3600 = Returned q /\
    forall i, (i < n)%nat ->
      dts !! i = Some (q * 3600 + F64.of_int (Z.of_nat i * 3600))%float.
Proof.
  unfold delta_times.
  destruct (F64.floordiv _ _) as [q |]; py_run; [| discriminate].
  intros [= <-]. rewrite length_map, range_length. split; [reflexivity |].
  exists q. split; [reflexivity |]. intros i Hi.
  rewrite list_lookup_fmap, range_lookup by exact Hi. reflexivity.
Qed.

Lemma time_array_shape (n : nat) (now : datetime) (t : list float) :
  time_array n now = Returned t ->
  length t = n /\
  exists h q,
    F64.int_truediv 1 24 = Returned h /\
    F64.floordiv
      (total_seconds (Datetime.sub now epoch_1992) / 86400)%float h
      = Returned q /\
    forall i, (i < n)%nat ->
      t !! i = Some (q * h + F64.of_int (Z.of_nat i) / 24)%float.
Proof.
  unfold time_array.
  destruct (F64.int_truediv 1 24) as [h |] eqn:Hh; py_run; [| discriminate].
  destruct (F64.floordiv _ _) as [q |] eqn:Hq; py_run; [| discriminate].
  intros [= <-]. rewrite length_map, range_length. split; [reflexivity |].
  exists h, q. split; [reflexivity |]. split; [exact Hq |]. intros i Hi.
  rewrite list_lookup_fmap, range_lookup by exact Hi. reflexivity.
Qed.

End ForecastHours.

(** The stand-ins answer one height per requested time. *)
Lemma flat_sea_length (h : float) (lons lats dts tide : list float) :
  Scenario.flat_sea h lons lats dts = Returned tide ->
  length tide = length dts.
Proof. intros [= <-]. apply length_map. Qed.

Lemma crest_drift_length (t : list float) (hc : list (list harmonic))
    (names : json) (tide : list float) :
  Scenario.crest_drift t hc names = Returned tide -> length tide = length t.
Proof.
  unfold Scenario.crest_drift.
  destruct names as [| | | | | names |]; try (intros H; discriminate H).
  destruct (Nat.eqb (length hc) (length t)) eqn:Hlen; cbn [negb];
    [| intros H; discriminate H].
  intros Hc. rewrite (comprehension_length _ _ _ Hc).
  apply Nat.eqb_eq, Hlen.
Qed.

(** The length of a series.  With a synthesizer that answers one height per
    requested time, every series the dispatcher returns under the settings
    of [config.py] has exactly 168 entries, on either path. *)
Theorem series_has_forecast_hours_entries
    (env_TIDE_MODEL : option string) (import_pyTMD : outcome unit)
    (compute_tide_corrections :
       list float -> list float -> list float -> outcome (list float))
    (predict_drift :
       list float -> list (list harmonic) -> json -> outcome (list float))
    (numpy_other : ndarray -> ndarray -> nat -> outcome (list (list harmonic)))
    (cached : json) (disk : option Tides.file_content) (now : datetime)
    (series : list Z) :
  (forall lons lats dts tide,
      compute_tide_corrections lons lats dts = Returned tide ->
      length tide = length dts) ->
  (forall t hc names tide,
      predict_drift t hc names = Returned tide -> length tide = length t) ->
  fst (Tides.compute_tides (configured env_TIDE_MODEL) import_pyTMD
         compute_tide_corrections predict_drift numpy_other cached disk now)
    = Some series ->
  length series = 168%nat.
Proof.
  intros Hctc Hdrift. unfold Tides.compute_tides.
  destruct (String.eqb _ "FES2022").
  - intros Hrun.
    destruct (fes2022_series _ _ _ _ _ _ _ _ Hrun)
      as (constants & names & amp & ph & t & hc & tide
          & _ & _ & _ & _ & _ & Ht & _ & Hd & Hcm & _).
    rewrite (comprehension_length _ _ _ Hcm), (Hdrift _ _ _ _ Hd).
    apply (time_array_shape _ _ _ Ht).
  - cbn [fst]. intros Hrun.
    destruct (got410_series _ _ _ _ _ Hrun)
      as (dts & tide & Hdt & Hc & Hcm & _).
    rewrite (comprehension_length _ _ _ Hcm), (Hctc _ _ _ _ Hc).
    apply (delta_times_shape _ _ _ Hdt).
Qed.

Lemma series_has_forecast_hours_entries_witness :
  fst (Tides.compute_tides (configured (Some "FES2022")) (Returned tt)
         (Scenario.flat_sea 0.125) Scenario.crest_drift
         Scenario.no_other_payload Scenario.single_m2 None Scenario.afternoon)
    = Some (replicate 168 75) /\
  length (replicate 168 75 : list Z) = 168%nat.
Proof.
  assert (Hrun :
    fst (Tides.compute_tides (configured (Some "FES2022")) (Returned tt)
           (Scenario.flat_sea 0.125) Scenario.crest_drift
           Scenario.no_other_payload Scenario.single_m2 None
           Scenario.afternoon) = Some (replicate 168 75))
    by (vm_compute; reflexivity).
  split; [exact Hrun |].
  refine (series_has_forecast_hours_entries (Some "FES2022") (Returned tt)
            (Scenario.flat_sea 0.125) Scenario.crest_drift
            Scenario.no_other_payload Scenario.single_m2 None
            Scenario.afternoon _ _ _ Hrun).
  - exact (flat_sea_length 0.125).
  - exact crest_drift_length.
Defined.

(** Off the hour both paths start at the floored hour: at 13:46:12.345678
    on 3 November 2026, hour 305413 since 1992-01-01 and hour 235285 since
    2000-01-01. *)
Lemma off_the_hour_both_schedules_start_at_the_floor :
  Datetime.sub Scenario.afternoon Tides.epoch_1992 / 3600000000 = 305413 /\
  Datetime.sub Scenario.afternoon Tides.epoch / 3600000000 = 235285 /\
  (exists h,
      F64.int_truediv 1 24 = Returned h /\
      F64.floordiv
        (total_seconds (Datetime.sub Scenario.afternoon Tides.epoch_1992)
         / 86400)%float h = Returned 305413%float) /\
  (exists rest,
      Tides.delta_times 168 Scenario.afternoon
      = Returned ((235285 * 3600)%float :: rest)).
Proof.
  split; [reflexivity |]. split; [reflexivity |]. split.
  - eexists. split; [vm_compute; reflexivity |]. vm_compute; reflexivity.
  - eexists. vm_compute. reflexivity.
Qed.

(** C1, the start of the schedule on the FES2022 path.  At a clock reading
    that is exactly on the hour, 2037-01-01 02:00:00.000000 UTC, which is
    hour 394490 since 1992-01-01, the float floor division by [1/24]
    yields 394489: the time array starts at 01:00, one hour before the
    floored current hour, while the GOT4.10 grid starts at 02:00. *)
Theorem fes2022_schedule_starts_an_hour_early :
  Datetime.valid Scenario.on_the_hour = true /\
  Datetime.sub Scenario.on_the_hour Tides.epoch_1992 = 394490 * 3600000000 /\
  Datetime.sub Scenario.on_the_hour Tides.epoch = 1167703200 * 1000000 /\
  (exists h t0 rest,
      F64.int_truediv 1 24 = Returned h /\
      F64.floordiv
        (total_seconds (Datetime.sub Scenario.on_the_hour Tides.epoch_1992)
         / 86400)%float h = Returned 394489%float /\
      Tides.time_array (FORECAST_HOURS Scenario.fes2022) Scenario.on_the_hour
        = Returned (t0 :: rest) /\
      length (t0 :: rest) = 168%nat /\
      F64.dyadic t0 = Some (4518179609684650, -38) /\
      24 * 4518179609684650 <= 394489 * 2 ^ 38) /\
  (exists s0 rest,
      Tides.delta_times (FORECAST_HOURS Scenario.got410) Scenario.on_the_hour
        = Returned (s0 :: rest) /\
      length (s0 :: rest) = 168%nat /\
      s0 = 1167703200%float).
Proof.
  split; [reflexivity |]. split; [reflexivity |]. split; [reflexivity |].
  split.
  - eexists _, _, _.
    split; [vm_compute; reflexivity |].
    split; [vm_compute; reflexivity |].
    split; [vm_compute; reflexivity |].
    split; [reflexivity |].
    split; [vm_compute; reflexivity |].
    vm_compute. discriminate.
  - eexists _, _.
    split; [vm_compute; reflexivity |].
    split; reflexivity.
Qed.

(** ** Unavailability instead of exceptions *)

Section Unavailable.

Import Tides.

Variable cfg : settings.
Variable import_pyTMD : outcome unit.
Variable compute_tide_corrections :
  list float -> list float -> list float -> outcome (list float).
Variable predict_drift :
  list float -> list (list harmonic) -> json -> outcome (list float).
Variable numpy_other : ndarray -> ndarray -> nat -> outcome (list (list harmonic)).

(** With nothing in memory and no file, [_load_constants] answers [None]
    and leaves the global as it was. *)
Lemma load_constants_missing :
  _load_constants JNull None = (Returned JNull, JNull).
Proof. reflexivity. Qed.

(** Once a record is in memory the disk is not consulted. *)
Lemma load_constants_cached (cached : json) (disk : option file_content) :
  is_None cached = false ->
  _load_constants cached disk = (Returned cached, cached).
Proof. intros H. unfold _load_constants. rewrite H. reflexivity. Qed.

Lemma fes2022_missing_file (now : datetime) :
  compute_tides_fes2022 cfg import_pyTMD predict_drift numpy_other
    JNull None now = (None, JNull).
Proof.
  unfold compute_tides_fes2022. destruct import_pyTMD; reflexivity.
Qed.

Lemma fes2022_bad_file (content : file_content) (now : datetime) :
  content = Undecodable \/ content = Unreadable ->
  compute_tides_fes2022 cfg import_pyTMD predict_drift numpy_other
    JNull (Some content) now = (None, JNull).
Proof.
  intros [-> | ->]; unfold compute_tides_fes2022;
    destruct import_pyTMD; reflexivity.
Qed.

(** A record without one of the keys the path reads is unusable. *)
Lemma fes2022_missing_key (constants : json) (key : string)
    (disk : option file_content) (now : datetime) (e : exn) :
  is_None constants = false ->
  key = "constituents" \/ key = "amplitude" \/ key = "phase" ->
  getitem constants key = Raised e ->
  fst (compute_tides_fes2022 cfg import_pyTMD predict_drift numpy_other
         constants disk now) = None.
Proof.
  intros Hnone Hkey Hget. unfold compute_tides_fes2022.
  destruct import_pyTMD; [| reflexivity].
  rewrite (load_constants_cached _ _ Hnone). cbn [fst]. py_run.
  rewrite Hnone.
  destruct Hkey as [-> | [-> | ->]].
  - rewrite Hget. reflexivity.
  - destruct (getitem constants "constituents"); py_run; [| reflexivity].
    rewrite Hget. reflexivity.
  - destruct (getitem constants "constituents"); py_run; [| reflexivity].
    destruct (getitem constants "amplitude"); py_run; [| reflexivity].
    rewrite Hget. reflexivity.
Qed.

(** What a first load returns is the document of the file. *)
Lemma load_constants_document (j constants : json) :
  fst (_load_constants JNull (Some (Document j))) = Returned constants ->
  constants = j.
Proof.
  unfold _load_constants. cbn [is_None negb fst].
  destruct (getitem j "constituents") as [names |]; py_run;
    [| intros H; discriminate H].
  destruct (Json.len names); py_run; [| intros H; discriminate H].
  destruct (getitem j "latitude"); py_run; [| intros H; discriminate H].
  destruct (getitem j "longitude"); py_run; [| intros H; discriminate H].
  intros [= <-]. reflexivity.
Qed.

(** A record file whose document lacks a key the path reads. *)
Lemma fes2022_corrupt_document (j : json) (key : string) (e : exn)
    (now : datetime) :
  key = "constituents" \/ key = "amplitude" \/ key = "phase" ->
  getitem j key = Raised e ->
  fst (compute_tides_fes2022 cfg import_pyTMD predict_drift numpy_other
         JNull (Some (Document j)) now) = None.
Proof.
  intros Hkey Hget.
  destruct (fst (compute_tides_fes2022 cfg import_pyTMD predict_drift
                   numpy_other JNull (Some (Document j)) now))
    as [series |] eqn:Hrun; [| reflexivity].
  destruct (fes2022_series _ _ _ _ _ _ _ _ Hrun)
    as (constants & names & amp & ph & t & hc & tide
        & Hload & _ & Hn & Ha & Hp & _).
  apply load_constants_document in Hload as ->.
  destruct Hkey as [-> | [-> | ->]]; congruence.
Qed.

Lemma fes2022_synthesizer_raises (cached : json) (disk : option file_content)
    (now : datetime) :
  (forall t hc names, exists e, predict_drift t hc names = Raised e) ->
  fst (compute_tides_fes2022 cfg import_pyTMD predict_drift numpy_other
         cached disk now) = None.
Proof.
  intros Hraise.
  destruct (fst (compute_tides_fes2022 cfg import_pyTMD predict_drift
                   numpy_other cached disk now)) as [series |] eqn:Hrun;
    [| reflexivity].
  destruct (fes2022_series _ _ _ _ _ _ _ _ Hrun)
    as (constants & names & amp & ph & t & hc & tide
        & _ & _ & _ & _ & _ & _ & _ & Hd & _).
  destruct (Hraise t hc names) as [e He]. congruence.
Qed.

Lemma got410_synthesizer_raises (now : datetime) :
  (forall lons lats dts,
      exists e, compute_tide_corrections lons lats dts = Raised e) ->
  _compute_tides_got410 cfg import_pyTMD compute_tide_corrections now = None.
Proof.
  intros Hraise.
  destruct (_compute_tides_got410 cfg import_pyTMD compute_tide_corrections
              now) as [series |] eqn:Hrun; [| reflexivity].
  destruct (got410_series _ _ _ _ _ Hrun) as (dts & tide & _ & Hc & _).
  edestruct Hraise as [e He]. rewrite He in Hc. discriminate Hc.
Qed.

End Unavailable.

(** C4 (graceful unavailability), as the code has it.  The FES2022 path
    returns [None] when the record file does not exist and no record is
    held in memory from an earlier load; a record file that cannot be read
    or decoded or that lacks a key, a failing import of pyTMD and a
    synthesizer call that raises all end in [None] as well, on either
    path.  The functions have
    no exceptional outcome: every exception of their bodies is caught. *)
Theorem unavailable_not_raised
    (cfg : settings) (import_pyTMD : outcome unit)
    (compute_tide_corrections :
       list float -> list float -> list float -> outcome (list float))
    (predict_drift :
       list float -> list (list harmonic) -> json -> outcome (list float))
    (numpy_other : ndarray -> ndarray -> nat -> outcome (list (list harmonic)))
    (now : datetime) :
  Tides.compute_tides_fes2022 cfg import_pyTMD predict_drift numpy_other
    JNull None now = (None, JNull) /\
  (forall content,
      content = Tides.Undecodable \/ content = Tides.Unreadable ->
      Tides.compute_tides_fes2022 cfg import_pyTMD predict_drift numpy_other
        JNull (Some content) now = (None, JNull)) /\
  (forall j key e,
      key = "constituents" \/ key = "amplitude" \/ key = "phase" ->
      getitem j key = Raised e ->
      fst (Tides.compute_tides_fes2022 cfg import_pyTMD predict_drift
             numpy_other JNull (Some (Tides.Document j)) now) = None) /\
  (forall e cached disk,
      fst (Tides.compute_tides_fes2022 cfg (Raised e) predict_drift
             numpy_other cached disk now) = None) /\
  (forall e,
      Tides._compute_tides_got410 cfg (Raised e) compute_tide_corrections now
      = None) /\
  ((forall lons lats dts,
       exists e, compute_tide_corrections lons lats dts = Raised e) ->
   Tides._compute_tides_got410 cfg import_pyTMD compute_tide_corrections now
   = None) /\
  (forall cached disk,
      (forall t hc names, exists e, predict_drift t hc names = Raised e) ->
      fst (Tides.compute_tides_fes2022 cfg import_pyTMD predict_drift
             numpy_other cached disk now) = None).
Proof.
  split; [apply fes2022_missing_file |].
  split; [intros content; apply fes2022_bad_file |].
  split; [intros j key e; apply fes2022_corrupt_document |].
  split; [reflexivity |]. split; [reflexivity |].
  split; [apply got410_synthesizer_raises |].
  intros cached disk. apply fes2022_synthesizer_raises.
Qed.

Lemma unavailable_not_raised_witness :
  let broken_ctc :=
    fun _ _ _ : list float => @Raised (list float) FileNotFoundError in
  let broken_drift :=
    fun (_ : list float) (_ : list (list harmonic)) (_ : json) =>
      @Raised (list float) ValueError in
  Tides._compute_tides_got410 Scenario.got410 (Returned tt) broken_ctc
    Scenario.afternoon = None /\
  fst (Tides.compute_tides_fes2022 Scenario.fes2022 (Returned tt)
         broken_drift Scenario.no_other_payload Scenario.single_m2 None
         Scenario.afternoon) = None /\
  Tides.compute_tides_fes2022 Scenario.fes2022 (Returned tt)
    broken_drift Scenario.no_other_payload JNull (Some Tides.Undecodable)
    Scenario.afternoon = (None, JNull).
Proof.
  intros broken_ctc broken_drift.
  pose proof (unavailable_not_raised Scenario.fes2022 (Returned tt)
                broken_ctc broken_drift Scenario.no_other_payload
                Scenario.afternoon) as (_ & Hbad & _ & _ & _ & _ & Hdrift).
  pose proof (unavailable_not_raised Scenario.got410 (Returned tt)
                broken_ctc broken_drift Scenario.no_other_payload
                Scenario.afternoon) as (_ & _ & _ & _ & _ & Hctc & _).
  split; [apply Hctc; intros; eexists; reflexivity |].
  split; [apply Hdrift; intros; eexists; reflexivity |].
  apply Hbad. left. reflexivity.
Defined.

(** C4 as the specification words it fails once a record has been loaded:
    a first call reads the file and keeps the record in
    [_cached_constants]; with the file then gone, a second call still
    returns a series. *)
Lemma missing_file_after_a_load_still_predicts :
  let call cached disk :=
    Tides.compute_tides_fes2022 Scenario.fes2022 (Returned tt)
      Scenario.crest_drift Scenario.no_other_payload cached disk
      Scenario.afternoon in
  let first := call JNull (Some (Tides.Document Scenario.single_m2)) in
  let second := call (snd first) None in
  snd first = Scenario.single_m2 /\
  fst second = Some (replicate 168 75).
Proof.
  split; vm_compute; reflexivity.
Qed.

(** ** Amplitude and phase arrays of different lengths *)

Section Broadcasting.

Import Tides.

Lemma numbers_of_floats (xs : list float) :
  Np.numbers (map JNum xs) = Some xs.
Proof.
  induction xs as [| x xs IH]; cbn; [reflexivity |]. rewrite IH. reflexivity.
Qed.

Lemma array_of_floats (xs : list float) :
  Np.array (JList (map JNum xs)) = Arr1 xs.
Proof. cbn. rewrite numbers_of_floats. reflexivity. Qed.

(** The product of two flat arrays, case by case. *)
Lemma polar_product_equal_lengths (xs ps : list float) :
  length xs = length ps ->
  polar_product (Arr1 xs) (Arr1 ps)
  = Some (Returned (inl (zip_with mk_harmonic xs ps))).
Proof.
  intros Hlen. cbn. rewrite Hlen, Nat.eqb_refl. reflexivity.
Qed.




Variable cfg : settings.
Variable import_pyTMD : outcome unit.
Variable predict_drift :
  list float -> list (list harmonic) -> json -> outcome (list float).
Variable numpy_other : ndarray -> ndarray -> nat -> outcome (list (list harmonic)).

(** The path on a record held in memory whose amplitude and phase are flat
    lists of numbers: everything up to the synthesizer call. *)
Lemma fes2022_on_flat_record (constants names : json) (xs ps : list float)
    (disk : option file_content) (now : datetime) :
  is_None constants = false ->
  getitem constants "constituents" = Returned names ->
  getitem constants "amplitude" = Returned (JList (map JNum xs)) ->
  getitem constants "phase" = Returned (JList (map JNum ps)) ->
  fst (compute_tides_fes2022 cfg import_pyTMD predict_drift numpy_other
         constants disk now)
  = match import_pyTMD with
    | Raised _ => None
    | Returned _ =>
        try_except
          (t ← time_array (FORECAST_HOURS cfg) now;
           hc ← harmonic_matrix numpy_other (Arr1 xs) (Arr1 ps)
                  (FORECAST_HOURS cfg);
           tide ← predict_drift t hc names;
           tide_cm ← to_cm (TIDE_DATUM_OFFSET_CM cfg) tide;
           _ ← log_range tide_cm;
           mret (Some tide_cm))
          (fun _ => None)
    end.
Proof.
  intros Hnone Hn Ha Hp. unfold compute_tides_fes2022.
  generalize (time_array (FORECAST_HOURS cfg) now). intros grid.
  destruct import_pyTMD; [| reflexivity].
  rewrite (load_constants_cached _ _ Hnone). cbn [fst]. py_run.
  rewrite Hnone, Hn. py_run. rewrite Ha. py_run. rewrite Hp. py_run.
  rewrite !array_of_floats. reflexivity.
Qed.

End Broadcasting.




(** ** The dispatcher *)

(** C9.  The dispatcher runs the FES2022 path when the configured model
    name is exactly ["FES2022"], and the GOT4.10 path for every other name:
    then its result is that of [_compute_tides_got410], whatever the FES2022
    collaborators are, and the global is untouched.  It has no third case.
    With the environment variable unset the name is ["GOT4.10"]. *)
Theorem dispatcher_selects_by_exact_name
    (cfg : settings) (import_pyTMD : outcome unit)
    (compute_tide_corrections :
       list float -> list float -> list float -> outcome (list float))
    (predict_drift :
       list float -> list (list harmonic) -> json -> outcome (list float))
    (numpy_other : ndarray -> ndarray -> nat -> outcome (list (list harmonic)))
    (cached : json) (disk : option Tides.file_content) (now : datetime) :
  (TIDE_MODEL_NAME cfg = "FES2022" ->
   Tides.compute_tides cfg import_pyTMD compute_tide_corrections
     predict_drift numpy_other cached disk now
   = Tides.compute_tides_fes2022 cfg import_pyTMD predict_drift numpy_other
       cached disk now) /\
  (TIDE_MODEL_NAME cfg <> "FES2022" ->
   Tides.compute_tides cfg import_pyTMD compute_tide_corrections
     predict_drift numpy_other cached disk now
   = (Tides._compute_tides_got410 cfg import_pyTMD compute_tide_corrections
        now, cached)) /\
  TIDE_MODEL_NAME (configured None) = "GOT4.10".
Proof.
  unfold Tides.compute_tides.
  destruct (String.eqb_spec (TIDE_MODEL_NAME cfg) "FES2022") as [Heq | Hne].
  - split_and!; [reflexivity | contradiction | reflexivity].
  - split_and!; [contradiction | reflexivity | reflexivity].
Qed.

Lemma dispatcher_selects_by_exact_name_witness :
  let run name :=
    Tides.compute_tides (configured (Some name)) (Returned tt)
      (Scenario.flat_sea 0.125) Scenario.crest_drift
      Scenario.no_other_payload Scenario.single_m2 None Scenario.afternoon in
  run "FES2022" = (Some (replicate 168 75), Scenario.single_m2) /\
  run "fes2022" = (Some (replicate 168 57), Scenario.single_m2) /\
  run "FES2014" = (Some (replicate 168 57), Scenario.single_m2) /\
  run "" = (Some (replicate 168 57), Scenario.single_m2).
Proof.
  intros run. subst run. cbv beta.
  split_and!.
  - rewrite (proj1 (dispatcher_selects_by_exact_name
               (configured (Some "FES2022")) (Returned tt)
               (Scenario.flat_sea 0.125) Scenario.crest_drift
               Scenario.no_other_payload Scenario.single_m2 None
               Scenario.afternoon) eq_refl).
    vm_compute; reflexivity.
  - rewrite (proj1 (proj2 (dispatcher_selects_by_exact_name
               (configured (Some "fes2022")) (Returned tt)
               (Scenario.flat_sea 0.125) Scenario.crest_drift
               Scenario.no_other_payload Scenario.single_m2 None
               Scenario.afternoon)) ltac:(discriminate)).
    vm_compute; reflexivity.
  - rewrite (proj1 (proj2 (dispatcher_selects_by_exact_name
               (configured (Some "FES2014")) (Returned tt)
               (Scenario.flat_sea 0.125) Scenario.crest_drift
               Scenario.no_other_payload Scenario.single_m2 None
               Scenario.afternoon)) ltac:(discriminate)).
    vm_compute; reflexivity.
  - rewrite (proj1 (proj2 (dispatcher_selects_by_exact_name
               (configured (Some "")) (Returned tt)
               (Scenario.flat_sea 0.125) Scenario.crest_drift
               Scenario.no_other_payload Scenario.single_m2 None
               Scenario.afternoon)) ltac:(discriminate)).
    vm_compute; reflexivity.
Defined.

(** ** The extraction job *)

Section Extraction.

Import Extract.

Variable cfg : settings.
Variable model_file_exists : string -> bool.
Variable extract_point : string -> outcome (option float * option float).

Local Abbreviation extracted :=
  (Extract.extracted model_file_exists extract_point).
Local Abbreviation entries := (Extract.entries model_file_exists extract_point).
Local Abbreviation visit := (Extract.visit model_file_exists extract_point).

(** The loop over any catalog, from the empty record. *)
Local Abbreviation loop catalog :=
  (fold_left visit catalog (empty_results cfg)).

Lemma visit_extracted (r : results) (c : string) :
  visit r c
  = match extracted c with
    | Some (a, p) =>
        {| latitude := latitude r;
           longitude := longitude r;
           constituents := constituents r ++ [c];
           amplitude := amplitude r ++ [a];
           phase := phase r ++ [p] |}
    | None => r
    end.
Proof.
  unfold Extract.visit, Extract.extracted.
  destruct (model_file_exists (model_file c)); cbn [negb]; [| reflexivity].
  destruct (extract_point (model_file c)) as [[amp00 ph00] |]; reflexivity.
Qed.

(** The three lists grow together, by what [entries] lists. *)
Lemma fold_visit (catalog : list string) (r : results) :
  constituents (fold_left visit catalog r)
    = constituents r ++ (entries catalog).*1 /\
  amplitude (fold_left visit catalog r)
    = amplitude r ++ map (fun e => fst (snd e)) (entries catalog) /\
  phase (fold_left visit catalog r)
    = phase r ++ map (fun e => snd (snd e)) (entries catalog).
Proof.
  revert r. induction catalog as [| c catalog IH]; intros r; cbn [fold_left].
  - unfold Extract.entries. cbn [omap list_omap fmap list_fmap map].
    rewrite !app_nil_r. split_and!; reflexivity.
  - destruct (IH (visit r c)) as (Hc & Ha & Hp).
    rewrite Hc, Ha, Hp, visit_extracted.
    unfold Extract.entries. cbn [omap list_omap].
    destruct (extracted c) as [[a p] |];
      cbn [fmap option_fmap option_map list_fmap map fst snd
           constituents amplitude phase].
    + rewrite <- !app_assoc. split_and!; reflexivity.
    + split_and!; reflexivity.
Qed.

Lemma loop_lists (catalog : list string) :
  constituents (loop catalog) = (entries catalog).*1 /\
  amplitude (loop catalog) = map (fun e => fst (snd e)) (entries catalog) /\
  phase (loop catalog) = map (fun e => snd (snd e)) (entries catalog).
Proof. exact (fold_visit catalog (empty_results cfg)). Qed.

Lemma entries_lookup (catalog : list string) (i : nat) (c : string)
    (ap : float * float) :
  entries catalog !! i = Some (c, ap) ->
  c ∈ catalog /\ extracted c = Some ap.
Proof.
  revert i. unfold Extract.entries.
  induction catalog as [| c0 catalog IH]; intros i; cbn [omap list_omap].
  - intros H. discriminate H.
  - destruct (extracted c0) as [ap0 |] eqn:Hc0;
      cbn [fmap option_fmap option_map].
    + destruct i as [| i]; cbn [lookup list_lookup].
      * intros [= -> ->]. split; [left | exact Hc0].
      * intros H. destruct (IH i H) as [Hin Hex].
        split; [right; exact Hin | exact Hex].
    + intros H. destruct (IH i H) as [Hin Hex].
      split; [right; exact Hin | exact Hex].
Qed.

Lemma entries_elem (catalog : list string) (c : string) (ap : float * float) :
  c ∈ catalog -> extracted c = Some ap ->
  exists i, entries catalog !! i = Some (c, ap).
Proof.
  unfold Extract.entries.
  induction catalog as [| c0 catalog IH]; intros Hin Hex.
  - inversion Hin.
  - cbn [omap list_omap].
    destruct (decide (c = c0)) as [-> | Hne].
    + rewrite Hex. exists 0%nat. reflexivity.
    + assert (Hin' : c ∈ catalog).
      { apply elem_of_cons in Hin as [? | ?]; [contradiction | assumption]. }
      destruct (IH Hin' Hex) as [i Hi].
      destruct (extracted c0); cbn [fmap option_fmap option_map];
        [exists (S i) | exists i]; exact Hi.
Qed.

Lemma entries_length_le (catalog : list string) :
  (length (entries catalog) <= length catalog)%nat.
Proof.
  unfold Extract.entries.
  induction catalog as [| c0 catalog IH]; cbn [omap list_omap length];
    [lia |].
  destruct (extracted c0); cbn [fmap option_fmap option_map length]; lia.
Qed.

Lemma entries_length_lt (catalog : list string) (c : string) :
  c ∈ catalog -> extracted c = None ->
  (length (entries catalog) < length catalog)%nat.
Proof.
  induction catalog as [| c0 catalog IH]; intros Hin Hex.
  - inversion Hin.
  - pose proof (entries_length_le catalog) as Hle.
    unfold Extract.entries in *. cbn [omap list_omap length].
    destruct (decide (c = c0)) as [-> | Hne].
    + rewrite Hex. cbn [fmap option_fmap option_map]. lia.
    + assert (Hin' : c ∈ catalog).
      { apply elem_of_cons in Hin as [? | ?]; [contradiction | assumption]. }
      specialize (IH Hin' Hex).
      destruct (extracted c0); cbn [fmap option_fmap option_map length]; lia.
Qed.

Lemma loop_length (catalog : list string) :
  length (constituents (loop catalog)) = length (entries catalog).
Proof.
  destruct (loop_lists catalog) as (-> & _). apply length_map.
Qed.

Lemma loop_lookup (catalog : list string) (i : nat) (c : string) :
  constituents (loop catalog) !! i = Some c ->
  exists a p,
    c ∈ catalog /\ extracted c = Some (a, p) /\
    amplitude (loop catalog) !! i = Some a /\
    phase (loop catalog) !! i = Some p.
Proof.
  destruct (loop_lists catalog) as (-> & -> & ->).
  rewrite !list_lookup_fmap.
  destruct (entries catalog !! i) as [[c' [a p]] |] eqn:Hi;
    cbn [fmap option_fmap option_map fst snd]; [| intros H; discriminate H].
  intros [= ->]. destruct (entries_lookup _ _ _ _ Hi) as [Hin Hex].
  exists a, p.
  split_and!; [exact Hin | exact Hex | reflexivity | reflexivity].
Qed.

Lemma loop_omits (catalog : list string) (c : string) :
  extracted c = None -> c ∉ constituents (loop catalog).
Proof.
  intros Hex Hin. apply list_elem_of_lookup in Hin as [i Hi].
  destruct (loop_lookup catalog i c Hi) as (a & p & _ & Hsome & _).
  congruence.
Qed.

Lemma loop_keeps (catalog : list string) (c : string) (a p : float) :
  c ∈ catalog -> extracted c = Some (a, p) ->
  exists i,
    constituents (loop catalog) !! i = Some c /\
    amplitude (loop catalog) !! i = Some a /\
    phase (loop catalog) !! i = Some p.
Proof.
  intros Hin Hex. destruct (entries_elem _ _ _ Hin Hex) as [i Hi].
  exists i. destruct (loop_lists catalog) as (-> & -> & ->).
  rewrite !list_lookup_fmap, Hi. split_and!; reflexivity.
Qed.

Lemma extracted_some (c : string) (a p : float) :
  extracted c = Some (a, p) ->
  model_file_exists (model_file c) = true /\
  exists amp00 ph00,
    extract_point (model_file c) = Returned (amp00, ph00) /\
    a = unmasked amp00 /\ p = unmasked ph00.
Proof.
  unfold Extract.extracted.
  destruct (model_file_exists (model_file c)); [| intros H; discriminate H].
  destruct (extract_point (model_file c)) as [[amp00 ph00] |];
    [| intros H; discriminate H].
  intros [= <- <-]. split; [reflexivity |]. eauto.
Qed.

End Extraction.

Lemma catalog_size : length Extract.CONSTITUENTS = 34%nat.
Proof. reflexivity. Qed.

(** A device without faults takes every piece. *)
Lemma write_all_unbounded (path : string) (pieces : list string) (w : world) :
  fst (write_all path pieces None w) = Returned tt.
Proof.
  revert w. induction pieces as [| piece rest IH]; intros w;
    cbn [write_all]; [reflexivity | apply IH].
Qed.

(** C6.  In the record the extraction loop builds, whatever was skipped,
    the three lists have the same length, and at every index the name is a
    catalog constituent whose model file exists and whose extraction call
    returned, the amplitude and the phase at that index being the two
    values read for that very constituent (0.0 for a masked one). *)
Theorem record_lists_correspond
    (cfg : settings) (model_file_exists : string -> bool)
    (extract_point : string -> outcome (option float * option float)) :
  let r := Extract.collect cfg model_file_exists extract_point in
  length (Extract.amplitude r) = length (Extract.constituents r) /\
  length (Extract.phase r) = length (Extract.constituents r) /\
  forall (i : nat) (c : string),
    Extract.constituents r !! i = Some c ->
    exists amp00 ph00,
      c ∈ Extract.CONSTITUENTS /\
      model_file_exists (Extract.model_file c) = true /\
      extract_point (Extract.model_file c) = Returned (amp00, ph00) /\
      Extract.amplitude r !! i = Some (Extract.unmasked amp00) /\
      Extract.phase r !! i = Some (Extract.unmasked ph00).
Proof.
  cbv zeta. unfold Extract.collect.
  generalize Extract.CONSTITUENTS. intros catalog.
  destruct (loop_lists cfg model_file_exists extract_point catalog)
    as (Hc & Ha & Hp).
  split; [rewrite Hc, Ha, !length_map; reflexivity |].
  split; [rewrite Hc, Hp, !length_map; reflexivity |].
  intros i c Hi.
  destruct (loop_lookup _ _ _ _ _ _ Hi) as (a & p & Hin & Hex & Hai & Hpi).
  destruct (extracted_some _ _ _ _ _ Hex)
    as (Hfile & amp00 & ph00 & Hcall & -> & ->).
  exists amp00, ph00.
  split_and!; [exact Hin | exact Hfile | exact Hcall | exact Hai | exact Hpi].
Qed.

(** C5, as the code has it.  A catalog constituent whose model file is
    absent, or whose extraction call raises, is left out of the record, and
    the record is then strictly shorter than the catalog of 34; a
    constituent whose call returns is kept, a masked amplitude or phase
    being stored as 0.0 rather than leaving the constituent out.  The loop
    itself never fails, and on a fault-free disk the save of the record
    that follows the loop returns. *)
Theorem partial_extraction_keeps_the_rest
    (cfg : settings) (TIDE_MODEL_DIR : string)
    (model_file_exists : string -> bool)
    (extract_point : string -> outcome (option float * option float))
    (dump : Extract.results -> list string) (w : world) (c : string) :
  let r := Extract.collect cfg model_file_exists extract_point in
  c ∈ Extract.CONSTITUENTS ->
  (model_file_exists (Extract.model_file c) = false ->
   (c ∉ Extract.constituents r) /\
   (length (Extract.constituents r) < 34)%nat) /\
  (forall e, extract_point (Extract.model_file c) = Raised e ->
   (c ∉ Extract.constituents r) /\
   (length (Extract.constituents r) < 34)%nat) /\
  (forall amp00 ph00,
     model_file_exists (Extract.model_file c) = true ->
     extract_point (Extract.model_file c) = Returned (amp00, ph00) ->
     exists i,
       Extract.constituents r !! i = Some c /\
       Extract.amplitude r !! i = Some (Extract.unmasked amp00) /\
       Extract.phase r !! i = Some (Extract.unmasked ph00)) /\
  Extract.unmasked None = 0%float /\
  (length (Extract.constituents r) <= 34)%nat /\
  fst (Extract.save TIDE_MODEL_DIR dump r
         {| Extract.mkdir_fails := false;
            Extract.open_fails := false;
            Extract.write_budget := None |} w) = Returned tt.
Proof.
  cbv zeta. unfold Extract.collect.
  rewrite <- catalog_size.
  generalize Extract.CONSTITUENTS. intros catalog Hin.
  pose proof (loop_length cfg model_file_exists extract_point catalog)
    as Hlen.
  assert (Hnone : Extract.extracted model_file_exists extract_point c = None ->
    (c ∉ Extract.constituents
          (fold_left (Extract.visit model_file_exists extract_point) catalog
             (Extract.empty_results cfg))) /\
    (length (Extract.constituents
               (fold_left (Extract.visit model_file_exists extract_point)
                  catalog (Extract.empty_results cfg)))
     < length catalog)%nat).
  { intros Hex. split; [apply loop_omits, Hex |].
    rewrite Hlen. apply (entries_length_lt _ _ _ _ Hin Hex). }
  split_and!.
  - intros Hfile. apply Hnone. unfold Extract.extracted.
    rewrite Hfile. reflexivity.
  - intros e Hcall. apply Hnone. unfold Extract.extracted. rewrite Hcall.
    destruct (model_file_exists _); reflexivity.
  - intros amp00 ph00 Hfile Hcall. apply loop_keeps; [exact Hin |].
    unfold Extract.extracted. rewrite Hfile, Hcall. reflexivity.
  - reflexivity.
  - rewrite Hlen. apply entries_length_le.
  - unfold Extract.save.
    cbn [Extract.mkdir_fails Extract.open_fails Extract.write_budget open_w].
    match goal with
    | |- context [write_all ?p ?d None ?w0] =>
        pose proof (write_all_unbounded p d w0) as Hw;
        destruct (write_all p d None w0) as [res w']
    end.
    cbn [fst] in Hw. exact Hw.
Qed.

Lemma catalog_has_m2_and_s2 :
  "m2" ∈ Extract.CONSTITUENTS /\ "s2" ∈ Extract.CONSTITUENTS.
Proof.
  split; apply list_elem_of_lookup; [exists 7%nat | exists 29%nat];
    reflexivity.
Qed.

Lemma partial_extraction_keeps_the_rest_witness :
  let r := Extract.collect Scenario.fes2022 Scenario.all_but_m2
             Scenario.everywhere_defined in
  ("m2" ∉ Extract.constituents r) /\
  (length (Extract.constituents r) < 34)%nat /\
  (exists i, Extract.constituents r !! i = Some "s2" /\
             Extract.amplitude r !! i = Some 0.125%float /\
             Extract.phase r !! i = Some 90%float).
Proof.
  cbv zeta.
  pose proof (partial_extraction_keeps_the_rest Scenario.fes2022 "/srv"
                Scenario.all_but_m2 Scenario.everywhere_defined
                Scenario.three_pieces (start ∅) "m2"
                (proj1 catalog_has_m2_and_s2))
    as (Hmissing & _).
  pose proof (partial_extraction_keeps_the_rest Scenario.fes2022 "/srv"
                Scenario.all_but_m2 Scenario.everywhere_defined
                Scenario.three_pieces (start ∅) "s2"
                (proj2 catalog_has_m2_and_s2))
    as (_ & _ & Hkept & _).
  destruct (Hmissing eq_refl) as [Hout Hshort].
  split; [exact Hout |]. split; [exact Hshort |].
  exact (Hkept (Some 0.125%float) (Some 90%float) eq_refl eq_refl).
Defined.

(** C5 as the specification words it fails on a masked interpolation
    result: with every model file present and [m2] masked at the point,
    [m2] is in the record, with amplitude and phase 0.0, and the record has
    all 34 constituents. *)
Lemma masked_constituent_is_kept_as_zero :
  let r := Extract.collect Scenario.fes2022 (fun _ => true)
             Scenario.masked_m2 in
  Scenario.masked_m2 (Extract.model_file "m2") = Returned (None, None) /\
  Extract.constituents r = Extract.CONSTITUENTS /\
  length (Extract.constituents r) = 34%nat /\
  Extract.constituents r !! 7%nat = Some "m2" /\
  Extract.amplitude r !! 7%nat = Some 0%float /\
  Extract.phase r !! 7%nat = Some 0%float.
Proof.
  split_and!; vm_compute; reflexivity.
Qed.

(** ** Writing files *)

Section Writing.

Lemma append_nil_r (s : string) : s +:+ "" = s.
Proof.
  induction s as [| a s IH]; [reflexivity |].
  change (String a (s +:+ "") = String a s). rewrite IH. reflexivity.
Qed.

Lemma append_assoc (s1 s2 s3 : string) :
  (s1 +:+ s2) +:+ s3 = s1 +:+ s2 +:+ s3.
Proof.
  induction s1 as [| a s1 IH]; [reflexivity |].
  change (String a ((s1 +:+ s2) +:+ s3) = String a (s1 +:+ s2 +:+ s3)).
  rewrite IH. reflexivity.
Qed.

Lemma document_cons (piece : string) (rest : list string) :
  document (piece :: rest) = piece +:+ document rest.
Proof. reflexivity. Qed.

Lemma write_on_insert (path piece text : string) (fs0 : gmap string string)
    (hist : list (gmap string string)) :
  write path piece (mk_world (<[path := text]> fs0) hist)
  = mk_world (<[path := text +:+ piece]> fs0) (<[path := text]> fs0 :: hist).
Proof.
  unfold write, commit. cbn [files history].
  rewrite alter_insert_eq. reflexivity.
Qed.

(** Writing through a file that holds [text]: the file ends with [text]
    followed by the pieces the device took, the call returns exactly when
    it took them all, and every state on the way holds [text] followed by
    some first pieces. *)
Lemma write_all_spec (path : string) (pieces : list string)
    (fs0 : gmap string string) :
  forall (budget : option nat) (text : string)
         (hist : list (gmap string string)),
    let w := mk_world (<[path := text]> fs0) hist in
    let run := write_all path pieces budget w in
    files (snd run)
      = <[path := text +:+
                  document (take (accepted budget (length pieces)) pieces)]>
          fs0 /\
    fst run
      = (if decide (accepted budget (length pieces) = length pieces)
         then Returned tt else Raised OSError) /\
    forall s, s ∈ states (snd run) ->
      s ∈ states w \/
      exists j, s = <[path := text +:+ document (take j pieces)]> fs0.
Proof.
  induction pieces as [| piece rest IH]; intros budget text hist; cbv zeta.
  - cbn [write_all fst snd files length].
    assert (Hacc : accepted budget 0 = 0%nat)
      by (destruct budget; cbn; lia).
    rewrite Hacc. cbn [take document fold_right]. rewrite append_nil_r.
    split_and!; [reflexivity | reflexivity | intros s Hs; left; exact Hs].
  - assert (Hstep : forall b : option nat,
      let run := write_all path rest b
                   (write path piece (mk_world (<[path := text]> fs0) hist)) in
      files (snd run)
        = <[path := text +:+
              document (piece :: take (accepted b (length rest)) rest)]> fs0 /\
      fst run
        = (if decide (accepted b (length rest) = length rest)
           then Returned tt else Raised OSError) /\
      forall s, s ∈ states (snd run) ->
        s ∈ states (mk_world (<[path := text]> fs0) hist) \/
        exists j, s = <[path := text +:+ document (take j (piece :: rest))]>
                        fs0).
    { intros b. cbv zeta. rewrite write_on_insert.
      destruct (IH b (text +:+ piece) (<[path := text]> fs0 :: hist))
        as (Hfiles & Hres & Hstates).
      split_and!.
      - rewrite Hfiles, document_cons, append_assoc. reflexivity.
      - exact Hres.
      - intros s Hs. destruct (Hstates s Hs) as [Hold | [j ->]].
        + unfold states in Hold. cbn [files history] in Hold.
          apply elem_of_cons in Hold as [-> | Hold].
          * right. exists 1%nat. cbn [take]. rewrite document_cons.
            cbn [document fold_right]. rewrite append_nil_r. reflexivity.
          * left. exact Hold.
        + right. exists (S j). cbn [take].
          rewrite document_cons, append_assoc. reflexivity. }
    destruct budget as [[| k] |]; cbn [write_all length accepted].
    + cbn [Nat.min take document fold_right fst snd files].
      rewrite append_nil_r.
      split_and!; [reflexivity | | intros s Hs; left; exact Hs].
      destruct (decide (0%nat = S (length rest))); [lia | reflexivity].
    + destruct (Hstep (Some k)) as (Hfiles & Hres & Hstates).
      cbn [accepted] in Hfiles, Hres.
      split_and!.
      * rewrite Hfiles. reflexivity.
      * rewrite Hres. cbn [Nat.min].
        destruct (decide (Nat.min k (length rest) = length rest)),
          (decide (S (Nat.min k (length rest)) = S (length rest)));
          try reflexivity; lia.
      * exact Hstates.
    + destruct (Hstep None) as (Hfiles & Hres & Hstates).
      cbn [accepted] in Hfiles, Hres.
      split_and!.
      * rewrite Hfiles, firstn_all. cbn [take]. rewrite firstn_all.
        reflexivity.
      * rewrite Hres.
        destruct (decide (length rest = length rest)),
          (decide (S (length rest) = S (length rest)));
          try reflexivity; lia.
      * exact Hstates.
Qed.

Lemma take_accepted_all (budget : option nat) (pieces : list string) :
  accepted budget (length pieces) = length pieces ->
  take (accepted budget (length pieces)) pieces = pieces.
Proof. intros ->. apply firstn_all. Qed.

End Writing.

(** ** Regenerating the constants record *)

(** C8, as the code has it.  The extraction job overwrites the record file
    in place: [open(CACHE_FILE, 'w')] truncates it and [json.dump] then
    writes the new document piece by piece.  A save that returns leaves
    exactly the new document, the other files untouched; every state of the
    disk after the truncation holds some first pieces of the new document
    in the record file; a device that fails after [k] pieces leaves those
    [k] pieces there, not the earlier record. *)
Theorem regeneration_overwrites_in_place
    (TIDE_MODEL_DIR : string) (dump : Extract.results -> list string)
    (r : Extract.results) (flt : Extract.faults)
    (fs0 : gmap string string) :
  let path := Extract.CACHE_FILE TIDE_MODEL_DIR in
  let run := Extract.save TIDE_MODEL_DIR dump r flt (start fs0) in
  (fst run = Returned tt ->
   files (snd run) = <[path := document (dump r)]> fs0) /\
  (forall s, s ∈ states (snd run) ->
     s = fs0 \/ exists j, s = <[path := document (take j (dump r))]> fs0) /\
  (forall k,
     Extract.mkdir_fails flt = false -> Extract.open_fails flt = false ->
     Extract.write_budget flt = Some k -> (k < length (dump r))%nat ->
     fst run = Raised OSError /\
     files (snd run) = <[path := document (take k (dump r))]> fs0).
Proof.
  cbv zeta. unfold Extract.save, open_w.
  destruct (Extract.mkdir_fails flt).
  { cbn [fst snd files]. split_and!.
    - intros H; discriminate H.
    - intros s Hs. left. apply list_elem_of_singleton in Hs. exact Hs.
    - intros k H; discriminate H. }
  destruct (Extract.open_fails flt).
  { cbn [fst snd files]. split_and!.
    - intros H; discriminate H.
    - intros s Hs. left. apply list_elem_of_singleton in Hs. exact Hs.
    - intros k _ H; discriminate H. }
  unfold commit, start. cbn [files history].
  destruct (write_all_spec (Extract.CACHE_FILE TIDE_MODEL_DIR) (dump r) fs0
              (Extract.write_budget flt) "" [fs0])
    as (Hfiles & Hres & Hstates).
  cbv zeta in Hfiles, Hres, Hstates.
  change ("" +:+ ?x) with x in Hfiles.
  split_and!.
  - intros Hret. rewrite Hfiles. rewrite Hres in Hret.
    destruct (decide _) as [Hall |]; [| discriminate Hret].
    rewrite (take_accepted_all _ _ Hall). reflexivity.
  - intros s Hs. destruct (Hstates s Hs) as [Hold | [j ->]].
    + unfold states in Hold. cbn [files history] in Hold.
      apply elem_of_cons in Hold as [-> | Hold].
      * right. exists 0%nat. reflexivity.
      * left. apply list_elem_of_singleton in Hold. exact Hold.
    + right. exists j. reflexivity.
  - intros k _ _ Hb Hk. rewrite Hfiles, Hres, Hb. cbn [accepted].
    rewrite Nat.min_l by lia.
    destruct (decide (k = length (dump r))); [lia |].
    split; reflexivity.
Qed.

Lemma regeneration_overwrites_in_place_witness :
  let path := Extract.CACHE_FILE "/srv/tide-models" in
  let r := Extract.collect Scenario.fes2022 Scenario.all_but_m2
             Scenario.everywhere_defined in
  let run :=
    Extract.save "/srv/tide-models" Scenario.three_pieces r
      {| Extract.mkdir_fails := false;
         Extract.open_fails := false;
         Extract.write_budget := Some 2%nat |}
      (start (Scenario.earlier_record path)) in
  fst run = Raised OSError /\
  files (snd run)
  = <[path := document (take 2 (Scenario.three_pieces r))]>
      (Scenario.earlier_record path).
Proof.
  cbv zeta.
  refine (proj2 (proj2 (regeneration_overwrites_in_place "/srv/tide-models"
            Scenario.three_pieces
            (Extract.collect Scenario.fes2022 Scenario.all_but_m2
               Scenario.everywhere_defined)
            {| Extract.mkdir_fails := false;
               Extract.open_fails := false;
               Extract.write_budget := Some 2%nat |}
            (Scenario.earlier_record
               (Extract.CACHE_FILE "/srv/tide-models"))))
            2%nat eq_refl eq_refl eq_refl _).
  unfold Scenario.three_pieces. cbn [length]. lia.
Defined.

(** C8 as the specification words it fails when the device gives up after
    the first piece: the record file, which held the earlier record, is
    empty right after [open], and ends with the first piece of the new
    document only. *)
Lemma failed_regeneration_loses_the_earlier_record :
  let path := Extract.CACHE_FILE "/srv/tide-models" in
  let r := Extract.collect Scenario.fes2022 Scenario.all_but_m2
             Scenario.everywhere_defined in
  let run :=
    Extract.save "/srv/tide-models" Scenario.three_pieces r
      {| Extract.mkdir_fails := false;
         Extract.open_fails := false;
         Extract.write_budget := Some 1%nat |}
      (start (Scenario.earlier_record path)) in
  Scenario.earlier_record path !! path = Some "{old record}" /\
  fst run = Raised OSError /\
  files (snd run) !! path = Some "{" /\
  (fun s : gmap string string => s !! path) <$> states (snd run)
  = [Some "{"; Some ""; Some "{old record}"].
Proof.
  split_and!; vm_compute; reflexivity.
Qed.

(** ** The response cache's disk writer *)

Section CacheWriter.

Variable BASE_DIR : string.

Local Abbreviation CACHE_FILE := (Cache.CACHE_FILE BASE_DIR).
Local Abbreviation cache_dir := (Cache.cache_dir BASE_DIR).

(** A temporary file never has the cache file's name. *)
Lemma temp_path_not_cache_file (name : string) :
  temp_path cache_dir ".tmp" name <> CACHE_FILE.
Proof.
  unfold temp_path, Cache.CACHE_FILE. intros Heq.
  apply (inj (String.app cache_dir)) in Heq. discriminate Heq.
Qed.

Lemma mkstemp_spec (candidates : list string) (w : world) :
  (mkstemp cache_dir ".tmp" candidates w = (Raised OSError, w) /\
   forall name, name ∈ candidates ->
     files w !! temp_path cache_dir ".tmp" name <> None) \/
  exists name,
    let tmp_path := temp_path cache_dir ".tmp" name in
    mkstemp cache_dir ".tmp" candidates w
      = (Returned tmp_path, commit w (<[tmp_path := ""]> (files w))) /\
    files w !! tmp_path = None.
Proof.
  unfold mkstemp.
  destruct (List.find _ candidates) as [name |] eqn:Hfind.
  - right. exists name.
    apply List.find_some in Hfind as [_ Hfree].
    apply bool_decide_eq_true in Hfree.
    split; [reflexivity | exact Hfree].
  - left. split; [reflexivity |]. intros name Hin Hnone.
    apply list_elem_of_In in Hin.
    pose proof (List.find_none _ _ Hfind name Hin) as Hfalse.
    cbv beta in Hfalse. apply bool_decide_eq_false in Hfalse.
    contradiction.
Qed.

Local Abbreviation passing := (Cache.passing BASE_DIR).


(** The inner [try] block on a fresh temporary file.  When nothing fails
    the document is renamed into place; otherwise the block raises, the
    cache file was never touched and the temporary file is still there. *)
Lemma write_then_replace_spec (name : string) (stored : encoding)
    (flt : Cache.faults) (fs0 : gmap string string) :
  let tmp_path := temp_path cache_dir ".tmp" name in
  fs0 !! tmp_path = None ->
  let w1 := mk_world (<[tmp_path := ""]> fs0) [fs0] in
  let run := Cache.write_then_replace BASE_DIR tmp_path stored flt w1 in
  let ok :=
    bool_decide (accepted (Cache.write_budget flt) (length (pieces stored))
                 = length (pieces stored))
    && bool_decide (stops_with stored = None)
    && negb (Cache.replace_fails flt) in
  if ok
  then fst run = Returned tt /\
       files (snd run) = <[CACHE_FILE := document (pieces stored)]> fs0 /\
       forall s, s ∈ states (snd run) ->
         passing fs0 (document (pieces stored)) s
  else fst run
       = (if bool_decide (accepted (Cache.write_budget flt)
                            (length (pieces stored))
                          = length (pieces stored))
          then match stops_with stored with
               | Some e => Raised e
               | None => Raised OSError
               end
          else Raised OSError) /\
       (exists text, files (snd run) = <[tmp_path := text]> fs0) /\
       forall s, s ∈ states (snd run) ->
         s = fs0 \/ exists text, s = <[tmp_path := text]> fs0.
Proof.
  intros tmp_path Hfresh. cbv zeta. unfold Cache.write_then_replace.
  destruct (write_all_spec tmp_path (pieces stored) fs0
              (Cache.write_budget flt) "" [fs0])
    as (Hfiles & Hres & Hstates).
  cbv zeta in Hfiles, Hres, Hstates.
  change ("" +:+ ?x) with x in Hfiles.
  assert (Htemp : forall s,
    s ∈ states (snd (write_all tmp_path (pieces stored)
                       (Cache.write_budget flt)
                       (mk_world (<[tmp_path := ""]> fs0) [fs0]))) ->
    s = fs0 \/ exists text, s = <[tmp_path := text]> fs0).
  { intros s Hs. destruct (Hstates s Hs) as [Hold | [j ->]].
    - unfold states in Hold. cbn [files history] in Hold.
      apply elem_of_cons in Hold as [-> | Hold]; [right; eauto |].
      apply list_elem_of_singleton in Hold as ->. left. reflexivity.
    - right. eauto. }
  destruct (write_all tmp_path (pieces stored) (Cache.write_budget flt)
              (mk_world (<[tmp_path := ""]> fs0) [fs0])) as [res w2].
  cbn [fst snd] in Hfiles, Hres, Htemp.
  destruct (decide (accepted (Cache.write_budget flt)
                      (length (pieces stored)) = length (pieces stored)))
    as [Hall | Hshort].
  - rewrite (bool_decide_eq_true_2 _ Hall).
    rewrite (take_accepted_all _ _ Hall) in Hfiles. subst res.
    destruct (stops_with stored) as [e |]; cbn [andb bool_decide].
    + rewrite bool_decide_eq_false_2 by discriminate. cbn [andb fst snd].
      split; [reflexivity |]. split; [eauto | exact Htemp].
    + rewrite bool_decide_eq_true_2 by reflexivity. cbn [andb].
      unfold replace. destruct (Cache.replace_fails flt); cbn [negb fst snd].
      * split; [reflexivity |]. split; [eauto | exact Htemp].
      * rewrite Hfiles, lookup_insert_eq. cbn [fst snd].
        unfold commit. cbn [files history].
        rewrite (delete_insert_id _ _ _ Hfresh).
        split; [reflexivity |]. split; [reflexivity |].
        intros s Hs. unfold states in Hs. cbn [files history] in Hs.
        apply elem_of_cons in Hs as [-> | Hs]; [apply Cache.passing_after |].
        destruct (Htemp s Hs) as [-> | [text ->]].
        -- apply Cache.passing_before.
        -- apply Cache.passing_temp. exact Hfresh.
  - rewrite (bool_decide_eq_false_2 _ Hshort). subst res. cbn [andb fst snd].
    split; [reflexivity |]. split; [eauto | exact Htemp].
Qed.

(** The first name of the list that is free on [fs0], as [mkstemp] looks
    for it. *)
Local Abbreviation free_name fs0 names :=
  (List.find
     (fun name => bool_decide (fs0 !! temp_path cache_dir ".tmp" name = None))
     names).

(** The outer [try] block.  When nothing fails the new document is in
    place and nothing else changed.  Otherwise it raises: the cache file
    is never touched, and at the end the disk is as it was, unless the
    removal of the temporary file failed, which leaves that file behind
    and replaces the exception by its own [OSError]. *)
Lemma save_attempt_spec (stored : encoding) (flt : Cache.faults)
    (fs0 : gmap string string) :
  let run := Cache.save_attempt BASE_DIR stored flt (start fs0) in
  let doc := document (pieces stored) in
  if Cache.goes_through BASE_DIR stored flt fs0
  then fst run = Returned tt /\
       files (snd run) = <[CACHE_FILE := doc]> fs0 /\
       forall s, s ∈ states (snd run) -> passing fs0 doc s
  else (exists e,
          fst run = Raised e /\
          (is_OSError e = true \/
           (stops_with stored = Some e /\ Cache.unlink_fails flt = false))) /\
       (forall s, s ∈ states (snd run) ->
          s = fs0 \/
          exists name text,
            fs0 !! temp_path cache_dir ".tmp" name = None /\
            s = <[temp_path cache_dir ".tmp" name := text]> fs0) /\
       (if Cache.unlink_fails flt && Cache.draws_name BASE_DIR flt fs0
        then exists name text,
               fs0 !! temp_path cache_dir ".tmp" name = None /\
               files (snd run)
               = <[temp_path cache_dir ".tmp" name := text]> fs0
        else files (snd run) = fs0).
Proof.
  cbv zeta. unfold Cache.goes_through, Cache.draws_name, Cache.save_attempt.
  destruct (Cache.makedirs_fails flt); cbn [negb andb].
  { rewrite andb_false_r. cbn [fst snd start files]. split; [eauto |]. split.
    - intros s Hs. apply list_elem_of_singleton in Hs as ->.
      left. reflexivity.
    - reflexivity. }
  unfold mkstemp. cbn [start files].
  destruct (free_name fs0 (Cache.temp_names flt)) as [name |] eqn:Hfind.
  2:{ rewrite andb_false_r. cbn [andb fst snd start files].
      split; [eauto |]. split.
      - intros s Hs. apply list_elem_of_singleton in Hs as ->.
        left. reflexivity.
      - reflexivity. }
  rewrite andb_true_r.
  apply List.find_some in Hfind as [_ Hfresh].
  apply bool_decide_eq_true in Hfresh.
  unfold commit, start. cbn [files history].
  pose proof (write_then_replace_spec name stored flt fs0 Hfresh) as Hinner.
  cbv zeta in Hinner.
  set (tmp_path := temp_path cache_dir ".tmp" name) in *.
  destruct (Cache.write_then_replace BASE_DIR tmp_path stored flt
              (mk_world (<[tmp_path := ""]> fs0) [fs0])) as [res w2].
  cbn [fst snd] in Hinner. cbn [andb].
  destruct (bool_decide (accepted (Cache.write_budget flt)
                           (length (pieces stored))
                         = length (pieces stored))
            && bool_decide (stops_with stored = None)
            && negb (Cache.replace_fails flt)) eqn:Hok.
  - destruct Hinner as (-> & Hfiles & Hpass). cbn [fst snd].
    split; [reflexivity |]. split; [exact Hfiles | exact Hpass].
  - destruct Hinner as (Hres & [text Hfiles] & Htemp).
    assert (Hkind : exists e,
      res = Raised e /\ (is_OSError e = true \/ stops_with stored = Some e)).
    { rewrite Hres. destruct (bool_decide _); [| eauto].
      destruct (stops_with stored) as [e |]; eauto. }
    destruct Hkind as (e & -> & Hkind).
    assert (Hstay : forall s, s ∈ states w2 ->
      s = fs0 \/
      exists name0 text0,
        fs0 !! temp_path cache_dir ".tmp" name0 = None /\
        s = <[temp_path cache_dir ".tmp" name0 := text0]> fs0).
    { intros s Hs. destruct (Htemp s Hs) as [-> | [text0 ->]];
        [left; reflexivity | right; exists name, text0; eauto]. }
    unfold unlink. destruct (Cache.unlink_fails flt); cbn [fst snd].
    + split; [exists OSError; split; [reflexivity | left; reflexivity] |].
      split; [exact Hstay |]. exists name, text. eauto.
    + rewrite Hfiles, lookup_insert_eq.
      unfold commit. cbn [fst snd files history].
      rewrite (delete_insert_id _ _ _ Hfresh).
      split.
      { exists e. split; [reflexivity |].
        destruct Hkind as [Hos | Hstop]; [left; exact Hos | right; eauto]. }
      split; [| reflexivity].
      intros s Hs. unfold states in Hs. cbn [files history] in Hs.
      apply elem_of_cons in Hs as [-> | Hs]; [left; reflexivity |].
      apply Hstay. exact Hs.
Qed.

(** The outcome of the outer [try] block, fault by fault. *)
Lemma save_attempt_result (stored : encoding) (flt : Cache.faults)
    (fs0 : gmap string string) :
  fst (Cache.save_attempt BASE_DIR stored flt (start fs0))
  = if Cache.makedirs_fails flt then Raised OSError
    else
      match free_name fs0 (Cache.temp_names flt) with
      | None => Raised OSError
      | Some _ =>
          if Cache.unlink_fails flt
          then
            if Cache.goes_through BASE_DIR stored flt fs0 then Returned tt
            else Raised OSError
          else
            if bool_decide (accepted (Cache.write_budget flt)
                              (length (pieces stored))
                            = length (pieces stored))
            then
              match stops_with stored with
              | Some e => Raised e
              | None =>
                  if Cache.replace_fails flt then Raised OSError
                  else Returned tt
              end
            else Raised OSError
      end.
Proof.
  unfold Cache.goes_through, Cache.draws_name, Cache.save_attempt.
  destruct (Cache.makedirs_fails flt); [reflexivity |]. cbn [negb andb].
  unfold mkstemp. cbn [start files].
  destruct (free_name fs0 (Cache.temp_names flt)) as [name |] eqn:Hfind;
    [| reflexivity].
  apply List.find_some in Hfind as [_ Hfresh].
  apply bool_decide_eq_true in Hfresh.
  unfold commit, start. cbn [files history].
  pose proof (write_then_replace_spec name stored flt fs0 Hfresh) as Hinner.
  cbv zeta in Hinner.
  set (tmp_path := temp_path cache_dir ".tmp" name) in *.
  destruct (Cache.write_then_replace BASE_DIR tmp_path stored flt
              (mk_world (<[tmp_path := ""]> fs0) [fs0])) as [res w2].
  cbn [fst snd] in Hinner. cbn [andb].
  destruct (decide (accepted (Cache.write_budget flt)
                      (length (pieces stored)) = length (pieces stored)))
    as [Hall | Hshort].
  - rewrite (bool_decide_eq_true_2 _ Hall) in Hinner |- *.
    destruct (stops_with stored) as [e |].
    + rewrite bool_decide_eq_false_2 in Hinner |- * by discriminate.
      cbn [andb] in Hinner |- *.
      destruct Hinner as (-> & [text Hfiles] & _).
      unfold unlink. destruct (Cache.unlink_fails flt); [reflexivity |].
      rewrite Hfiles, lookup_insert_eq. reflexivity.
    + rewrite bool_decide_eq_true_2 in Hinner |- * by reflexivity.
      cbn [andb] in Hinner |- *.
      destruct (Cache.replace_fails flt); cbn [negb] in Hinner |- *.
      * destruct Hinner as (-> & [text Hfiles] & _).
        unfold unlink. destruct (Cache.unlink_fails flt); [reflexivity |].
        rewrite Hfiles, lookup_insert_eq. reflexivity.
      * destruct Hinner as (-> & _).
        destruct (Cache.unlink_fails flt); reflexivity.
  - rewrite (bool_decide_eq_false_2 _ Hshort) in Hinner |- *.
    cbn [andb] in Hinner |- *.
    destruct Hinner as (-> & [text Hfiles] & _).
    unfold unlink. destruct (Cache.unlink_fails flt); [reflexivity |].
    rewrite Hfiles, lookup_insert_eq. reflexivity.
Qed.

Lemma save_to_disk_same_disk (stored : encoding) (flt : Cache.faults)
    (w : world) :
  snd (Cache._save_to_disk BASE_DIR stored flt w)
  = snd (Cache.save_attempt BASE_DIR stored flt w).
Proof.
  unfold Cache._save_to_disk.
  destruct (Cache.save_attempt BASE_DIR stored flt w) as [[u | e] w'];
    [reflexivity |].
  destruct (is_OSError e); reflexivity.
Qed.

Lemma save_to_disk_result (stored : encoding) (flt : Cache.faults)
    (w : world) :
  fst (Cache._save_to_disk BASE_DIR stored flt w)
  = match fst (Cache.save_attempt BASE_DIR stored flt w) with
    | Returned _ => Returned tt
    | Raised e => if is_OSError e then Returned tt else Raised e
    end.
Proof.
  unfold Cache._save_to_disk.
  destruct (Cache.save_attempt BASE_DIR stored flt w) as [[u | e] w'];
    [reflexivity |].
  cbn [fst]. destruct (is_OSError e); reflexivity.
Qed.

End CacheWriter.




(** A save whose device fails after one piece, and a save of a value that
    does not serialise (its [TypeError] is not an [OSError] and leaves
    [_save_to_disk]), with a removal that works: the cache file keeps the
    old document throughout, and no temporary file is left. *)
Lemma failed_cache_save_leaves_the_disk_as_it_was :
  let stored := {| pieces := ["{"; "data"; "}"]; stops_with := None |} in
  let unserialisable :=
    {| pieces := ["{"; "data"]; stops_with := Some TypeError |} in
  let flt :=
    {| Cache.makedirs_fails := false;
       Cache.temp_names := ["a1b2c3"];
       Cache.write_budget := Some 1%nat;
       Cache.replace_fails := false;
       Cache.unlink_fails := false |} in
  let fs0 : gmap string string :=
    {[ Cache.CACHE_FILE "/srv" := "{old}" ]} in
  let sound :=
    {| Cache.makedirs_fails := false;
       Cache.temp_names := ["a1b2c3"];
       Cache.write_budget := None;
       Cache.replace_fails := false;
       Cache.unlink_fails := false |} in
  let run1 := Cache._save_to_disk "/srv" stored flt (start fs0) in
  let run2 := Cache._save_to_disk "/srv" unserialisable sound (start fs0) in
  fst run1 = Returned tt /\
  map_to_list (files (snd run1)) = [(Cache.CACHE_FILE "/srv", "{old}")] /\
  (fun s : gmap string string => s !! Cache.CACHE_FILE "/srv")
    <$> states (snd run1)
  = [Some "{old}"; Some "{old}"; Some "{old}"; Some "{old}"] /\
  fst run2 = Raised TypeError /\
  map_to_list (files (snd run2)) = [(Cache.CACHE_FILE "/srv", "{old}")].
Proof.
  split_and!; vm_compute; reflexivity.
Qed.

(** * Further properties *)

(** ** The record held in memory *)

Section RecordInMemory.

Import Tides.

Variable cfg : settings.
Variable import_pyTMD : outcome unit.
Variable predict_drift :
  list float -> list (list harmonic) -> json -> outcome (list float).
Variable numpy_other : ndarray -> ndarray -> nat -> outcome (list (list harmonic)).

Lemma fes2022_from_memory (cached : json) (disk : option file_content)
    (now : datetime) :
  is_None cached = false ->
  compute_tides_fes2022 cfg import_pyTMD predict_drift numpy_other
    cached disk now
  = (fst (compute_tides_fes2022 cfg import_pyTMD predict_drift numpy_other
            cached None now), cached).
Proof.
  intros Hnone. unfold compute_tides_fes2022.
  generalize (time_array (FORECAST_HOURS cfg) now). intros grid.
  destruct import_pyTMD; [| reflexivity].
  rewrite !(load_constants_cached _ _ Hnone). reflexivity.
Qed.

Lemma fes2022_load_raises (j : json) (e : exn) (u : unit) (now : datetime) :
  import_pyTMD = Returned u ->
  fst (_load_constants JNull (Some (Document j))) = Raised e ->
  compute_tides_fes2022 cfg import_pyTMD predict_drift numpy_other
    JNull (Some (Document j)) now = (None, j).
Proof.
  intros -> Hload. unfold compute_tides_fes2022.
  generalize (time_array (FORECAST_HOURS cfg) now). intros grid.
  unfold _load_constants in *. cbn [is_None negb fst] in *.
  rewrite Hload. reflexivity.
Qed.

End RecordInMemory.

(** Once a record is held in [_cached_constants], a prediction does not
    look at the record file: whatever the file holds then, or whether it
    exists, the result is the same and the record in memory stays. *)
Theorem loaded_record_hides_the_file
    (cfg : settings) (import_pyTMD : outcome unit)
    (predict_drift :
       list float -> list (list harmonic) -> json -> outcome (list float))
    (numpy_other : ndarray -> ndarray -> nat -> outcome (list (list harmonic)))
    (cached : json) (disk disk' : option Tides.file_content)
    (now : datetime) :
  is_None cached = false ->
  Tides.compute_tides_fes2022 cfg import_pyTMD predict_drift numpy_other
    cached disk now
  = Tides.compute_tides_fes2022 cfg import_pyTMD predict_drift numpy_other
      cached disk' now /\
  snd (Tides.compute_tides_fes2022 cfg import_pyTMD predict_drift numpy_other
         cached disk now) = cached.
Proof.
  intros Hnone.
  rewrite (fes2022_from_memory _ _ _ _ cached disk now Hnone).
  rewrite (fes2022_from_memory _ _ _ _ cached disk' now Hnone).
  split; reflexivity.
Qed.

Lemma loaded_record_hides_the_file_witness :
  let call disk :=
    Tides.compute_tides_fes2022 Scenario.fes2022 (Returned tt)
      Scenario.crest_drift Scenario.no_other_payload Scenario.single_m2
      disk Scenario.afternoon in
  call (Some Tides.Undecodable) = call (Some (Tides.Document Scenario.lopsided))
  /\ snd (call (Some Tides.Undecodable)) = Scenario.single_m2.
Proof.
  exact (loaded_record_hides_the_file Scenario.fes2022 (Returned tt)
           Scenario.crest_drift Scenario.no_other_payload Scenario.single_m2
           (Some Tides.Undecodable) (Some (Tides.Document Scenario.lopsided))
           Scenario.afternoon eq_refl).
Defined.

(** A decodable record on which the log line of [_load_constants] raises
    (no ["latitude"], say) makes the first prediction return [None], but
    the record is already stored in [_cached_constants]: a later call finds
    it there and goes on without the log line. *)
Theorem rejected_record_stays_in_memory
    (cfg : settings) (import_pyTMD : outcome unit)
    (predict_drift :
       list float -> list (list harmonic) -> json -> outcome (list float))
    (numpy_other : ndarray -> ndarray -> nat -> outcome (list (list harmonic)))
    (j : json) (e : exn) (disk : option Tides.file_content)
    (now : datetime) :
  import_pyTMD = Returned tt ->
  is_None j = false ->
  fst (Tides._load_constants JNull (Some (Tides.Document j))) = Raised e ->
  let first :=
    Tides.compute_tides_fes2022 cfg import_pyTMD predict_drift numpy_other
      JNull (Some (Tides.Document j)) now in
  first = (None, j) /\
  fst (Tides._load_constants (snd first) disk) = Returned j.
Proof.
  intros Himp Hnone Hload. cbv zeta.
  rewrite (fes2022_load_raises _ _ _ _ j e tt now Himp Hload).
  split; [reflexivity |]. cbn [snd].
  rewrite (load_constants_cached _ _ Hnone). reflexivity.
Qed.

Lemma rejected_record_stays_in_memory_witness :
  let call cached disk :=
    Tides.compute_tides_fes2022 Scenario.fes2022 (Returned tt)
      Scenario.crest_drift Scenario.no_other_payload cached disk
      Scenario.afternoon in
  let first := call JNull (Some (Tides.Document Examples.no_latitude)) in
  first = (None, Examples.no_latitude) /\
  fst (Tides._load_constants (snd first) None)
    = Returned Examples.no_latitude /\
  fst (call (snd first) None) = Some (replicate 168 75).
Proof.
  cbv zeta.
  destruct (rejected_record_stays_in_memory Scenario.fes2022 (Returned tt)
              Scenario.crest_drift Scenario.no_other_payload
              Examples.no_latitude KeyError None Scenario.afternoon
              eq_refl eq_refl eq_refl) as [Hfirst Hlater].
  split; [exact Hfirst |]. split; [exact Hlater |].
  vm_compute. reflexivity.
Defined.

(** ** Heights that are not finite *)

Section NonFinite.

Import Tides.

Lemma times_hundred_not_finite (h : float) :
  F64.dyadic h = None -> F64.dyadic (h * 100)%float = None.
Proof.
  unfold F64.dyadic. rewrite mul_spec.
  destruct (Prim2SF h) as [s | s | | s m e]; try discriminate; intros _.
  - assert (H100 : Prim2SF 100 = S754_finite false 7036874417766400 (-46))
      by (vm_compute; reflexivity).
    rewrite H100. reflexivity.
  - reflexivity.
Qed.

Lemma height_cm_not_finite (offset : Z) (h : float) :
  F64.dyadic h = None ->
  exists e, height_cm offset h = Raised e.
Proof.
  intros Hh. apply times_hundred_not_finite in Hh.
  unfold height_cm, F64.py_round. unfold F64.dyadic in Hh.
  destruct (Prim2SF (h * 100)%float) as [s | s | | s m e];
    try discriminate Hh; py_run; eauto.
Qed.

Lemma to_cm_not_finite (offset : Z) (tide : list float) (i : nat) (h : float) :
  tide !! i = Some h -> F64.dyadic h = None ->
  exists e, to_cm offset tide = Raised e.
Proof.
  intros Hi Hh. destruct (height_cm_not_finite offset h Hh) as [e He].
  exact (comprehension_raises _ _ _ _ _ Hi He).
Qed.

End NonFinite.

(** One height that is NaN or infinite (a masked entry of the synthesizer's
    array converts to NaN) makes [round] raise, and the whole series is
    lost: the dispatcher returns [None], on either path. *)
Theorem one_non_finite_height_voids_the_series
    (cfg : settings) (import_pyTMD : outcome unit)
    (compute_tide_corrections :
       list float -> list float -> list float -> outcome (list float))
    (predict_drift :
       list float -> list (list harmonic) -> json -> outcome (list float))
    (numpy_other : ndarray -> ndarray -> nat -> outcome (list (list harmonic)))
    (cached : json) (disk : option Tides.file_content) (now : datetime) :
  (forall lons lats dts tide,
      compute_tide_corrections lons lats dts = Returned tide ->
      exists i h, tide !! i = Some h /\ F64.dyadic h = None) ->
  (forall t hc names tide,
      predict_drift t hc names = Returned tide ->
      exists i h, tide !! i = Some h /\ F64.dyadic h = None) ->
  fst (Tides.compute_tides cfg import_pyTMD compute_tide_corrections
         predict_drift numpy_other cached disk now) = None.
Proof.
  intros Hctc Hdrift.
  destruct (fst (Tides.compute_tides cfg import_pyTMD
                   compute_tide_corrections predict_drift numpy_other
                   cached disk now)) as [series |] eqn:Hrun; [| reflexivity].
  exfalso. unfold Tides.compute_tides in Hrun.
  destruct (String.eqb _ "FES2022").
  - destruct (fes2022_series _ _ _ _ _ _ _ _ Hrun)
      as (constants & names & amp & ph & t & hc & tide
          & _ & _ & _ & _ & _ & _ & _ & Hd & Hcm & _).
    destruct (Hdrift _ _ _ _ Hd) as (i & h & Hi & Hh).
    destruct (to_cm_not_finite (TIDE_DATUM_OFFSET_CM cfg) _ _ _ Hi Hh)
      as [e He].
    congruence.
  - cbn [fst] in Hrun.
    destruct (got410_series _ _ _ _ _ Hrun) as (dts & tide & _ & Hc & Hcm & _).
    destruct (Hctc _ _ _ _ Hc) as (i & h & Hi & Hh).
    destruct (to_cm_not_finite (TIDE_DATUM_OFFSET_CM cfg) _ _ _ Hi Hh)
      as [e He].
    congruence.
Qed.

Lemma one_non_finite_height_voids_the_series_witness :
  F64.dyadic nan = None /\ F64.dyadic infinity = None /\
  fst (Tides.compute_tides Scenario.got410 (Returned tt)
         (fun _ _ dts =>
            Returned (0.125%float :: nan :: map (fun _ => 0.5%float) dts))
         (fun _ _ _ => Returned [infinity])
         Scenario.no_other_payload JNull None Scenario.afternoon) = None.
Proof.
  split; [reflexivity |]. split; [reflexivity |].
  apply one_non_finite_height_voids_the_series.
  - intros lons lats dts tide [= <-]. exists 1%nat, nan.
    split; reflexivity.
  - intros t hc names tide [= <-]. exists 0%nat, infinity.
    split; reflexivity.
Defined.

(** ** The order of the extracted record *)

Section ExtractionOrder.

Import Extract.

Variable cfg : settings.
Variable model_file_exists : string -> bool.
Variable extract_point : string -> outcome (option float * option float).

Local Abbreviation visit := (Extract.visit model_file_exists extract_point).
Local Abbreviation entries := (Extract.entries model_file_exists extract_point).

Lemma entries_names_sublist (catalog : list string) :
  (entries catalog).*1 `sublist_of` catalog.
Proof.
  unfold Extract.entries.
  induction catalog as [| c catalog IH]; cbn [omap list_omap].
  - constructor.
  - destruct (Extract.extracted model_file_exists extract_point c);
      cbn [fmap option_fmap option_map list_fmap fst].
    + apply sublist_skip, IH.
    + apply sublist_cons, IH.
Qed.

Lemma visit_keeps_location (r : results) (c : string) :
  latitude (visit r c) = latitude r /\ longitude (visit r c) = longitude r.
Proof.
  rewrite visit_extracted.
  destruct (Extract.extracted model_file_exists extract_point c)
    as [[a p] |]; split; reflexivity.
Qed.

Lemma fold_visit_keeps_location (catalog : list string) (r : results) :
  latitude (fold_left visit catalog r) = latitude r /\
  longitude (fold_left visit catalog r) = longitude r.
Proof.
  revert r. induction catalog as [| c catalog IH]; intros r; cbn [fold_left].
  - split; reflexivity.
  - destruct (IH (visit r c)) as [-> ->]. apply visit_keeps_location.
Qed.

End ExtractionOrder.

Lemma catalog_has_no_duplicate : NoDup Extract.CONSTITUENTS.
Proof.
  apply (bool_decide_unpack _). vm_compute. reflexivity.
Qed.

(** The record lists its constituents in catalog order and each at most
    once (it is the catalog with the skipped names struck out), and carries
    the latitude and longitude of [config.py]. *)
Theorem record_follows_the_catalog
    (cfg : settings) (model_file_exists : string -> bool)
    (extract_point : string -> outcome (option float * option float)) :
  let r := Extract.collect cfg model_file_exists extract_point in
  Extract.constituents r `sublist_of` Extract.CONSTITUENTS /\
  NoDup (Extract.constituents r) /\
  Extract.latitude r = LATITUDE cfg /\
  Extract.longitude r = LONGITUDE cfg.
Proof.
  cbv zeta. pose proof catalog_has_no_duplicate as Hnodup.
  unfold Extract.collect. revert Hnodup.
  generalize Extract.CONSTITUENTS. intros catalog Hnodup.
  destruct (loop_lists cfg model_file_exists extract_point catalog)
    as (Hc & _).
  assert (Hsub : Extract.constituents
                   (fold_left (Extract.visit model_file_exists extract_point)
                      catalog (Extract.empty_results cfg))
                 `sublist_of` catalog).
  { rewrite Hc. apply entries_names_sublist. }
  split; [exact Hsub |].
  split; [exact (sublist_NoDup _ _ Hnodup Hsub) |].
  exact (fold_visit_keeps_location model_file_exists extract_point catalog
           (Extract.empty_results cfg)).
Qed.

(** ** From the extraction job to the prediction *)

Section Handover.

Import Tides.

Variable cfg : settings.
Variable import_pyTMD : outcome unit.
Variable predict_drift :
  list float -> list (list harmonic) -> json -> outcome (list float).
Variable numpy_other : ndarray -> ndarray -> nat -> outcome (list (list harmonic)).

Lemma first_load_of_record (r : Extract.results) :
  _load_constants JNull (Some (Document (Persisted.as_loaded r)))
  = (Returned (Persisted.as_loaded r), Persisted.as_loaded r).
Proof. reflexivity. Qed.

(** A first load that succeeds puts the call in the situation of a call
    with the record in memory. *)
Lemma fes2022_first_load (j : json) (disk : option file_content)
    (now : datetime) :
  is_None j = false ->
  _load_constants JNull (Some (Document j)) = (Returned j, j) ->
  compute_tides_fes2022 cfg import_pyTMD predict_drift numpy_other
    JNull (Some (Document j)) now
  = match import_pyTMD with
    | Raised _ => (None, JNull)
    | Returned _ =>
        (fst (compute_tides_fes2022 cfg import_pyTMD predict_drift
                numpy_other j disk now), j)
    end.
Proof.
  intros Hnone Hload. unfold compute_tides_fes2022.
  generalize (time_array (FORECAST_HOURS cfg) now). intros grid.
  destruct import_pyTMD; [| reflexivity].
  rewrite Hload, (load_constants_cached _ _ Hnone). reflexivity.
Qed.

End Handover.

(** A record written by the extraction job is always accepted by the
    FES2022 path: every key the path and its log line read is there, the
    amplitude and phase arrays have the same length, so that they are
    paired index by index without broadcasting, each row of [hc] has one
    column per constituent name, and the synthesizer is called on exactly
    these values. *)
Theorem extracted_record_is_accepted
    (cfg job_cfg : settings) (model_file_exists : string -> bool)
    (extract_point : string -> outcome (option float * option float))
    (import_pyTMD : outcome unit)
    (predict_drift :
       list float -> list (list harmonic) -> json -> outcome (list float))
    (numpy_other : ndarray -> ndarray -> nat -> outcome (list (list harmonic)))
    (now : datetime) :
  let r := Extract.collect job_cfg model_file_exists extract_point in
  let n := FORECAST_HOURS cfg in
  let row := zip_with mk_harmonic (Extract.amplitude r) (Extract.phase r) in
  let names := JList (map JStr (Extract.constituents r)) in
  let run :=
    Tides.compute_tides_fes2022 cfg import_pyTMD predict_drift numpy_other
      JNull (Some (Tides.Document (Persisted.as_loaded r))) now in
  length row = length (Extract.constituents r) /\
  Tides.harmonic_matrix numpy_other
    (Np.array (JList (map JNum (Extract.amplitude r))))
    (Np.array (JList (map JNum (Extract.phase r)))) n
  = Returned (replicate n row) /\
  fst run
  = match import_pyTMD with
    | Raised _ => None
    | Returned _ =>
        try_except
          (t ← Tides.time_array n now;
           tide ← predict_drift t (replicate n row) names;
           tide_cm ← Tides.to_cm (TIDE_DATUM_OFFSET_CM cfg) tide;
           _ ← Tides.log_range tide_cm;
           mret (Some tide_cm))
          (fun _ => None)
    end /\
  (forall u, import_pyTMD = Returned u -> snd run = Persisted.as_loaded r).
Proof.
  cbv zeta. unfold Extract.collect.
  generalize Extract.CONSTITUENTS. intros catalog.
  destruct (loop_lists job_cfg model_file_exists extract_point catalog)
    as (Hc & Ha & Hp).
  set (r := fold_left (Extract.visit model_file_exists extract_point) catalog
              (Extract.empty_results job_cfg)) in *.
  assert (Hlen : length (Extract.amplitude r) = length (Extract.phase r))
    by (rewrite Ha, Hp, !length_map; reflexivity).
  assert (Hrow : length (zip_with mk_harmonic (Extract.amplitude r)
                           (Extract.phase r))
                 = length (Extract.constituents r)).
  { rewrite length_zip_with, <- Hlen, Nat.min_id, Hc, Ha, !length_map.
    reflexivity. }
  assert (Hmatrix :
    Tides.harmonic_matrix numpy_other
      (Np.array (JList (map JNum (Extract.amplitude r))))
      (Np.array (JList (map JNum (Extract.phase r)))) (FORECAST_HOURS cfg)
    = Returned (replicate (FORECAST_HOURS cfg)
                  (zip_with mk_harmonic (Extract.amplitude r)
                     (Extract.phase r)))).
  { rewrite !array_of_floats. unfold Tides.harmonic_matrix.
    rewrite (polar_product_equal_lengths _ _ Hlen). reflexivity. }
  split; [exact Hrow |]. split; [exact Hmatrix |].
  rewrite (fes2022_first_load cfg import_pyTMD predict_drift numpy_other
             (Persisted.as_loaded r) None now eq_refl
             (first_load_of_record r)).
  split.
  - destruct import_pyTMD as [u |] eqn:Himp; [| reflexivity]. cbn [fst].
    rewrite <- Himp.
    rewrite (fes2022_on_flat_record cfg import_pyTMD predict_drift
               numpy_other (Persisted.as_loaded r)
               (JList (map JStr (Extract.constituents r)))
               (Extract.amplitude r) (Extract.phase r) None now
               eq_refl eq_refl eq_refl eq_refl).
    rewrite Himp.
    rewrite !array_of_floats in Hmatrix. rewrite Hmatrix.
    generalize (Tides.time_array (FORECAST_HOURS cfg) now). intros grid.
    destruct grid; reflexivity.
  - intros u ->. reflexivity.
Qed.

(** ** The installation check *)

Section InstallationCheck.

Import Tides Installation.

Lemma truthy_not_None (j : json) : truthy j = true -> is_None j = false.
Proof. destruct j; [discriminate | reflexivity ..]. Qed.

(** What [_load_constants] returns, when it is a record, is what the
    global then holds, and the keys of the log line are in it. *)
Lemma load_constants_returns_the_global (cached : json)
    (disk : option file_content) (constants : json) :
  fst (_load_constants cached disk) = Returned constants ->
  is_None constants = false ->
  snd (_load_constants cached disk) = constants.
Proof.
  unfold _load_constants.
  destruct (is_None cached) eqn:Hc; cbn [negb].
  - destruct disk as [[j | |] |]; cbn [fst snd].
    + intros Hload _.
      destruct (getitem j "constituents") as [names |];
        cbn [mbind outcome_bind Py.bind] in Hload; [| discriminate Hload].
      destruct (Json.len names);
        cbn [mbind outcome_bind Py.bind] in Hload; [| discriminate Hload].
      destruct (getitem j "latitude");
        cbn [mbind outcome_bind Py.bind] in Hload; [| discriminate Hload].
      destruct (getitem j "longitude");
        cbn [mbind outcome_bind Py.bind] in Hload; [| discriminate Hload].
      injection Hload as <-. reflexivity.
    + intros H; discriminate H.
    + intros H; discriminate H.
    + intros [= <-] H. discriminate H.
  - cbn [fst snd]. intros [= <-] _. reflexivity.
Qed.

(** In a process that has not loaded the record yet, a load that returns a
    record has read its three keys. *)
Lemma fresh_load_reads_three_keys (disk : option file_content)
    (constants : json) :
  fst (_load_constants JNull disk) = Returned constants ->
  is_None constants = false ->
  exists names count lat lon,
    getitem constants "constituents" = Returned names /\
    Json.len names = Returned count /\
    getitem constants "latitude" = Returned lat /\
    getitem constants "longitude" = Returned lon.
Proof.
  unfold _load_constants. cbn [is_None negb].
  destruct disk as [[j | |] |]; cbn [fst].
  - intros Hload _.
    destruct (getitem j "constituents") as [names |] eqn:Hn;
      cbn [mbind outcome_bind Py.bind] in Hload; [| discriminate Hload].
    destruct (Json.len names) as [count |] eqn:Hcount;
      cbn [mbind outcome_bind Py.bind] in Hload; [| discriminate Hload].
    destruct (getitem j "latitude") as [lat |] eqn:Hlat;
      cbn [mbind outcome_bind Py.bind] in Hload; [| discriminate Hload].
    destruct (getitem j "longitude") as [lon |] eqn:Hlon;
      cbn [mbind outcome_bind Py.bind] in Hload; [| discriminate Hload].
    injection Hload as <-. exists names, count, lat, lon.
    split; [exact Hn |]. split; [exact Hcount |].
    split; [exact Hlat | exact Hlon].
  - intros H; discriminate H.
  - intros H; discriminate H.
  - intros [= <-] H. discriminate H.
Qed.

End InstallationCheck.

(** [verify_fes2022_installation] reports [ready] only when the record
    file exists, no exception was caught, and the record the process then
    holds in memory has a [constituents] entry of at least eight items and
    both coordinates, which are the ones reported. *)
Theorem ready_means_a_usable_record (cached : json)
    (disk : option Tides.file_content) :
  let run := Installation.verify_fes2022_installation cached disk in
  Installation.ready (fst run) = true ->
  disk <> None /\
  Installation.cache_exists (fst run) = true /\
  Installation.error (fst run) = None /\
  8 <= Installation.constituents_count (fst run) /\
  is_None (snd run) = false /\
  exists names lat lon,
    getitem (snd run) "constituents" = Returned names /\
    Json.len names = Returned (Installation.constituents_count (fst run)) /\
    getitem (snd run) "latitude" = Returned lat /\
    Installation.latitude (fst run) = Some lat /\
    getitem (snd run) "longitude" = Returned lon /\
    Installation.longitude (fst run) = Some lon.
Proof.
  cbv zeta. unfold Installation.verify_fes2022_installation.
  destruct disk as [d |]; [| intros H; discriminate H].
  destruct (Tides._load_constants cached (Some d)) as [loaded cached']
    eqn:Hload.
  cbn [fst snd].
  destruct loaded as [constants | e]; [| intros H; discriminate H].
  destruct (Installation.truthy constants) eqn:Htruthy;
    [| intros H; discriminate H].
  pose proof (truthy_not_None _ Htruthy) as Hnone.
  assert (Hglobal : cached' = constants).
  { pose proof (load_constants_returns_the_global cached (Some d) constants)
      as H.
    rewrite Hload in H. exact (H eq_refl Hnone). }
  subst cached'.
  destruct (getitem constants "constituents") as [names |] eqn:Hnames;
    [| intros H; discriminate H].
  cbn [mbind outcome_bind Py.bind].
  destruct (Json.len names) as [count |] eqn:Hcount;
    [| intros H; discriminate H].
  destruct (getitem constants "latitude") as [lat |] eqn:Hlat;
    [| intros H; discriminate H].
  destruct (getitem constants "longitude") as [lon |] eqn:Hlon;
    [| intros H; discriminate H].
  cbn [Installation.ready Installation.cache_exists Installation.error
       Installation.constituents_count Installation.latitude
       Installation.longitude].
  intros Hready. apply Z.leb_le in Hready.
  split; [discriminate |]. split; [reflexivity |]. split; [reflexivity |].
  split; [exact Hready |]. split; [exact Hnone |].
  exists names, lat, lon. repeat split; first [reflexivity | assumption].
Qed.

Lemma ready_means_a_usable_record_witness :
  Installation.ready
    (fst (Installation.verify_fes2022_installation JNull
            (Some (Tides.Document Examples.eight)))) = true /\
  8 <= Installation.constituents_count
         (fst (Installation.verify_fes2022_installation JNull
                 (Some (Tides.Document Examples.eight)))).
Proof.
  split; [reflexivity |].
  apply (ready_means_a_usable_record JNull
           (Some (Tides.Document Examples.eight)) eq_refl).
Defined.

Section ScriptRun.

Import Tides Installation.

(** What the check reports in a process that has not loaded the record
    yet: a latitude only together with a longitude, and [ready] only for a
    decodable file whose record has at least eight constituents and is then
    held in the global. *)
Lemma fresh_check (disk : option file_content) :
  let run := verify_fes2022_installation JNull disk in
  (forall lat, latitude (fst run) = Some lat -> longitude (fst run) <> None)
  /\
  (ready (fst run) = true ->
   exists record names count,
     disk = Some (Document record) /\
     snd run = record /\
     getitem record "constituents" = Returned names /\
     Json.len names = Returned count /\
     8 <= count).
Proof.
  cbv zeta. unfold verify_fes2022_installation.
  destruct disk as [d |];
    [| split; [intros lat H; discriminate H | intros H; discriminate H]].
  destruct (_load_constants JNull (Some d)) as [loaded cached'] eqn:Hload.
  cbn [fst snd].
  destruct loaded as [constants | e];
    [| split; [intros lat H; discriminate H | intros H; discriminate H]].
  destruct (truthy constants) eqn:Htruthy;
    [| split; [intros lat H; discriminate H | intros H; discriminate H]].
  pose proof (truthy_not_None _ Htruthy) as Hnone.
  assert (Hfst : fst (_load_constants JNull (Some d)) = Returned constants)
    by (rewrite Hload; reflexivity).
  assert (Hglobal : cached' = constants).
  { pose proof (load_constants_returns_the_global JNull (Some d) constants
                  Hfst Hnone) as H.
    rewrite Hload in H. exact H. }
  subst cached'.
  assert (Hdoc : d = Document constants).
  { clear - Hload Hnone. unfold _load_constants in Hload.
    cbn [is_None negb] in Hload.
    destruct d as [j | |]; injection Hload as H1 H2;
      [subst j; reflexivity | subst constants; discriminate Hnone ..]. }
  destruct (fresh_load_reads_three_keys (Some d) constants Hfst Hnone)
    as (names & count & lat & lon & Hnames & Hcount & Hlat & Hlon).
  rewrite Hnames. cbn [mbind outcome_bind Py.bind].
  rewrite Hcount, Hlat, Hlon. cbn [latitude longitude ready].
  split; [intros lat0 _; discriminate |].
  intros Hready. apply Z.leb_le in Hready.
  exists constants, names, count. rewrite Hdoc. repeat split; assumption.
Qed.

End ScriptRun.

(** The only exceptions that leave [main] of [verify_fes2022.py] are
    those of [CACHE_FILE.exists()] and of a [print]: reading
    [status['longitude']] on line 19 cannot raise [KeyError], since a
    load that returned has read both coordinates.  When neither raises,
    [main] returns.  What it returns is 0 or 1, and 0 only when the file
    held a decodable record with at least eight constituents and the
    prediction run on that record returned a series that is not empty. *)
Theorem verify_script_exit_status
    (cfg : settings) (import_pyTMD : outcome unit)
    (predict_drift :
       list float -> list (list harmonic) -> json -> outcome (list float))
    (numpy_other : ndarray -> ndarray -> nat -> outcome (list (list harmonic)))
    (print : Z -> outcome unit) (exists_fault : option exn)
    (disk : option Tides.file_content) (now : datetime) :
  let run :=
    Installation.main cfg import_pyTMD predict_drift numpy_other print
      exists_fault disk now in
  (forall e, run = Raised e ->
     exists_fault = Some e \/ exists line, print line = Raised e) /\
  (exists_fault = None -> (forall line, print line = Returned tt) ->
   exists code, run = Returned code) /\
  (forall code, run = Returned code ->
     (code = 0 \/ code = 1) /\
     (code = 0 ->
      exists record names count series,
        disk = Some (Tides.Document record) /\
        getitem record "constituents" = Returned names /\
        Json.len names = Returned count /\
        8 <= count /\
        fst (Tides.compute_tides_fes2022 cfg import_pyTMD predict_drift
               numpy_other record disk now) = Some series /\
        series <> [])).
Proof.
  cbv zeta. unfold Installation.main, Installation.checked.
  pose proof (fresh_check disk) as [Hboth Hready]. cbv zeta in Hboth, Hready.
  destruct (Installation.verify_fes2022_installation JNull disk)
    as [st cached1].
  cbn [fst snd] in Hboth, Hready |- *.
  destruct (print 10) as [[] |] eqn:H10; py_run; [| script_stops H10].
  destruct exists_fault as [fault |]; py_run.
  { split_and!;
      [intros e [= <-]; left; reflexivity
      | intros H; discriminate H
      | intros code H; discriminate H]. }
  cbv zeta. cbn [fst snd].
  destruct (print 14) as [[] |] eqn:H14; py_run; [| script_stops H14].
  destruct (print 15) as [[] |] eqn:H15; py_run; [| script_stops H15].
  destruct (print 16) as [[] |] eqn:H16; py_run; [| script_stops H16].
  assert (Hline :
    match Installation.latitude st with
    | Some lat =>
        if Installation.truthy lat then
          match Installation.longitude st with
          | Some _ => print 19
          | None => Raised KeyError
          end
        else Returned tt
    | None => Returned tt
    end = Returned tt \/
    exists e,
      print 19 = Raised e /\
      match Installation.latitude st with
      | Some lat =>
          if Installation.truthy lat then
            match Installation.longitude st with
            | Some _ => print 19
            | None => Raised KeyError
            end
          else Returned tt
      | None => Returned tt
      end = Raised e).
  { destruct (Installation.latitude st) as [lat |] eqn:Hlat;
      [| left; reflexivity].
    destruct (Installation.truthy lat); [| left; reflexivity].
    destruct (Installation.longitude st) as [lon |];
      [| contradiction (Hboth lat eq_refl eq_refl)].
    destruct (print 19) as [[] |]; [left; reflexivity | right; eauto]. }
  destruct Hline as [-> | (e19 & H19 & ->)]; py_run; [| script_stops H19].
  destruct (Installation.ready st).
  2:{ destruct (print 37) as [[] |] eqn:H37; py_run; [| script_stops H37].
      destruct (print 38) as [[] |] eqn:H38; py_run; [| script_stops H38].
      destruct (print 39) as [[] |] eqn:H39; py_run; [| script_stops H39].
      destruct (print 40) as [[] |] eqn:H40; py_run; [| script_stops H40].
      script_fails. }
  destruct (Hready eq_refl)
    as (record & names & count & -> & -> & Hnames & Hcount & Hcount8).
  destruct (print 22) as [[] |] eqn:H22; py_run; [| script_stops H22].
  destruct (print 23) as [[] |] eqn:H23; py_run; [| script_stops H23].
  destruct (fst (Tides.compute_tides_fes2022 cfg import_pyTMD predict_drift
                   numpy_other record (Some (Tides.Document record)) now))
    as [[| height series] |] eqn:Hrun.
  - destruct (print 34) as [[] |] eqn:H34; py_run; [| script_stops H34].
    script_fails.
  - destruct (print 30) as [[] |] eqn:H30; py_run; [| script_stops H30].
    destruct (print 31) as [[] |] eqn:H31; py_run; [| script_stops H31].
    destruct (print 32) as [[] |] eqn:H32; py_run; [| script_stops H32].
    split_and!; [intros e H; discriminate H | eauto |].
    intros code [= <-]. split; [left; reflexivity |]. intros _.
    exists record, names, count, (height :: series).
    split_and!; [reflexivity | exact Hnames | exact Hcount | exact Hcount8
                | exact Hrun | discriminate].
  - destruct (print 34) as [[] |] eqn:H34; py_run; [| script_stops H34].
    script_fails.
Qed.

(** ** The cache manager *)

Section ManagerOnDisk.

Variable BASE_DIR : string.
Variable loads : string -> outcome json.
Variable dumps : json -> encoding.

Local Abbreviation CACHE_FILE := (Cache.CACHE_FILE BASE_DIR).
Local Abbreviation cache_dir := (Cache.cache_dir BASE_DIR).

(** The disk after [_save_to_disk] is the disk after the attempt. *)
Lemma update_parts (data : json) (now : float) (flt : Cache.faults)
    (self : Manager.manager) (w : world) :
  let stored :=
    dumps (Manager.stored_of (Manager.mk_manager data (JNum now))) in
  Manager.update BASE_DIR dumps data now flt self w
  = (fst (Cache._save_to_disk BASE_DIR stored flt w),
     Manager.mk_manager data (JNum now),
     snd (Cache.save_attempt BASE_DIR stored flt w)).
Proof.
  cbv zeta. unfold Manager.update.
  rewrite <- save_to_disk_same_disk.
  destruct (Cache._save_to_disk BASE_DIR _ flt w) as [res w'].
  reflexivity.
Qed.

(** Loading a file that holds an object read back from a manager's own
    document. *)
Lemma init_on_own_document (fs : gmap string string) (text : string)
    (data : json) (t now : float) :
  fs !! CACHE_FILE = Some text ->
  loads text
  = Returned (Manager.stored_of (Manager.mk_manager data (JNum t))) ->
  Manager.__init__ BASE_DIR loads false now fs
  = Returned (Manager.mk_manager data (JNum t)).
Proof.
  intros Hfile Hloads.
  unfold Manager.__init__, Manager._load_from_disk, Manager.load_attempt.
  rewrite Hfile, Hloads. reflexivity.
Qed.

Lemma draws_name_found (flt : Cache.faults) (fs0 : gmap string string) :
  Cache.makedirs_fails flt = false ->
  (exists name,
     name ∈ Cache.temp_names flt /\
     fs0 !! temp_path cache_dir ".tmp" name = None) ->
  Cache.draws_name BASE_DIR flt fs0 = true.
Proof.
  intros Hdirs (name & Hin & Hfree). unfold Cache.draws_name.
  rewrite Hdirs. cbn [negb andb].
  destruct (List.find _ (Cache.temp_names flt)) as [found |] eqn:Hfind;
    [reflexivity |].
  apply list_elem_of_In in Hin.
  pose proof (List.find_none _ _ Hfind name Hin) as Hfalse.
  cbv beta in Hfalse. apply bool_decide_eq_false in Hfalse. contradiction.
Qed.

End ManagerOnDisk.

(** An update on a disk without faults, with a payload that serialises and
    a document that [json.load] reads back as what was dumped: the document
    is in the cache file, and a manager started later on that disk holds
    the data and the time of the update. *)
Theorem update_is_read_back_on_restart
    (BASE_DIR : string) (loads : string -> outcome json)
    (dumps : json -> encoding) (data : json) (now later : float)
    (flt : Cache.faults) (self : Manager.manager)
    (fs0 : gmap string string) :
  let kept := Manager.mk_manager data (JNum now) in
  let stored := dumps (Manager.stored_of kept) in
  Cache.makedirs_fails flt = false ->
  (exists name,
     name ∈ Cache.temp_names flt /\
     fs0 !! temp_path (Cache.cache_dir BASE_DIR) ".tmp" name = None) ->
  accepted (Cache.write_budget flt) (length (pieces stored))
  = length (pieces stored) ->
  stops_with stored = None ->
  Cache.replace_fails flt = false ->
  loads (document (pieces stored)) = Returned (Manager.stored_of kept) ->
  exists w',
    Manager.update BASE_DIR dumps data now flt self (start fs0)
    = (Returned tt, kept, w') /\
    files w'
    = <[Cache.CACHE_FILE BASE_DIR := document (pieces stored)]> fs0 /\
    Manager.__init__ BASE_DIR loads false later (files w') = Returned kept.
Proof.
  intros kept stored Hdirs Hname Hbudget Hstops Hreplace Hloads.
  pose proof (save_attempt_spec BASE_DIR stored flt fs0) as Hspec.
  cbv zeta in Hspec. unfold Cache.goes_through in Hspec.
  rewrite (draws_name_found BASE_DIR flt fs0 Hdirs Hname) in Hspec.
  rewrite (bool_decide_eq_true_2 _ Hbudget) in Hspec.
  rewrite (bool_decide_eq_true_2 _ Hstops), Hreplace in Hspec.
  cbn [andb negb] in Hspec. destruct Hspec as (Hres & Hfiles & _).
  exists (snd (Cache.save_attempt BASE_DIR stored flt (start fs0))).
  split.
  - rewrite update_parts. cbv zeta. fold kept. fold stored.
    rewrite save_to_disk_result, Hres. reflexivity.
  - split; [exact Hfiles |]. rewrite Hfiles.
    apply (init_on_own_document BASE_DIR loads _
             (document (pieces stored)) data now later);
      [apply lookup_insert_eq | exact Hloads].
Qed.

Lemma update_is_read_back_on_restart_witness :
  exists w',
    Manager.update Stock.base_dir Stock.dumps Stock.payload Stock.saved_at
      Stock.no_faults Manager.fresh (start ∅)
    = (Returned tt, Stock.kept, w') /\
    files w' = Stock.one_file Stock.text /\
    Manager.__init__ Stock.base_dir Stock.loads false 1769733000%float
      (files w')
    = Returned Stock.kept.
Proof.
  destruct (update_is_read_back_on_restart Stock.base_dir Stock.loads
              Stock.dumps Stock.payload Stock.saved_at 1769733000%float
              Stock.no_faults Manager.fresh ∅)
    as (w' & Hupdate & Hfiles & Hinit).
  - reflexivity.
  - exists "k3x9q2ab". split; [apply list_elem_of_here | apply lookup_empty].
  - reflexivity.
  - reflexivity.
  - reflexivity.
  - reflexivity.
  - exists w'. split; [exact Hupdate |]. split; [| exact Hinit].
    rewrite Hfiles. apply insert_empty.
Defined.

(** Whatever the disk does, an update whose payload serialises returns:
    every exception of the save is an [OSError], that of a failing
    [os.unlink] included, which [_save_to_disk] logs and drops.  The
    manager holds the new data either way.  The disk holds the new
    document when nothing failed; otherwise the cache file is the prior
    one and the disk is exactly as before, or, when a temporary file was
    made and its removal failed, as before with that file left behind. *)
Theorem update_survives_a_failing_disk
    (BASE_DIR : string) (dumps : json -> encoding) (data : json)
    (now : float) (flt : Cache.faults) (self : Manager.manager)
    (fs0 : gmap string string) :
  let kept := Manager.mk_manager data (JNum now) in
  let stored := dumps (Manager.stored_of kept) in
  let path := Cache.CACHE_FILE BASE_DIR in
  let tmp name := temp_path (Cache.cache_dir BASE_DIR) ".tmp" name in
  stops_with stored = None ->
  exists w',
    Manager.update BASE_DIR dumps data now flt self (start fs0)
    = (Returned tt, kept, w') /\
    if Cache.goes_through BASE_DIR stored flt fs0
    then files w' = <[path := document (pieces stored)]> fs0
    else files w' !! path = fs0 !! path /\
         if Cache.unlink_fails flt && Cache.draws_name BASE_DIR flt fs0
         then exists name text,
                fs0 !! tmp name = None /\
                files w' = <[tmp name := text]> fs0
         else files w' = fs0.
Proof.
  intros kept stored path tmp Hstops.
  exists (snd (Cache.save_attempt BASE_DIR stored flt (start fs0))).
  pose proof (save_attempt_spec BASE_DIR stored flt fs0) as Hspec.
  cbv zeta in Hspec.
  rewrite update_parts. cbv zeta. fold kept. fold stored.
  rewrite save_to_disk_result.
  destruct (Cache.goes_through BASE_DIR stored flt fs0).
  - destruct Hspec as (Hres & Hfiles & _). rewrite Hres.
    split; [reflexivity | exact Hfiles].
  - destruct Hspec as ((e & Hres & Hkind) & _ & Hend). rewrite Hres.
    assert (Hos : is_OSError e = true).
    { destruct Hkind as [Hos | [Hstop _]]; [exact Hos |].
      rewrite Hstops in Hstop. discriminate Hstop. }
    rewrite Hos. split; [reflexivity |].
    split; [| exact Hend].
    destruct (Cache.unlink_fails flt && Cache.draws_name BASE_DIR flt fs0).
    + destruct Hend as (name & text & Hfresh & ->).
      apply lookup_insert_ne, temp_path_not_cache_file.
    + rewrite Hend. reflexivity.
Qed.

Lemma update_survives_a_failing_disk_witness :
  exists w',
    Manager.update Stock.base_dir Stock.dumps Stock.payload Stock.saved_at
      Stock.full_device Manager.fresh (start (Stock.one_file "{}"))
    = (Returned tt, Stock.kept, w') /\
    exists name text,
      Stock.one_file "{}"
        !! temp_path (Cache.cache_dir Stock.base_dir) ".tmp" name = None /\
      files w'
      = <[temp_path (Cache.cache_dir Stock.base_dir) ".tmp" name := text]>
          (Stock.one_file "{}").
Proof.
  destruct (update_survives_a_failing_disk Stock.base_dir Stock.dumps
              Stock.payload Stock.saved_at Stock.full_device Manager.fresh
              (Stock.one_file "{}") eq_refl) as (w' & Hupdate & Hfiles).
  exists w'. split; [exact Hupdate |].
  assert (Hgoes : Cache.goes_through Stock.base_dir
                    (Stock.dumps (Manager.stored_of Stock.kept))
                    Stock.full_device (Stock.one_file "{}") = false)
    by (vm_compute; reflexivity).
  assert (Hleft : Cache.unlink_fails Stock.full_device
                  && Cache.draws_name Stock.base_dir Stock.full_device
                       (Stock.one_file "{}") = true)
    by (vm_compute; reflexivity).
  change (Manager.mk_manager Stock.payload (JNum Stock.saved_at))
    with Stock.kept in Hfiles.
  rewrite Hgoes, Hleft in Hfiles. exact (proj2 Hfiles).
Defined.

(** A payload [json.dump] cannot serialise, when nothing failed before
    it: the exception is no [OSError].  If the removal of the temporary
    file works, [update] raises what [json.dump] raised and the disk is as
    before; if the removal fails, its [OSError] takes the place of the
    exception, [_save_to_disk] drops it, [update] returns as if nothing
    had happened, and the temporary file stays.  Either way the manager
    already holds the new data. *)
Theorem unserialisable_update_raises_after_the_assignment
    (BASE_DIR : string) (dumps : json -> encoding) (data : json)
    (now : float) (flt : Cache.faults) (self : Manager.manager)
    (fs0 : gmap string string) (e : exn) :
  let kept := Manager.mk_manager data (JNum now) in
  let stored := dumps (Manager.stored_of kept) in
  let tmp name := temp_path (Cache.cache_dir BASE_DIR) ".tmp" name in
  stops_with stored = Some e ->
  is_OSError e = false ->
  Cache.makedirs_fails flt = false ->
  (exists name, name ∈ Cache.temp_names flt /\ fs0 !! tmp name = None) ->
  accepted (Cache.write_budget flt) (length (pieces stored))
  = length (pieces stored) ->
  exists w',
    Manager.update BASE_DIR dumps data now flt self (start fs0)
    = (if Cache.unlink_fails flt then Returned tt else Raised e, kept, w') /\
    if Cache.unlink_fails flt
    then exists name text,
           fs0 !! tmp name = None /\ files w' = <[tmp name := text]> fs0
    else files w' = fs0.
Proof.
  intros kept stored tmp Hstops Hkind Hdirs Hname Hbudget.
  pose proof (draws_name_found BASE_DIR flt fs0 Hdirs Hname) as Hdraws.
  assert (Hgoes : Cache.goes_through BASE_DIR stored flt fs0 = false).
  { unfold Cache.goes_through. rewrite Hstops.
    rewrite (bool_decide_eq_false_2 (Some e = None)) by discriminate.
    rewrite andb_false_r. reflexivity. }
  pose proof (save_attempt_result BASE_DIR stored flt fs0) as Hres.
  rewrite Hdirs, Hgoes, (bool_decide_eq_true_2 _ Hbudget), Hstops in Hres.
  unfold Cache.draws_name in Hdraws. rewrite Hdirs in Hdraws.
  cbn [negb andb] in Hdraws.
  destruct (List.find _ (Cache.temp_names flt)) as [found |];
    [| discriminate Hdraws].
  pose proof (save_attempt_spec BASE_DIR stored flt fs0) as Hspec.
  cbv zeta in Hspec. rewrite Hgoes in Hspec.
  rewrite (draws_name_found BASE_DIR flt fs0 Hdirs Hname), andb_true_r
    in Hspec.
  destruct Hspec as (_ & _ & Hend).
  exists (snd (Cache.save_attempt BASE_DIR stored flt (start fs0))).
  rewrite update_parts. cbv zeta. fold kept. fold stored.
  rewrite save_to_disk_result, Hres.
  destruct (Cache.unlink_fails flt).
  - split; [reflexivity | exact Hend].
  - rewrite Hkind. split; [reflexivity | exact Hend].
Qed.

Lemma unserialisable_update_raises_after_the_assignment_witness :
  exists w',
    Manager.update Stock.base_dir Stock.dumps_stopping Stock.payload
      Stock.saved_at Stock.no_faults Manager.fresh
      (start (Stock.one_file "{}"))
    = (Raised TypeError, Stock.kept, w') /\
    files w' = Stock.one_file "{}".
Proof.
  apply (unserialisable_update_raises_after_the_assignment Stock.base_dir
           Stock.dumps_stopping Stock.payload Stock.saved_at Stock.no_faults
           Manager.fresh (Stock.one_file "{}") TypeError).
  - reflexivity.
  - reflexivity.
  - reflexivity.
  - exists "k3x9q2ab". split; [apply list_elem_of_here |].
    apply lookup_singleton_ne. vm_compute. discriminate.
  - reflexivity.
Defined.

Section ManagerReads.

Import Manager.

Lemma dict_item_set_eq {A} (k : string) (v : A) (kv : list (string * A)) :
  dict_item k (dict_set k v kv) = Some v.
Proof.
  induction kv as [| [k' v'] rest IH]; cbn [dict_set dict_item].
  - rewrite String.eqb_refl. reflexivity.
  - destruct (String.eqb k k') eqn:Hk; cbn [dict_item].
    + rewrite String.eqb_refl. reflexivity.
    + rewrite Hk. exact IH.
Qed.

Lemma dict_item_set_ne {A} (k k0 : string) (v : A)
    (kv : list (string * A)) :
  k0 <> k -> dict_item k0 (dict_set k v kv) = dict_item k0 kv.
Proof.
  intros Hne. apply String.eqb_neq in Hne.
  induction kv as [| [k' v'] rest IH]; cbn [dict_set dict_item].
  - rewrite Hne. reflexivity.
  - destruct (String.eqb k k') eqn:Hk; cbn [dict_item].
    + apply String.eqb_eq in Hk. subst k'. rewrite Hne. reflexivity.
    + rewrite IH. reflexivity.
Qed.

Lemma dict_item_payload (k : string) (kv : list (string * json)) :
  dict_item k (map (fun item => (item.1, Payload item.2)) kv)
  = Payload <$> assoc k kv.
Proof.
  induction kv as [| [k' v'] rest IH]; [reflexivity |].
  cbn [map dict_item assoc fst snd].
  destruct (String.eqb k k'); [reflexivity | exact IH].
Qed.

Lemma length_dict_set {A} (k : string) (v : A) (kv : list (string * A)) :
  length (dict_set k v kv)
  = match dict_item k kv with
    | Some _ => length kv
    | None => S (length kv)
    end.
Proof.
  induction kv as [| [k' v'] rest IH]; [reflexivity |].
  cbn [dict_set dict_item].
  destruct (String.eqb k k'); [reflexivity |].
  cbn [length]. rewrite IH. destruct (dict_item k rest); reflexivity.
Qed.

End ManagerReads.

(** What [get_response] returns for a manager that holds a payload: the
    payload's items, each under its key, and the integer age under
    ["age"], which replaces an ["age"] of the payload itself instead of
    being added beside it. *)
Theorem response_is_payload_plus_age (now : float) (self : Manager.manager)
    (kv : list (string * json))
    (response : option (list (string * Manager.field))) :
  Manager._data self = JDict kv ->
  Manager.get_response now self = Returned response ->
  exists age n fields,
    response = Some fields /\
    Manager.get_age_seconds now self = Returned age /\
    Manager.py_int age = Returned n /\
    Manager.dict_item "age" fields = Some (Manager.Age n) /\
    (forall k, k <> "age" ->
       Manager.dict_item k fields = Manager.Payload <$> assoc k kv) /\
    length fields
    = match assoc "age" kv with
      | Some _ => length kv
      | None => S (length kv)
      end.
Proof.
  intros Hdata. unfold Manager.get_response. rewrite Hdata.
  destruct (Manager.get_age_seconds now self) as [age |]; py_run;
    [| intros H; discriminate H].
  destruct (Manager.py_int age) as [n |] eqn:Hn; py_run;
    [| intros H; discriminate H].
  intros [= <-]. exists age, n. eexists. split; [reflexivity |].
  split; [reflexivity |]. split; [exact Hn |].
  split; [apply dict_item_set_eq |]. split.
  - intros k Hk. rewrite dict_item_set_ne by exact Hk.
    apply dict_item_payload.
  - rewrite length_dict_set, dict_item_payload, length_map.
    destruct (assoc "age" kv); reflexivity.
Qed.

Lemma response_is_payload_plus_age_witness :
  exists fields,
    Manager.get_response 1769733000.5%float Stock.kept
    = Returned (Some fields) /\
    Manager.dict_item "age" fields = Some (Manager.Age 1800) /\
    Manager.dict_item "ts" fields
    = Some (Manager.Payload (JNum 1769727600)) /\
    length fields = 3%nat.
Proof.
  destruct (response_is_payload_plus_age 1769733000.5%float Stock.kept
              [("ts", JNum 1769727600); ("age", JNum 7);
               ("tz_offset", JNum 120)]
              (Some [("ts", Manager.Payload (JNum 1769727600));
                     ("age", Manager.Age 1800);
                     ("tz_offset", Manager.Payload (JNum 120))])
              eq_refl)
    as (age & n & fields & Hresponse & _ & _ & Hage & Hrest & Hlen).
  - vm_compute. reflexivity.
  - injection Hresponse as <-. eexists. split; [vm_compute; reflexivity |].
    split; [reflexivity |]. split; [reflexivity | reflexivity].
Defined.

Section ManagerStamps.

Import Manager.

Lemma zero_is_no_infinity (x : float) (s : bool) :
  (x =? 0)%float = true -> Prim2SF x <> S754_infinity s.
Proof.
  intros Hzero Hinf. rewrite FloatAxioms.eqb_spec, Hinf in Hzero.
  destruct s; vm_compute in Hzero; discriminate Hzero.
Qed.

(** The subtraction that returned once returns at any time, on the same
    number. *)
Lemma float_sub_returns (t : float) (v : json) (y : float) :
  float_sub t v = Returned y ->
  exists x,
    as_float v = Some x /\
    forall t', float_sub t' v = Returned (t' - x)%float.
Proof.
  unfold float_sub, F64.float_of_int.
  destruct v as [| b | n | x | s | l | kv]; cbn [as_float];
    try (intros H; discriminate H).
  - intros _. eexists. split; [reflexivity | reflexivity].
  - destruct (Prim2SF (F64.of_int n)); py_run;
      try (intros H; discriminate H);
      intros _; exists (F64.of_int n); split; reflexivity.
  - intros _. exists x. split; reflexivity.
Qed.

Lemma float_sub_raises (t : float) (v : json) (e : exn) :
  float_sub t v = Raised e ->
  (as_float v = None /\ e = TypeError) \/
  (exists n,
     v = JInt n /\ F64.float_of_int n = Raised OverflowError /\
     e = OverflowError).
Proof.
  unfold float_sub.
  destruct v as [| b | n | x | s | l | kv]; cbn [as_float];
    try (intros H; discriminate H);
    try (intros [= <-]; left; split; reflexivity).
  unfold F64.float_of_int.
  destruct (Prim2SF (F64.of_int n)) eqn:Hn; py_run;
    try (intros H; discriminate H).
  intros [= <-]. right. exists n. split; [reflexivity |].
  rewrite Hn. split; reflexivity.
Qed.

Lemma float_sub_of_zero (t : float) (v : json) :
  equals_zero v = true -> exists y, float_sub t v = Returned y.
Proof.
  unfold equals_zero, float_sub, F64.float_of_int.
  destruct v as [| b | n | x | s | l | kv]; cbn [as_float];
    try (intros H; discriminate H);
    try (intros _; eexists; reflexivity).
  intros Hzero.
  destruct (Prim2SF (F64.of_int n)) eqn:Hn; py_run; eauto.
  contradiction (zero_is_no_infinity _ s Hzero Hn).
Qed.

End ManagerStamps.

(** The constructor raises exactly when the cache file exists, can be
    opened, and either [json.load] raises something that is neither a
    [JSONDecodeError] nor an [OSError], or the document is no object
    ([AttributeError] on [stored.get]), or its ["last_updated"] is not a
    number ([TypeError] on the subtraction that computes the age for the
    log line) or is an integer too large for a float ([OverflowError] on
    the same subtraction). *)
Theorem constructor_raises_on_foreign_documents
    (BASE_DIR : string) (loads : string -> outcome json)
    (open_fails : bool) (now : float) (fs : gmap string string) (e : exn) :
  Manager.__init__ BASE_DIR loads open_fails now fs = Raised e
  <->
  open_fails = false /\
  exists text,
    fs !! Cache.CACHE_FILE BASE_DIR = Some text /\
    ((loads text = Raised e /\ Manager.caught_on_load e = false) \/
     exists stored,
       loads text = Returned stored /\
       (((forall kv, stored <> JDict kv) /\ e = AttributeError) \/
        exists kv z,
          stored = JDict kv /\
          assoc "last_updated" kv = Some z /\
          ((Manager.as_float z = None /\ e = TypeError) \/
           (exists n,
              z = JInt n /\
              F64.float_of_int n = Raised OverflowError /\
              e = OverflowError)))).
Proof.
  unfold Manager.__init__, Manager._load_from_disk, Manager.load_attempt.
  split.
  - destruct (fs !! Cache.CACHE_FILE BASE_DIR) as [text |];
      [| intros H; discriminate H].
    destruct open_fails; [intros H; discriminate H |].
    intros Hraised. split; [reflexivity |]. exists text.
    split; [reflexivity |].
    destruct (loads text) as [stored | e0].
    + right. exists stored. split; [reflexivity |].
      destruct stored as [| b | n | x | s | l | kv];
        try (cbn in Hraised; injection Hraised as <-; left;
             split; [intros kv H; discriminate H | reflexivity]).
      right. cbn [Manager.dict_get] in Hraised.
      destruct (assoc "last_updated" kv) as [z |] eqn:Hlu;
        [| cbn in Hraised; discriminate Hraised].
      destruct (Manager.float_sub now z) as [y | e1] eqn:Hsub;
        [discriminate Hraised |].
      assert (Hcaught : Manager.caught_on_load e1 = false).
      { destruct (float_sub_raises _ _ _ Hsub)
          as [[_ ->] | (n & _ & _ & ->)]; reflexivity. }
      rewrite Hcaught in Hraised. injection Hraised as <-.
      exists kv, z. split; [reflexivity |]. split; [exact Hlu |].
      exact (float_sub_raises _ _ _ Hsub).
    + left. destruct (Manager.caught_on_load e0) eqn:Hcaught;
        [discriminate Hraised |].
      injection Hraised as <-. split; [reflexivity | exact Hcaught].
  - intros (-> & text & -> & [[-> Hcaught] | (stored & -> & Hkind)]).
    + rewrite Hcaught. reflexivity.
    + destruct Hkind as [[Hforeign ->] | (kv & z & -> & Hz & Hstamp)].
      * destruct stored as [| b | n | x | s | l | kv]; try reflexivity.
        contradiction (Hforeign kv eq_refl).
      * cbn [Manager.dict_get]. rewrite Hz.
        destruct Hstamp as [[Hfloat ->] | (n & -> & Hover & ->)].
        -- unfold Manager.float_sub. rewrite Hfloat.
           destruct z; try reflexivity; discriminate Hfloat.
        -- unfold Manager.float_sub. rewrite Hover. reflexivity.
Qed.

Lemma constructor_raises_on_foreign_documents_witness :
  Manager.__init__ Stock.base_dir (Stock.loads_as Stock.dated_beyond_floats)
    false 1769733000%float (Stock.one_file "{data: {}, last_updated: 1e400}")
  = Raised OverflowError.
Proof.
  apply (proj2 (constructor_raises_on_foreign_documents Stock.base_dir
                  (Stock.loads_as Stock.dated_beyond_floats) false
                  1769733000%float
                  (Stock.one_file "{data: {}, last_updated: 1e400}")
                  OverflowError)).
  split; [reflexivity |].
  exists "{data: {}, last_updated: 1e400}".
  split; [apply lookup_singleton_eq |]. right.
  exists Stock.dated_beyond_floats. split; [reflexivity |]. right.
  exists [("data", Stock.payload); ("last_updated", JInt (10 ^ 400))],
    (JInt (10 ^ 400)).
  split; [reflexivity |]. split; [reflexivity |]. right.
  exists (10 ^ 400). split; [reflexivity |].
  split; [vm_compute; reflexivity | reflexivity].
Defined.

(** A manager starts empty, without raising, when the cache file is
    missing, cannot be opened, or makes [json.load] raise a
    [JSONDecodeError] or an [OSError]; it then asks for a refresh and has
    no response to give. *)
Theorem unusable_cache_file_starts_empty
    (BASE_DIR : string) (loads : string -> outcome json)
    (open_fails : bool) (now later : float) (fs : gmap string string) :
  (fs !! Cache.CACHE_FILE BASE_DIR = None \/
   exists text,
     fs !! Cache.CACHE_FILE BASE_DIR = Some text /\
     (open_fails = true \/
      exists e, loads text = Raised e /\ Manager.caught_on_load e = true)) ->
  exists self,
    Manager.__init__ BASE_DIR loads open_fails now fs = Returned self /\
    Manager.has_data self = false /\
    Manager.needs_refresh later self = Returned true /\
    Manager.get_response later self = Returned None.
Proof.
  intros Hcase. exists Manager.fresh.
  split; [| split; [reflexivity | split; reflexivity]].
  unfold Manager.__init__, Manager._load_from_disk, Manager.load_attempt.
  destruct Hcase as [-> | (text & -> & [-> | (e & Hloads & Hcaught)])];
    [reflexivity | reflexivity |].
  destruct open_fails; [reflexivity |].
  rewrite Hloads, Hcaught. reflexivity.
Qed.

Lemma unusable_cache_file_starts_empty_witness :
  Manager.__init__ Stock.base_dir Stock.loads false 1769733000%float
    (Stock.one_file "{data: ")
  = Returned Manager.fresh.
Proof.
  destruct (unusable_cache_file_starts_empty Stock.base_dir Stock.loads
              false 1769733000%float 1769733000%float
              (Stock.one_file "{data: "))
    as (self & Hinit & Hdata & _).
  - right. exists "{data: ". split; [apply lookup_singleton_eq |].
    right. exists JSONDecodeError. split; reflexivity.
  - rewrite Hinit. f_equal. destruct self as [data stamp].
    vm_compute in Hinit. injection Hinit as <- <-. reflexivity.
Defined.

(** A cache file with data but without a time of update (no
    ["last_updated"], or one equal to zero) is loaded as it is.  The
    manager then has data and asks for a refresh, and until an update
    every [get_response] raises [OverflowError]: the age is infinite, and
    [int] refuses it. *)
Theorem undated_data_cannot_be_served
    (BASE_DIR : string) (loads : string -> outcome json)
    (now later : float) (fs : gmap string string) (text : string)
    (stored payload : list (string * json)) :
  fs !! Cache.CACHE_FILE BASE_DIR = Some text ->
  loads text = Returned (JDict stored) ->
  assoc "data" stored = Some (JDict payload) ->
  (assoc "last_updated" stored = None \/
   exists z, assoc "last_updated" stored = Some z /\
             Manager.equals_zero z = true) ->
  exists self,
    Manager.__init__ BASE_DIR loads false now fs = Returned self /\
    Manager.has_data self = true /\
    Manager.needs_refresh later self = Returned true /\
    Manager.get_response later self = Raised OverflowError.
Proof.
  intros Hfile Hloads Hdata Hstamp.
  assert (Hserve : forall z,
    Manager.equals_zero z = true ->
    Manager.has_data (Manager.mk_manager (JDict payload) z) = true /\
    Manager.needs_refresh later (Manager.mk_manager (JDict payload) z)
    = Returned true /\
    Manager.get_response later (Manager.mk_manager (JDict payload) z)
    = Raised OverflowError).
  { intros z Hz. split; [reflexivity |].
    unfold Manager.needs_refresh, Manager.get_response,
      Manager.get_age_seconds.
    cbn [Manager.has_data Manager._data Manager._last_updated is_None negb].
    rewrite Hz. split; reflexivity. }
  unfold Manager.__init__, Manager._load_from_disk, Manager.load_attempt.
  rewrite Hfile, Hloads. cbn [Manager.dict_get]. rewrite Hdata.
  destruct Hstamp as [-> | (z & -> & Hz)].
  - exists (Manager.mk_manager (JDict payload) (JNum 0)).
    split; [reflexivity |]. apply Hserve. reflexivity.
  - exists (Manager.mk_manager (JDict payload) z).
    split; [| apply Hserve; exact Hz].
    destruct (float_sub_of_zero now z Hz) as [y ->]. reflexivity.
Qed.

Lemma undated_data_cannot_be_served_witness :
  exists self,
    Manager.__init__ Stock.base_dir (Stock.loads_as Stock.undated) false
      1769733000%float (Stock.one_file "{data: {}}")
    = Returned self /\
    Manager.has_data self = true /\
    Manager.needs_refresh 1769733060%float self = Returned true /\
    Manager.get_response 1769733060%float self = Raised OverflowError.
Proof.
  apply (undated_data_cannot_be_served Stock.base_dir
           (Stock.loads_as Stock.undated) 1769733000%float
           1769733060%float (Stock.one_file "{data: {}}") "{data: {}}"
           [("data", Stock.payload)]
           [("ts", JNum 1769727600); ("age", JNum 7);
            ("tz_offset", JNum 120)]).
  - apply lookup_singleton_eq.
  - reflexivity.
  - reflexivity.
  - left. reflexivity.
Defined.

(** A manager that the constructor returned has a number for
    [_last_updated], whatever the cache file held: [get_age_seconds] and
    [needs_refresh] never raise on it, the age being infinite for a zero
    and [time.time() - _last_updated] otherwise. *)
Theorem loaded_manager_can_tell_its_age
    (BASE_DIR : string) (loads : string -> outcome json)
    (open_fails : bool) (now later : float) (fs : gmap string string)
    (self : Manager.manager) :
  Manager.__init__ BASE_DIR loads open_fails now fs = Returned self ->
  exists x,
    Manager.as_float (Manager._last_updated self) = Some x /\
    let age := if (x =? 0)%float then infinity else (later - x)%float in
    Manager.get_age_seconds later self = Returned age /\
    Manager.needs_refresh later self
    = Returned (negb (Manager.has_data self)
                || (F64.of_int Manager.POLL_INTERVAL_SECONDS <? age)%float).
Proof.
  intros Hinit.
  assert (Hstamp : exists x,
    Manager.as_float (Manager._last_updated self) = Some x /\
    forall t, Manager.float_sub t (Manager._last_updated self)
              = Returned (t - x)%float).
  { revert Hinit.
    unfold Manager.__init__, Manager._load_from_disk, Manager.load_attempt.
    destruct (fs !! Cache.CACHE_FILE BASE_DIR) as [text |];
      [| intros [= <-]; exists 0%float; split; reflexivity].
    destruct open_fails;
      [intros [= <-]; exists 0%float; split; reflexivity |].
    destruct (loads text) as [stored | e0].
    2:{ destruct (Manager.caught_on_load e0); [| intros H; discriminate H].
        intros [= <-]. exists 0%float. split; reflexivity. }
    destruct stored as [| b | n | x | s | l | kv];
      try (intros H; discriminate H).
    cbn [Manager.dict_get].
    destruct (Manager.float_sub now
                (match assoc "last_updated" kv with
                 | Some v => v
                 | None => JNum 0
                 end)) as [y | e1] eqn:Hsub.
    - intros [= <-]. cbn [Manager._last_updated].
      exact (float_sub_returns _ _ _ Hsub).
    - destruct (float_sub_raises _ _ _ Hsub)
        as [[_ ->] | (n & _ & _ & ->)]; intros H; discriminate H. }
  destruct Hstamp as (x & Hx & Hsub). exists x. split; [exact Hx |].
  cbv zeta.
  assert (Hage :
    Manager.get_age_seconds later self
    = Returned (if (x =? 0)%float then infinity else (later - x)%float)).
  { unfold Manager.get_age_seconds, Manager.equals_zero.
    rewrite Hx, Hsub. destruct (x =? 0)%float; reflexivity. }
  split; [exact Hage |].
  unfold Manager.needs_refresh. rewrite Hage.
  destruct (Manager.has_data self); reflexivity.
Qed.

Lemma loaded_manager_can_tell_its_age_witness :
  Manager.get_age_seconds 1769733000.5%float Stock.kept
  = Returned 1800.5%float
  /\ Manager.needs_refresh 1769733000.5%float Stock.kept = Returned true.
Proof.
  destruct (loaded_manager_can_tell_its_age Stock.base_dir Stock.loads false
              1769731260%float 1769733000.5%float
              (Stock.one_file Stock.text) Stock.kept)
    as (x & Hx & Hage & Hrefresh).
  - vm_compute. reflexivity.
  - injection Hx as <-. split; [rewrite Hage | rewrite Hrefresh];
      vm_compute; reflexivity.
Defined.

(** ** The fetchers *)

Section DailyDust.

Import Fetcher.

Lemma comprehension_elem {A B} (f : A -> outcome B) (xs : list A)
    (ys : list B) (y : B) :
  comprehension f xs = Returned ys -> y ∈ ys ->
  exists x, x ∈ xs /\ f x = Returned y.
Proof.
  revert ys. induction xs as [| x0 xs IH]; intros ys; cbn [comprehension].
  - intros [= <-] Hy. apply elem_of_nil in Hy. contradiction.
  - destruct (f x0) as [y0 |] eqn:Hf; [| intros H; discriminate H].
    destruct (comprehension f xs) as [ys' |]; [| intros H; discriminate H].
    intros [= <-] Hy. apply elem_of_cons in Hy as [-> | Hy].
    + exists x0. split; [apply list_elem_of_here | exact Hf].
    + destruct (IH ys' eq_refl Hy) as (x & Hx & Hfx).
      exists x. split; [apply list_elem_of_further; exact Hx | exact Hfx].
Qed.

(** [max] returns one of the items. *)
Lemma py_max_elem (first : num) (rest : list num) :
  py_max first rest ∈ first :: rest.
Proof.
  unfold py_max. revert first.
  induction rest as [| x rest IH]; intros first; cbn [fold_left].
  - apply list_elem_of_here.
  - destruct (gt x first).
    + apply list_elem_of_further, IH.
    + specialize (IH first). apply elem_of_cons in IH as [-> | IH].
      * apply list_elem_of_here.
      * apply list_elem_of_further, list_elem_of_further, IH.
Qed.

(** The integer of a day is the rounding of one of its readings. *)
Lemma day_max_some (l : list json) (day : nat) (n : Z) :
  day_max l day = Returned (Some n) ->
  exists v x,
    v ∈ day_chunk l day /\ number v = Returned x /\
    rounded x = Returned n.
Proof.
  unfold day_max. cbv zeta.
  destruct (comprehension number _) as [readings |] eqn:Hreadings; py_run;
    [| intros H; discriminate H].
  destruct readings as [| first rest]; [intros H; discriminate H |].
  destruct (rounded (py_max first rest)) as [m |] eqn:Hround; py_run;
    [| intros H; discriminate H].
  intros [= ->].
  destruct (comprehension_elem _ _ _ _ Hreadings (py_max_elem first rest))
    as (v & Hv & Hnumber).
  exists v, (py_max first rest).
  split; [| split; [exact Hnumber | exact Hround]].
  apply list_elem_of_In in Hv. apply List.filter_In in Hv as [Hv _].
  apply list_elem_of_In. exact Hv.
Qed.

(** A chunk without data adds nothing. *)
Lemma day_max_no_data (l : list json) (day : nat) :
  List.filter (fun v => negb (is_None v)) (day_chunk l day) = [] ->
  day_max l day = Returned None.
Proof. unfold day_max. cbv zeta. intros ->. reflexivity. Qed.

Lemma days_loop_app (l : list json) (days days' : list nat) :
  forall acc,
    days_loop l (days ++ days') acc
    = (acc' ← days_loop l days acc; days_loop l days' acc').
Proof.
  induction days as [| day days IH]; intros acc; [reflexivity |].
  cbn [app days_loop].
  destruct (day_max l day) as [m |]; py_run; [apply IH | reflexivity].
Qed.

(** The loop sees the list through its chunks only. *)
Lemma days_loop_chunks (l l' : list json) (days days' : list nat) :
  Forall2 (fun d d' => day_chunk l d = day_chunk l' d') days days' ->
  forall acc, days_loop l days acc = days_loop l' days' acc.
Proof.
  induction 1 as [| d d' days days' Hchunk _ IH]; intros acc;
    [reflexivity |].
  cbn [days_loop]. unfold day_max. rewrite Hchunk.
  destruct (_ ← comprehension number _; _) as [m |]; py_run;
    [apply IH | reflexivity].
Qed.

(** What the loop appends: at most one integer per day, each of them the
    integer of one of the days. *)
Lemma days_loop_spec (l : list json) (days : list nat) :
  forall acc out,
    days_loop l days acc = Returned out ->
    exists added,
      out = acc ++ added /\
      (length added <= length days)%nat /\
      forall n, n ∈ added ->
        exists day, day ∈ days /\ day_max l day = Returned (Some n).
Proof.
  induction days as [| day days IH]; intros acc out; cbn [days_loop].
  - intros [= <-]. exists []. rewrite app_nil_r.
    split; [reflexivity |]. split; [reflexivity |].
    intros n Hn. apply elem_of_nil in Hn. contradiction.
  - destruct (day_max l day) as [m |] eqn:Hday; py_run;
      [| intros H; discriminate H].
    intros Hrest. destruct (IH _ _ Hrest) as (added & -> & Hlen & Hfrom).
    destruct m as [n0 |].
    + exists (n0 :: added). rewrite <- app_assoc.
      split; [reflexivity |]. split; [cbn [length]; lia |].
      intros n Hn. apply elem_of_cons in Hn as [-> | Hn].
      * exists day. split; [apply list_elem_of_here | exact Hday].
      * destruct (Hfrom n Hn) as (d & Hd & Hmax).
        exists d. split; [apply list_elem_of_further; exact Hd | exact Hmax].
    + exists added. split; [reflexivity |]. split; [cbn [length]; lia |].
      intros n Hn. destruct (Hfrom n Hn) as (d & Hd & Hmax).
      exists d. split; [apply list_elem_of_further; exact Hd | exact Hmax].
Qed.

(** Chunks of a list that goes on, or was cut, after the chunk. *)
Lemma take_drop_app (a rest : list json) (n m : nat) :
  (n + m <= length a)%nat ->
  take m (drop n (a ++ rest)) = take m (drop n a).
Proof.
  intros Hlen. rewrite drop_app_le by lia.
  apply take_app_le. rewrite length_drop. lia.
Qed.

End DailyDust.

Section DustWeek.

Import Fetcher.

Lemma Forall2_seq (P : nat -> nat -> Prop) (n : nat) :
  forall s s',
    (forall i, (i < n)%nat -> P (s + i)%nat (s' + i)%nat) ->
    Forall2 P (seq s n) (seq s' n).
Proof.
  induction n as [| n IH]; intros s s' HP; cbn [seq]; constructor.
  - specialize (HP 0%nat). rewrite !Nat.add_0_r in HP. apply HP. lia.
  - apply IH. intros i Hi. specialize (HP (S i)).
    rewrite !Nat.add_succ_r in HP. apply HP. lia.
Qed.

(** The week of [a ++ nulls ++ b], where [a] is [k] whole days and [nulls]
    one day without data, against the week of [a ++ b]. *)
Lemma days_loop_skips_a_day (a b : list json) (k : nat) :
  length a = (k * 24)%nat ->
  (length a + length b <= 144)%nat ->
  days_loop (a ++ replicate 24 JNull ++ b) (seq 0 7) []
  = days_loop (a ++ b) (seq 0 7) [].
Proof.
  intros Ha Hweek.
  assert (Hk : (k <= 6)%nat) by lia.
  set (l := a ++ replicate 24 JNull ++ b).
  set (l' := a ++ b).
  assert (Hleft : seq 0 7 = seq 0 k ++ k :: seq (S k) (6 - k)).
  { replace 7%nat with (k + S (6 - k))%nat by lia.
    rewrite seq_app. reflexivity. }
  assert (Hright : seq 0 7 = seq 0 k ++ seq k (6 - k) ++ [6%nat]).
  { replace 7%nat with (k + ((6 - k) + 1))%nat at 1 by lia.
    rewrite seq_app, seq_app. cbn [seq Nat.add].
    replace (k + (6 - k))%nat with 6%nat by lia. reflexivity. }
  rewrite Hleft at 1. rewrite Hright.
  rewrite !days_loop_app.
  assert (Hbefore : forall acc,
    days_loop l (seq 0 k) acc = days_loop l' (seq 0 k) acc).
  { apply days_loop_chunks, Forall2_seq. intros i Hi.
    unfold day_chunk, l, l'. cbn [Nat.add].
    rewrite !take_drop_app by lia. reflexivity. }
  rewrite Hbefore.
  destruct (days_loop l' (seq 0 k) []) as [acc |]; py_run; [| reflexivity].
  cbn [days_loop].
  assert (Hempty : day_max l k = Returned None).
  { apply day_max_no_data. unfold day_chunk, l.
    rewrite drop_app_length' by lia.
    rewrite take_app_length' by (rewrite length_replicate; reflexivity).
    reflexivity. }
  rewrite Hempty. py_run.
  assert (Hafter : forall acc',
    days_loop l (seq (S k) (6 - k)) acc'
    = days_loop l' (seq k (6 - k)) acc').
  { apply days_loop_chunks, Forall2_seq. intros i Hi.
    unfold day_chunk, l, l'.
    rewrite (drop_app_ge a) by lia.
    rewrite (drop_app_ge (replicate 24 JNull))
      by (rewrite length_replicate; lia).
    rewrite (drop_app_ge a) by lia.
    rewrite length_replicate. f_equal. f_equal. lia. }
  rewrite Hafter, days_loop_app.
  destruct (days_loop l' (seq k (6 - k)) acc) as [acc' |]; py_run;
    [| reflexivity].
  cbn [days_loop].
  assert (Hlast : day_max l' 6 = Returned None).
  { apply day_max_no_data. unfold day_chunk, l'.
    rewrite drop_ge by (rewrite length_app; lia). reflexivity. }
  rewrite Hlast. reflexivity.
Qed.

End DustWeek.

(** What [fetch_daily_dust] returns, when it is a list: between one and
    seven integers, each the rounding of a reading of one of the seven
    days, for a payload whose dust series is a list.  The reading is
    rounded as it is: an [int] is returned exactly, a [float] by
    [round]. *)
Theorem daily_dust_entries_come_from_days (response : outcome json)
    (daily : list Z) :
  Fetcher.fetch_daily_dust response = Some daily ->
  exists data hourly l,
    response = Returned data /\
    getitem data "hourly" = Returned hourly /\
    getitem hourly "dust" = Returned (JList l) /\
    (1 <= length daily <= 7)%nat /\
    forall n, n ∈ daily ->
      exists day v x,
        (day < 7)%nat /\ v ∈ Fetcher.day_chunk l day /\
        Fetcher.number v = Returned x /\ Fetcher.rounded x = Returned n.
Proof.
  unfold Fetcher.fetch_daily_dust.
  destruct response as [data |]; py_run; [| intros H; discriminate H].
  destruct (getitem data "hourly") as [hourly |] eqn:Hhourly; py_run;
    [| intros H; discriminate H].
  destruct (getitem hourly "dust") as [dust |] eqn:Hdust; py_run;
    [| intros H; discriminate H].
  destruct dust as [| flag | n | x | s | l | kv]; cbn [Fetcher.daily_maxima];
    try (intros H; discriminate H).
  { destruct (String.eqb s ""); intros H; discriminate H. }
  destruct (Fetcher.days_loop l (seq 0 7) []) as [out |] eqn:Hloop; py_run;
    [| intros H; discriminate H].
  destruct out as [| n0 out]; [intros H; discriminate H |].
  intros [= <-].
  destruct (days_loop_spec l (seq 0 7) [] _ Hloop)
    as (added & Hout & Hlen & Hfrom).
  cbn [app] in Hout. subst added.
  exists data, hourly, l. split; [reflexivity |]. split; [exact Hhourly |].
  split; [exact Hdust |]. split.
  - rewrite length_seq in Hlen. cbn [length] in Hlen |- *. lia.
  - intros n Hn. destruct (Hfrom n Hn) as (day & Hday & Hmax).
    destruct (day_max_some l day n Hmax) as (v & x & Hv & Hnumber & Hround).
    exists day, v, x. split; [| split; [exact Hv | split; assumption]].
    apply elem_of_seq in Hday. lia.
Qed.

Lemma daily_dust_entries_come_from_days_witness :
  Fetcher.fetch_daily_dust (Returned Readings.dust_payload) = Some [31; 18]
  /\ exists data hourly l,
       Returned Readings.dust_payload = Returned data /\
       getitem data "hourly" = Returned hourly /\
       getitem hourly "dust" = Returned (JList l) /\
       (1 <= length [31; 18] <= 7)%nat /\
       forall n, n ∈ [31; 18] ->
         exists day v x,
           (day < 7)%nat /\ v ∈ Fetcher.day_chunk l day /\
           Fetcher.number v = Returned x /\ Fetcher.rounded x = Returned n.
Proof.
  assert (H : Fetcher.fetch_daily_dust (Returned Readings.dust_payload)
              = Some [31; 18]) by (vm_compute; reflexivity).
  split; [exact H |].
  exact (daily_dust_entries_come_from_days _ _ H).
Defined.

(** An integer reading that no float holds comes back as it is: nothing
    on the way converts it. *)
Lemma integer_reading_is_returned_exactly :
  Fetcher.fetch_daily_dust
    (Returned
       (JDict [("hourly",
                JDict [("dust",
                        JList [JNum 9007199254740992;
                               JInt 9007199254740993])])]))
  = Some [9007199254740993].
Proof. vm_compute. reflexivity. Qed.

(** A day without data is left out wherever it is, not only at the end:
    the days after it move one place up, so the place of an entry says
    how many days with data came before, not which day it is.  A series
    with such a day after [k] whole days gives what the series without
    that day gives. *)
Theorem daily_dust_skips_a_day_without_data (a b : list json) (k : nat) :
  length a = (k * 24)%nat ->
  (length a + length b <= 144)%nat ->
  Fetcher.daily_maxima (JList (a ++ replicate 24 JNull ++ b))
  = Fetcher.daily_maxima (JList (a ++ b)).
Proof.
  intros Ha Hweek. cbn [Fetcher.daily_maxima].
  rewrite (days_loop_skips_a_day a b k Ha Hweek). reflexivity.
Qed.

Lemma daily_dust_skips_a_day_without_data_witness :
  Fetcher.daily_maxima
    (JList (Readings.calm_day ++ replicate 24 JNull ++ Readings.dusty_day))
  = Returned (Some [12; 87]).
Proof.
  rewrite (daily_dust_skips_a_day_without_data Readings.calm_day
             Readings.dusty_day 1 eq_refl).
  - vm_compute. reflexivity.
  - vm_compute. lia.
Defined.

(** The readings after the seventh day play no part. *)
Theorem daily_dust_reads_one_week (l : list json) :
  Fetcher.daily_maxima (JList l) = Fetcher.daily_maxima (JList (take 168 l)).
Proof.
  cbn [Fetcher.daily_maxima].
  rewrite (days_loop_chunks l (take 168 l) (seq 0 7) (seq 0 7));
    [reflexivity |].
  apply Forall2_seq. intros i Hi. cbn [Nat.add]. unfold Fetcher.day_chunk.
  rewrite (take_drop_commute (take 168 l)), take_take.
  rewrite Nat.min_l by lia. rewrite <- take_drop_commute. reflexivity.
Qed.

Section ForeignReadings.

Import Fetcher.

Lemma days_loop_raises (l : list json) (days : list nat) (day : nat)
    (e : exn) :
  day ∈ days -> day_max l day = Raised e ->
  forall acc, exists e', days_loop l days acc = Raised e'.
Proof.
  intros Hday Hraised.
  induction days as [| d days IH]; intros acc.
  - apply elem_of_nil in Hday. contradiction.
  - cbn [days_loop]. apply elem_of_cons in Hday as [<- | Hday].
    + rewrite Hraised. eauto.
    + destruct (day_max l d) as [m |]; py_run; [| eauto].
      apply (IH Hday).
Qed.

(** A reading that is neither [None] nor a number makes its day raise. *)
Lemma day_max_raises (l : list json) (i : nat) (v : json) (e : exn) :
  l !! i = Some v -> is_None v = false -> number v = Raised e ->
  exists e', day_max l (i / 24) = Raised e'.
Proof.
  intros Hv Hnone Hnumber.
  assert (Hchunk : v ∈ day_chunk l (i / 24)).
  { apply list_elem_of_lookup. exists (i mod 24)%nat. unfold day_chunk.
    rewrite lookup_take_lt by (apply Nat.mod_upper_bound; lia).
    rewrite lookup_drop, <- Hv. f_equal.
    pose proof (Nat.div_mod_eq i 24). lia. }
  assert (Hkept :
    v ∈ List.filter (fun v => negb (is_None v)) (day_chunk l (i / 24))).
  { apply list_elem_of_In, List.filter_In.
    split; [apply list_elem_of_In; exact Hchunk | rewrite Hnone; reflexivity]. }
  apply list_elem_of_lookup in Hkept as [j Hj].
  unfold day_max. cbv zeta.
  destruct (comprehension_raises number _ j v e Hj Hnumber) as [e' ->].
  exists e'. reflexivity.
Qed.

End ForeignReadings.

(** One reading of the week that is neither [None] nor a number (a string,
    say) makes [fetch_daily_dust] return [None]: the maxima of the other
    days are lost with it. *)
Theorem one_foreign_reading_voids_the_dust (data hourly : json)
    (l : list json) (i : nat) (v : json) (e : exn) :
  getitem data "hourly" = Returned hourly ->
  getitem hourly "dust" = Returned (JList l) ->
  l !! i = Some v ->
  (i < 168)%nat ->
  is_None v = false ->
  Fetcher.number v = Raised e ->
  Fetcher.fetch_daily_dust (Returned data) = None.
Proof.
  intros Hhourly Hdust Hv Hweek Hnone Hnumber.
  unfold Fetcher.fetch_daily_dust. py_run. rewrite Hhourly. py_run.
  rewrite Hdust. py_run. cbn [Fetcher.daily_maxima].
  destruct (day_max_raises l i v e Hv Hnone Hnumber) as [e' Hday].
  assert (Hin : (i / 24)%nat ∈ seq 0 7).
  { apply elem_of_seq. split; [lia |].
    cbn [Nat.add]. apply Nat.Div0.div_lt_upper_bound. lia. }
  destruct (days_loop_raises l (seq 0 7) (i / 24) e' Hin Hday []) as [e'' ->].
  reflexivity.
Qed.

Lemma one_foreign_reading_voids_the_dust_witness :
  Fetcher.fetch_daily_dust (Returned Readings.dust_in_words) = None.
Proof.
  apply (one_foreign_reading_voids_the_dust Readings.dust_in_words
           (JDict [("dust", JList (Readings.calm_day ++ [JStr "n/a"]))])
           (Readings.calm_day ++ [JStr "n/a"]) 24 (JStr "n/a") TypeError).
  - reflexivity.
  - reflexivity.
  - reflexivity.
  - lia.
  - reflexivity.
  - reflexivity.
Defined.

(** What [fetch_sea_temperature] returns, when it is a list, has one
    integer for each item of the series, in its place: 0 for a [None],
    the rounding of the number otherwise.  No item was dropped, and none
    failed to convert. *)
Theorem sea_temperature_keeps_hours (float_of_str : string -> outcome float)
    (response : outcome json) (out : list Z) :
  Fetcher.fetch_sea_temperature float_of_str response = Some out ->
  exists data hourly values items,
    response = Returned data /\
    getitem data "hourly" = Returned hourly /\
    getitem hourly "sea_surface_temperature" = Returned values /\
    Fetcher.iter values = Returned items /\
    length out = length items /\
    forall i v, items !! i = Some v ->
      if is_None v then out !! i = Some 0
      else exists x n,
             Fetcher.to_float float_of_str v = Returned x /\
             F64.py_round x = Returned n /\
             out !! i = Some n.
Proof.
  unfold Fetcher.fetch_sea_temperature.
  destruct response as [data |]; py_run; [| intros H; discriminate H].
  destruct (getitem data "hourly") as [hourly |] eqn:Hhourly; py_run;
    [| intros H; discriminate H].
  destruct (getitem hourly "sea_surface_temperature") as [values |]
    eqn:Hvalues; py_run; [| intros H; discriminate H].
  unfold Fetcher._to_int_list.
  destruct (Fetcher.iter values) as [items |] eqn:Hitems; py_run;
    [| intros H; discriminate H].
  destruct (comprehension _ items) as [ys |] eqn:Hys; py_run;
    [| intros H; discriminate H].
  intros [= ->].
  exists data, hourly, values, items.
  split; [reflexivity |]. split; [exact Hhourly |]. split; [exact Hvalues |].
  split; [exact Hitems |].
  split; [exact (comprehension_length _ _ _ Hys) |].
  intros i v Hv.
  destruct (comprehension_lookup _ _ _ i v Hys Hv) as (n & Hn & Hout).
  cbv beta in Hn. destruct (is_None v); cbn [negb] in Hn.
  - injection Hn as <-. exact Hout.
  - destruct (Fetcher.to_float float_of_str v) as [x |] eqn:Hx;
      [| discriminate Hn].
    exists x, n. split; [reflexivity |]. split; [exact Hn | exact Hout].
Qed.

Lemma sea_temperature_keeps_hours_witness :
  Fetcher.fetch_sea_temperature Readings.no_float
    (Returned Readings.sea_payload)
  = Some [22; 0; 24; 21]
  /\ exists data hourly values items,
       Returned Readings.sea_payload = Returned data /\
       getitem data "hourly" = Returned hourly /\
       getitem hourly "sea_surface_temperature" = Returned values /\
       Fetcher.iter values = Returned items /\
       length [22; 0; 24; 21] = length items /\
       forall i v, items !! i = Some v ->
         if is_None v then [22; 0; 24; 21] !! i = Some 0
         else exists x n,
                Fetcher.to_float Readings.no_float v = Returned x /\
                F64.py_round x = Returned n /\
                [22; 0; 24; 21] !! i = Some n.
Proof.
  assert (H : Fetcher.fetch_sea_temperature Readings.no_float
                (Returned Readings.sea_payload)
              = Some [22; 0; 24; 21]) by (vm_compute; reflexivity).
  split; [exact H |].
  exact (sea_temperature_keeps_hours _ _ _ H).
Defined.
